(** * Ayur-Ankh backend: claim intake, worker pipeline and validation engine

    A shallow embedding of [Backend/main.py] and [Backend/tasks.py].

    Conventions of the embedding.
    - A Python [str] is a [string] whose characters are the code points
      U+0000..U+00FF; [PyStr.strip], [PyStr.lower] and
      [PyStr.utf8_encode] are exact on that range.
    - A [dict] from strings to strings is a [gmap string string];
      [d.get(k)] is [d !! k] and Python truthiness of the looked-up value
      is [get_truthy].
    - Code that may raise runs in the [outcome] monad; [try_except] is
      [try: ... except Exception as e: ...].
    - Library calls (pydicom, fitz, PIL, pytesseract, fhir.resources,
      Celery, json, os.path) are the fields of the record [Platform]. *)

From Stdlib Require Import ZArith NArith String Ascii List Bool SpecFloat.
From stdpp Require Import base strings gmap list.

#[local] Set Warnings "-clear-no-such-hyp".

(* ===================================================================== *)
(** * Python strings *)
(* ===================================================================== *)

Module PyStr.

(** [str.isspace] on one character (code points below 256). *)
Definition isspace (c : ascii) : bool :=
  let n := N_of_ascii c in
  ((9 <=? n) && (n <=? 13) || (28 <=? n) && (n <=? 32)
   || (n =? 133) || (n =? 160))%N.

(** [str.lstrip()] *)
Fixpoint lstrip (s : string) : string :=
  match s with
  | String c s' => if isspace c then lstrip s' else s
  | EmptyString => EmptyString
  end.

(** [str.rstrip()] *)
Fixpoint rstrip (s : string) : string :=
  match s with
  | String c s' =>
      match rstrip s' with
      | EmptyString => if isspace c then EmptyString else String c EmptyString
      | r => String c r
      end
  | EmptyString => EmptyString
  end.

(** [str.strip()] *)
Definition strip (s : string) : string := rstrip (lstrip s).

(** [str.lower()] on one character. *)
Definition lower_char (c : ascii) : ascii :=
  let n := N_of_ascii c in
  if ((65 <=? n) && (n <=? 90)
      || (192 <=? n) && (n <=? 222) && negb (n =? 215))%N
  then ascii_of_N (n + 32) else c.

(** [str.lower()] *)
Fixpoint lower (s : string) : string :=
  match s with
  | String c s' => String (lower_char c) (lower s')
  | EmptyString => EmptyString
  end.

(** [needle in hay] *)
Fixpoint contains (needle hay : string) : bool :=
  String.prefix needle hay
  || match hay with
     | String _ hay' => contains needle hay'
     | EmptyString => false
     end.

(** Truthiness of a [str]: non-empty. *)
Definition truthy (s : string) : bool :=
  match s with EmptyString => false | String _ _ => true end.

(** [str.encode()], UTF-8. *)
Fixpoint utf8_encode (s : string) : list N :=
  match s with
  | String c s' =>
      let n := N_of_ascii c in
      (if (n <? 128)%N then [n] else [(192 + n / 64)%N; (128 + n mod 64)%N])
        ++ utf8_encode s'
  | EmptyString => []
  end.

End PyStr.

(** [d.get(k)] used as a condition, on a dict of strings. *)
Definition get_truthy (d : gmap string string) (k : string) : bool :=
  match d !! k with
  | Some v => PyStr.truthy v
  | None => false
  end.

(** [str(d.get(k))] on a dict of strings: [str(None)] is ["None"]. *)
Definition str_get (d : gmap string string) (k : string) : string :=
  match d !! k with
  | Some v => v
  | None => "None"
  end.

(* ===================================================================== *)
(** * hashlib.sha256 (FIPS 180-4) *)
(* ===================================================================== *)

Module Sha256.

Local Open Scope N_scope.

Definition mask32 : N := 0xffffffff.
Definition add32 (x y : N) : N := (x + y) mod 2 ^ 32.
Definition rotr (k x : N) : N :=
  N.lor (N.shiftr x k) (N.land (N.shiftl x (32 - k)) mask32).

Definition Ch (x y z : N) : N :=
  N.lxor (N.land x y) (N.land (N.lxor x mask32) z).
Definition Maj (x y z : N) : N :=
  N.lxor (N.lxor (N.land x y) (N.land x z)) (N.land y z).
Definition bsig0 (x : N) : N :=
  N.lxor (N.lxor (rotr 2 x) (rotr 13 x)) (rotr 22 x).
Definition bsig1 (x : N) : N :=
  N.lxor (N.lxor (rotr 6 x) (rotr 11 x)) (rotr 25 x).
Definition ssig0 (x : N) : N :=
  N.lxor (N.lxor (rotr 7 x) (rotr 18 x)) (N.shiftr x 3).
Definition ssig1 (x : N) : N :=
  N.lxor (N.lxor (rotr 17 x) (rotr 19 x)) (N.shiftr x 10).

(** The first 64 primes. *)
Definition primes : list N :=
  [2; 3; 5; 7; 11; 13; 17; 19; 23; 29; 31; 37; 41; 43; 47; 53; 59; 61; 67;
   71; 73; 79; 83; 89; 97; 101; 103; 107; 109; 113; 127; 131; 137; 139; 149;
   151; 157; 163; 167; 173; 179; 181; 191; 193; 197; 199; 211; 223; 227;
   229; 233; 239; 241; 251; 257; 263; 269; 271; 277; 281; 283; 293; 307;
   311].

(** The integer cube root, found bit by bit from bit [bits - 1] down. *)
Fixpoint cbrt_bits (bits : nat) (n r : N) : N :=
  match bits with
  | O => r
  | S b =>
      let r' := r + 2 ^ N.of_nat b in
      cbrt_bits b n (if r' * r' * r' <=? n then r' else r)
  end.

(** The first 32 bits of the fractional part of a cube root and of a
    square root. *)
Definition cbrt_fraction (p : N) : N := cbrt_bits 36 (p * 2 ^ 96) 0 mod 2 ^ 32.
Definition sqrt_fraction (p : N) : N := N.sqrt (p * 2 ^ 64) mod 2 ^ 32.

(** The round constants: cube roots of the first 64 primes. *)
Definition K : list N := Eval vm_compute in map cbrt_fraction primes.

(** The initial hash value: square roots of the first 8 primes. *)
Definition H0 : list N := Eval vm_compute in map sqrt_fraction (firstn 8 primes).

(** Big-endian bytes of [x], [k] of them. *)
Fixpoint be_bytes (k : nat) (x : N) : list N :=
  match k with
  | O => []
  | S k' => be_bytes k' (x / 256) ++ [x mod 256]
  end.

(** Big-endian value of a byte list. *)
Definition be_word (bs : list N) : N :=
  fold_left (fun acc b => acc * 256 + b) bs 0.

(** Message padding: a 1 bit, zeros up to 56 mod 64, the bit length. *)
Definition pad (msg : list N) : list N :=
  let len := N.of_nat (length msg) in
  let zeros := N.to_nat ((64 + 55 - len mod 64) mod 64) in
  msg ++ [0x80] ++ repeat 0 zeros ++ be_bytes 8 (8 * len).

(** Cut a list into pieces of [k] elements ([fuel] bounds the pieces). *)
Fixpoint chunks {A} (fuel k : nat) (l : list A) : list (list A) :=
  match fuel, l with
  | S fuel', _ :: _ => firstn k l :: chunks fuel' k (skipn k l)
  | _, _ => []
  end.

(** The message schedule, newest word first. *)
Fixpoint extend (n : nat) (rev_w : list N) : list N :=
  match n with
  | O => rev_w
  | S n' =>
      let w := add32 (add32 (ssig1 (nth 1 rev_w 0)) (nth 6 rev_w 0))
                     (add32 (ssig0 (nth 14 rev_w 0)) (nth 15 rev_w 0)) in
      extend n' (w :: rev_w)
  end.

Definition schedule (block : list N) : list N :=
  rev (extend 48 (rev (map be_word (chunks 16 4 block)))).

(** One round on the working variables [a; b; c; d; e; f; g; h]. *)
Definition round (st : list N) (kw : N * N) : list N :=
  match st with
  | [a; b; c; d; e; f; g; h] =>
      let t1 := add32 (add32 (add32 h (bsig1 e)) (Ch e f g))
                      (add32 (fst kw) (snd kw)) in
      let t2 := add32 (bsig0 a) (Maj a b c) in
      [add32 t1 t2; a; b; c; add32 d t1; e; f; g]
  | _ => st
  end.

Definition compress (h : list N) (block : list N) : list N :=
  let st := fold_left round (combine K (schedule block)) h in
  map (fun p => add32 (fst p) (snd p)) (combine h st).

Definition digest (msg : list N) : list N :=
  let p := pad msg in
  fold_left compress (chunks (length p) 64 p) H0.

Definition hex_digit (n : N) : ascii :=
  if n <? 10 then ascii_of_N (48 + n) else ascii_of_N (87 + n).

Fixpoint hex_of_bytes (bs : list N) : string :=
  match bs with
  | b :: bs' => String (hex_digit (b / 16)) (String (hex_digit (b mod 16)) (hex_of_bytes bs'))
  | [] => EmptyString
  end.

(** [hashlib.sha256(data).hexdigest()] *)
Definition hexdigest (msg : list N) : string :=
  hex_of_bytes (flat_map (be_bytes 4) (digest msg)).

End Sha256.

(** [hashlib.sha256(s.encode()).hexdigest()] *)
Definition sha256_hex (s : string) : string :=
  Sha256.hexdigest (PyStr.utf8_encode s).

(* ===================================================================== *)
(** * Exceptions *)
(* ===================================================================== *)

(** A raised [Exception]; handlers only ever use [str(e)]. *)
Record exn := Exception { exn_class : string; exn_str : string }.

Inductive outcome (A : Type) : Type :=
| Return (a : A)
| Raise (e : exn).
Arguments Return {A} a.
Arguments Raise {A} e.

#[global] Instance outcome_ret : MRet outcome := @Return.
#[global] Instance outcome_bind : MBind outcome :=
  λ A B f m, match m with Return a => f a | Raise e => Raise e end.

(** [try: body except Exception as e: handler e] *)
Definition try_except {A} (body : outcome A) (handler : exn → outcome A)
  : outcome A :=
  match body with
  | Return a => Return a
  | Raise e => handler e
  end.

(** A [for] loop threading an accumulator; the first exception ends it. *)
Fixpoint for_each {A B} (step : A → B → outcome A) (acc : A) (l : list B)
  : outcome A :=
  match l with
  | [] => mret acc
  | x :: l' => acc' ← step acc x; for_each step acc' l'
  end.

(** [d[k]] on a dict of strings. *)
Definition getitem (d : gmap string string) (k : string) : outcome string :=
  match d !! k with
  | Some v => mret v
  | None => Raise (Exception "KeyError" ("'" +:+ k +:+ "'"))
  end.

(* ===================================================================== *)
(** * JSON values and Python truthiness *)
(* ===================================================================== *)

(** What [json.loads] returns. *)
#[warnings="-register-all"]
Inductive json : Type :=
| JNull
| JBool (b : bool)
| JInt (n : Z)
| JFloat (f : spec_float)
| JString (s : string)
| JArray (l : list json)
| JObject (m : list (string * json)).

(** [bool(v)] for a decoded JSON value. *)
Definition json_truthy (v : json) : bool :=
  match v with
  | JNull => false
  | JBool b => b
  | JInt n => negb (n =? 0)%Z
  | JFloat (S754_zero _) => false
  | JFloat _ => true
  | JString s => PyStr.truthy s
  | JArray [] => false
  | JArray (_ :: _) => true
  | JObject [] => false
  | JObject (_ :: _) => true
  end.

(** Truthiness of an [Optional[str]]. *)
Definition opt_truthy (o : option string) : bool :=
  match o with
  | Some s => PyStr.truthy s
  | None => false
  end.

(* ===================================================================== *)
(** * tasks.py: data *)
(* ===================================================================== *)

(** [claim_data], the dict built at main.py:77-83 (always these five keys;
    the two identifiers are [str], [patient_geotag] is [Optional[str]]). *)
Record ClaimData := {
  verified_patient_id : string;
  doctor_diagnosis : string;
  identity_data : json;
  consent_data : json;
  patient_geotag : option string
}.

(** One entry of [failures]. *)
Record Finding := { confidence : string; reason : string }.

(** The dict returned by [_run_validation_engine]; ["failures"] is absent
    when the status is ["PASSED"]. *)
Record ValidationResult := {
  val_status : string;
  val_failures : option (list Finding)
}.

(** The [results] dict of [process_claim_async]. *)
Record Results := {
  status : string;
  steps_completed : list string;
  ocr_results : gmap string string;
  dicom_metadata : option (gmap string string);
  lab_report_text : option string;
  validation_result : option ValidationResult;
  fhir_bundle : option json
}.

(** What the task returns: [results] (line 163) or the error dict
    (line 166). *)
Inductive TaskReturn :=
| ReturnResults (r : Results)
| ReturnError (err_status err_error : string).

Definition return_status (t : TaskReturn) : string :=
  match t with
  | ReturnResults r => status r
  | ReturnError s _ => s
  end.

(* ===================================================================== *)
(** * tasks.py: the validation engine (pure) *)
(* ===================================================================== *)

(** RULE 1: Identity Verification (lines 59-66). *)
Definition rule1 (claim_data : ClaimData) (dicom_meta : gmap string string)
  : list Finding :=
  let verified_id := PyStr.strip (verified_patient_id claim_data) in
  let dicom_id := PyStr.strip (str_get dicom_meta "PatientID") in
  if get_truthy dicom_meta "error" then
    [ {| confidence := "CRITICAL";
         reason := "DICOM Corrupt: " +:+ str_get dicom_meta "error" |} ]
  else if negb (String.eqb verified_id dicom_id) then
    [ {| confidence := "CRITICAL";
         reason := "Patient ID Mismatch: Form(" +:+ verified_id
                   +:+ ") vs DICOM(" +:+ dicom_id +:+ ")" |} ]
  else [].

(** RULE 2: Clinical Consistency (lines 68-72). *)
Definition rule2 (claim_data : ClaimData) (lab_text : string) : list Finding :=
  let diag := PyStr.lower (doctor_diagnosis claim_data) in
  let lab := PyStr.lower lab_text in
  if (PyStr.contains "critical" diag || PyStr.contains "fracture" diag)
     && PyStr.contains "normal" lab
  then [ {| confidence := "HIGH";
            reason := "Lab report says 'Normal' but Diagnosis is Critical." |} ]
  else [].

(** RULE 3: Fraud Detection - Geotag (lines 74-77). *)
Definition rule3 (claim_data : ClaimData) (file_paths : gmap string string)
  : list Finding :=
  if get_truthy file_paths "patient_photo"
     && negb (opt_truthy (patient_geotag claim_data))
  then [ {| confidence := "MEDIUM";
            reason := "Patient photo provided, but GPS geotag data is missing." |} ]
  else [].

(** RULE 4: Consent Verification (lines 79-82). *)
Definition rule4 (claim_data : ClaimData) (file_paths : gmap string string)
  : list Finding :=
  if negb (json_truthy (consent_data claim_data))
     && negb (get_truthy file_paths "consent_image")
  then [ {| confidence := "CRITICAL";
            reason := "Missing Patient Consent (Payload or Image required)." |} ]
  else [].

(** [any(f["confidence"] == sev for f in failures)] *)
Definition any_confidence (sev : string) (failures : list Finding) : bool :=
  existsb (λ f, String.eqb (confidence f) sev) failures.

(** Lines 84-87: the status from the collected findings. *)
Definition aggregate (failures : list Finding) : ValidationResult :=
  match failures with
  | [] => {| val_status := "PASSED"; val_failures := None |}
  | _ :: _ =>
      if any_confidence "CRITICAL" failures then
        {| val_status := "FAILED_CRITICAL"; val_failures := Some failures |}
      else if any_confidence "HIGH" failures then
        {| val_status := "FLAGGED_HIGH"; val_failures := Some failures |}
      else
        {| val_status := "PASSED_MEDIUM"; val_failures := Some failures |}
  end.

(** The findings in rule order. *)
Definition engine_failures (claim_data : ClaimData)
    (dicom_meta : gmap string string) (lab_text : string)
    (file_paths : gmap string string) : list Finding :=
  rule1 claim_data dicom_meta ++ rule2 claim_data lab_text
  ++ rule3 claim_data file_paths ++ rule4 claim_data file_paths.

Definition _run_validation_engine (claim_data : ClaimData)
    (dicom_meta : gmap string string) (lab_text : string)
    (file_paths ocr_results : gmap string string) : ValidationResult :=
  aggregate (engine_failures claim_data dicom_meta lab_text file_paths).

(** The findings of a result ([[]] when the key is absent). *)
Definition findings (v : ValidationResult) : list Finding :=
  default [] (val_failures v).

(* ===================================================================== *)
(** * The libraries the backend calls *)
(* ===================================================================== *)

(** Every call may raise; the arguments are those the source passes. *)
Record Platform := {
  (** [pydicom.dcmread(path, force=True)]: the data set, as keyword to
      [str(value)]. *)
  dcmread : string → outcome (gmap string string);
  (** [fitz.open(path)]: the pages in order, each given by what
      [page.get_text()] does on it. *)
  fitz_open : string → outcome (list (outcome string));
  (** [doc.close()] for the document opened from [path]. *)
  fitz_close : string → outcome unit;
  (** [PIL.Image.open(path)] and [pytesseract.image_to_string(img)]. *)
  image : Type;
  image_open : string → outcome image;
  image_to_string : image → outcome string;
  (** Lines 92-106 of tasks.py: [Patient], [Observation], [Bundle],
      [bundle.json()] and [json.loads], from the patient id and the
      diagnosis. *)
  fhir_bundle_json : string → string → outcome json;
  (** [self.update_state(state=..., meta={'step': ...})]. *)
  update_state : string → string → outcome unit;
  (** [json.loads]. *)
  json_loads : string → outcome json;
  (** [os.getcwd()] and [os.path.join]. *)
  getcwd : string;
  path_join : string → string → string;
  (** [os.makedirs(path, exist_ok=True)]. *)
  makedirs : string → outcome unit;
  (** [open(path, "wb")]. *)
  open_wb : string → outcome unit;
  (** [shutil.copyfileobj(src, f)] into the file opened at the path,
      up to the end of the [with] block, from the path and the bytes of
      the upload: [None] when every byte was written, else the exception
      raised and the bytes the file is left with. *)
  copyfileobj : string → string → option (exn * string);
  (** [process_claim_async.apply_async(args=[claim_data, file_paths],
      task_id=task_id)], from the task id and the two arguments. *)
  apply_async : string → ClaimData → gmap string string → outcome unit
}.

(* ===================================================================== *)
(** * tasks.py: extraction adapters and the Celery task *)
(* ===================================================================== *)

Section Worker.

Variable P : Platform.

(** [str(ds.get(keyword, "N/A"))] *)
Definition ds_get (ds : gmap string string) (keyword : string) : string :=
  default "N/A" (ds !! keyword).

Definition _process_dicom (file_path : string)
  : outcome (gmap string string) :=
  try_except
    (ds ← dcmread P file_path;
     mret (<["PatientID" := ds_get ds "PatientID"]>
          (<["PatientName" := ds_get ds "PatientName"]>
          (<["AccessionNumber" := ds_get ds "AccessionNumber"]>
          (<["StudyDate" := ds_get ds "StudyDate"]>
          (<["Modality" := ds_get ds "Modality"]> ∅))))))
    (λ e, mret {[ "error" := exn_str e ]}).

(** Lines 37-39: [text = ""; for page in doc: text += page.get_text()]. *)
Definition pdf_text (doc : list (outcome string)) : outcome string :=
  for_each (λ text page, t ← page; mret (text +:+ t)) "" doc.

Definition _process_pdf (file_path : string) : outcome string :=
  try_except
    (doc ← fitz_open P file_path;
     text ← pdf_text doc;
     _ ← fitz_close P file_path;
     mret text)
    (λ e, mret ("PDF Error: " +:+ exn_str e)).

Definition _process_image_ocr (file_path : string) : outcome string :=
  try_except
    (img ← image_open P file_path;
     image_to_string P img)
    (λ e, mret ("OCR Error: " +:+ exn_str e)).

Definition _generate_mock_fhir (claim_data : ClaimData) : outcome json :=
  try_except
    (fhir_bundle_json P (verified_patient_id claim_data)
                        (doctor_diagnosis claim_data))
    (λ e, mret (JObject
                  [("error", JString ("FHIR Generation Failed: "
                                      +:+ exn_str e))])).

(** The body of the loop at lines 126-140. *)
Definition ocr_step (file_paths : gmap string string) (results : Results)
    (kl : string * string) : outcome Results :=
  let '(key, label) := kl in
  if get_truthy file_paths key then
    _ ← update_state P "PROCESSING" ("Reading " +:+ label +:+ "...");
    path ← getitem file_paths key;
    '(text, lab) ←
      (if String.eqb key "lab_pdf" then
         text ← _process_pdf path; mret (text, Some text)
       else
         text ← _process_image_ocr path;
         mret (text, lab_report_text results));
    mret {| status := status results;
            steps_completed := steps_completed results ++ [label];
            ocr_results := <[key := text]> (ocr_results results);
            dicom_metadata := dicom_metadata results;
            lab_report_text := lab;
            validation_result := validation_result results;
            fhir_bundle := fhir_bundle results |}
  else mret results.

(** Lines 155-161. *)
Definition final_status (val_status : string) : string :=
  if String.eqb val_status "FAILED_CRITICAL" then "FAILED"
  else if String.eqb val_status "FLAGGED_HIGH" then "FLAGGED"
  else "COMPLETED".

(** Line 152: [val_res["status"] in ["PASSED", "FLAGGED_HIGH",
    "PASSED_MEDIUM"]]. *)
Definition fhir_wanted (val_status : string) : bool :=
  existsb (String.eqb val_status) ["PASSED"; "FLAGGED_HIGH"; "PASSED_MEDIUM"].

(** The [try] block, lines 119-163. *)
Definition process_claim_body (claim_data : ClaimData)
    (file_paths : gmap string string) : outcome Results :=
  let results := {| status := "PROCESSING"; steps_completed := [];
                    ocr_results := ∅; dicom_metadata := None;
                    lab_report_text := None; validation_result := None;
                    fhir_bundle := None |} in
  _ ← update_state P "PROCESSING" "Processing DICOM...";
  dicom_path ← getitem file_paths "dicom";
  dicom_meta ← _process_dicom dicom_path;
  let results := {| status := status results;
                    steps_completed := steps_completed results ++ ["DICOM"];
                    ocr_results := ocr_results results;
                    dicom_metadata := Some dicom_meta;
                    lab_report_text := lab_report_text results;
                    validation_result := validation_result results;
                    fhir_bundle := fhir_bundle results |} in
  results ← for_each (ocr_step file_paths) results
              [("lab_pdf", "LAB_PDF"); ("identity_doc", "IDENTITY_OCR");
               ("consent_image", "CONSENT_OCR")];
  let lab_text := default "N/A" (lab_report_text results) in
  _ ← update_state P "VALIDATING" "Running AI Validation Agents...";
  let val_res := _run_validation_engine claim_data dicom_meta lab_text
                   file_paths (ocr_results results) in
  bundle ← (if fhir_wanted (val_status val_res)
            then b ← _generate_mock_fhir claim_data; mret (Some b)
            else mret None);
  mret {| status := final_status (val_status val_res);
          steps_completed := steps_completed results;
          ocr_results := ocr_results results;
          dicom_metadata := Some dicom_meta;
          lab_report_text := Some lab_text;
          validation_result := Some val_res;
          fhir_bundle := bundle |}.

Definition process_claim_async (claim_data : ClaimData)
    (file_paths : gmap string string) : outcome TaskReturn :=
  try_except
    (results ← process_claim_body claim_data file_paths;
     mret (ReturnResults results))
    (λ e, mret (ReturnError "ERROR" (exn_str e))).

End Worker.

(* ===================================================================== *)
(** * main.py: the HTTP handlers *)
(* ===================================================================== *)

(** An uploaded file: its client-side name and its bytes. *)
Record UploadFile := { filename : string; file : string }.

(** The form fields of [POST /process-claim-async/]. *)
Module Form.
Record t := {
  verified_patient_id : string;
  doctor_diagnosis : string;
  verified_identity_payload : option string;
  digital_consent_payload : option string;
  identity_document_image : option UploadFile;
  consent_form_image : option UploadFile;
  dicom_file : UploadFile;
  lab_report_pdf : option UploadFile;
  geotagged_patient_photo : option UploadFile;
  patient_geotag : option string;
  idempotency_key : option string
}.
End Form.

(** The process state the handlers read and write: the two module-level
    stores, the tasks handed to Celery ([apply_async]: task id and the two
    arguments) and the upload area on disk. *)
Record Server := {
  IMMUTABLE_LOGS : list (gmap string string);
  IDEMPOTENCY_DB : gmap string string;
  celery_queue : list (string * ClaimData * gmap string string);
  temp_dirs : list string;
  disk : gmap string string
}.

Inductive SubmitResponse :=
| Conflict409 (error original_task_id : string)
| Accepted (message task_id idempotency_key : string).

(** Line 46: the string that is hashed. *)
Definition key_raw (patient_id dicom_name diagnosis : string) : string :=
  patient_id +:+ "-" +:+ dicom_name +:+ "-" +:+ diagnosis.

(** Lines 45-47: the key in force for a submission. *)
Definition effective_key (form : Form.t) : string :=
  let derived := sha256_hex (key_raw (Form.verified_patient_id form)
                                     (filename (Form.dicom_file form))
                                     (Form.doctor_diagnosis form)) in
  match Form.idempotency_key form with
  | Some k => if PyStr.truthy k then k else derived
  | None => derived
  end.

(** Lines 99-103: the body of [doctor_override]; [utcnow] is
    [datetime.utcnow().isoformat()]. The three arguments are required
    form fields ([Form(...)]): the body runs on requests that carry
    them. *)
Definition override_log (utcnow task_id doctor_id override_reason : string)
  : gmap string string :=
  <["event" := "OVERRIDE"]>
  (<["timestamp" := utcnow]>
  (<["task_id" := task_id]>
  (<["doctor_id" := doctor_id]>
  (<["reason" := override_reason]>
  (<["signature" := sha256_hex (task_id +:+ doctor_id +:+ override_reason)]>
   ∅))))).

Definition doctor_override (utcnow task_id doctor_id override_reason : string)
    (σ : Server) : (string * gmap string string) * Server :=
  let log := override_log utcnow task_id doctor_id override_reason in
  (("OVERRIDE_ACCEPTED", log),
   {| IMMUTABLE_LOGS := IMMUTABLE_LOGS σ ++ [log];
      IDEMPOTENCY_DB := IDEMPOTENCY_DB σ;
      celery_queue := celery_queue σ;
      temp_dirs := temp_dirs σ;
      disk := disk σ |}).

(** [GET /logs/] *)
Definition view_logs (σ : Server) : list (gmap string string) :=
  IMMUTABLE_LOGS σ.

Section Intake.

Variable P : Platform.

(** Lines 62-65: [save_file], on [file_paths] and on the upload area: the
    files on disk and the exception that [open] or the copy has raised,
    if any. A raised exception leaves the handler, so once there is one
    the later calls of lines 67-71 are not made. *)
Definition save_file (temp_dir : string) (up_file : UploadFile)
    (key : string)
    (acc : gmap string string * (gmap string string * option exn))
  : gmap string string * (gmap string string * option exn) :=
  match acc.2.2 with
  | Some _ => acc
  | None =>
      let path := path_join P temp_dir (filename up_file) in
      match open_wb P path with
      | Raise e => (acc.1, (acc.2.1, Some e))
      | Return _ =>
          match copyfileobj P path (file up_file) with
          | Some (e, written) =>
              (acc.1, (<[path := written]> acc.2.1, Some e))
          | None =>
              (<[key := path]> acc.1,
               (<[path := file up_file]> acc.2.1, None))
          end
      end
  end.

(** [if up_file: save_file(up_file, key)] *)
Definition save_optional (temp_dir : string) (up_file : option UploadFile)
    (key : string)
    (acc : gmap string string * (gmap string string * option exn))
  : gmap string string * (gmap string string * option exn) :=
  match up_file with
  | Some f => save_file temp_dir f key acc
  | None => acc
  end.

(** Lines 61 and 67-71: [file_paths], the disk and the exception raised,
    if any, when the last of these lines has been left. *)
Definition save_uploads (temp_dir : string) (form : Form.t)
    (disk0 : gmap string string)
  : gmap string string * (gmap string string * option exn) :=
  save_optional temp_dir (Form.consent_form_image form) "consent_image"
  (save_optional temp_dir (Form.identity_document_image form) "identity_doc"
  (save_optional temp_dir (Form.geotagged_patient_photo form) "patient_photo"
  (save_optional temp_dir (Form.lab_report_pdf form) "lab_pdf"
  (save_file temp_dir (Form.dicom_file form) "dicom" (∅, (disk0, None)))))).

(** [json.loads(payload) if payload else {}] *)
Definition load_payload (payload : option string) : outcome json :=
  if opt_truthy payload then json_loads P (default "" payload)
  else mret (JObject []).

(** Lines 74-83. *)
Definition prepare_claim_data (form : Form.t) : outcome ClaimData :=
  identity ← load_payload (Form.verified_identity_payload form);
  consent ← load_payload (Form.digital_consent_payload form);
  mret {| verified_patient_id := Form.verified_patient_id form;
          doctor_diagnosis := Form.doctor_diagnosis form;
          identity_data := identity;
          consent_data := consent;
          patient_geotag := Form.patient_geotag form |}.

(** [submit_claim_async]; [uuid4] is [str(uuid.uuid4())]. An exception
    raised at line 59, 64, 74, 75 or 86 leaves the handler: the key is
    not bound and the task is not queued, and what has been written to
    the upload area by then stays there. *)
Definition submit_claim_async (uuid4 : string) (form : Form.t) (σ : Server)
  : outcome SubmitResponse * Server :=
  let idempotency_key := effective_key form in
  match IDEMPOTENCY_DB σ !! idempotency_key with
  | Some original =>
      (Return (Conflict409 "Duplicate Submission Detected" original), σ)
  | None =>
      let task_id := uuid4 in
      let temp_dir :=
        path_join P (path_join P (getcwd P) "temp_uploads") task_id in
      match makedirs P temp_dir with
      | Raise e => (Raise e, σ)
      | Return _ =>
          let saved := save_uploads temp_dir form (disk σ) in
          let stored :=
            {| IMMUTABLE_LOGS := IMMUTABLE_LOGS σ;
               IDEMPOTENCY_DB := IDEMPOTENCY_DB σ;
               celery_queue := celery_queue σ;
               temp_dirs := temp_dirs σ ++ [temp_dir];
               disk := saved.2.1 |} in
          match saved.2.2 with
          | Some e => (Raise e, stored)
          | None =>
              match prepare_claim_data form with
              | Raise e => (Raise e, stored)
              | Return claim_data =>
                  match apply_async P task_id claim_data saved.1 with
                  | Raise e => (Raise e, stored)
                  | Return _ =>
                      (Return (Accepted "Claim accepted." task_id
                                 idempotency_key),
                       {| IMMUTABLE_LOGS := IMMUTABLE_LOGS σ;
                          IDEMPOTENCY_DB :=
                            <[idempotency_key := task_id]>
                              (IDEMPOTENCY_DB σ);
                          celery_queue :=
                            celery_queue σ
                            ++ [(task_id, claim_data, saved.1)];
                          temp_dirs := temp_dirs σ ++ [temp_dir];
                          disk := saved.2.1 |})
                  end
              end
          end
      end
  end.

End Intake.

(* ===================================================================== *)
(** * The specification's vocabulary *)
(* ===================================================================== *)

(** The three severities a finding may carry. *)
Definition is_severity (s : string) : Prop :=
  s = "CRITICAL" ∨ s = "HIGH" ∨ s = "MEDIUM".

(** A finding of severity [sev] exists in [fs]: list membership, not the
    code's test. *)
Definition has_severity (sev : string) (fs : list Finding) : Prop :=
  ∃ f, f ∈ fs ∧ confidence f = sev.

(** The severity ladder as the specification words it: the highest
    severity present decides, [PASSED] when none is. Presence is [Exists]
    on the list, decided by the library; nothing of tasks.py is used. *)
Definition ladder_status (fs : list Finding) : string :=
  if decide (Exists (λ f, confidence f = "CRITICAL") fs)
  then "FAILED_CRITICAL"
  else if decide (Exists (λ f, confidence f = "HIGH") fs)
  then "FLAGGED_HIGH"
  else if decide (Exists (λ f, confidence f = "MEDIUM") fs)
  then "PASSED_MEDIUM"
  else "PASSED".

(** The terminal mapping as the specification words it. *)
Definition terminal_mapping (val_status task_status : string) : Prop :=
  (val_status = "FAILED_CRITICAL" ∧ task_status = "FAILED")
  ∨ (val_status = "FLAGGED_HIGH" ∧ task_status = "FLAGGED")
  ∨ ((val_status = "PASSED" ∨ val_status = "PASSED_MEDIUM")
     ∧ task_status = "COMPLETED").

(** The terminal task states. *)
Definition is_terminal (s : string) : Prop :=
  s = "COMPLETED" ∨ s = "FLAGGED" ∨ s = "FAILED" ∨ s = "ERROR".

(** The findings of the four rules. *)
Definition corrupt_finding (err : string) : Finding :=
  {| confidence := "CRITICAL"; reason := "DICOM Corrupt: " +:+ err |}.
Definition mismatch_finding (verified_id dicom_id : string) : Finding :=
  {| confidence := "CRITICAL";
     reason := "Patient ID Mismatch: Form(" +:+ verified_id
               +:+ ") vs DICOM(" +:+ dicom_id +:+ ")" |}.
Definition consent_finding : Finding :=
  {| confidence := "CRITICAL";
     reason := "Missing Patient Consent (Payload or Image required)." |}.

(** The five DICOM fields the adapter reports. *)
Definition dicom_fields : list string :=
  ["PatientID"; "PatientName"; "AccessionNumber"; "StudyDate"; "Modality"].

(** [results] once the DICOM step is done (line 122). *)
Definition results_after_dicom (dicom_meta : gmap string string) : Results :=
  {| status := "PROCESSING"; steps_completed := ["DICOM"];
     ocr_results := ∅; dicom_metadata := Some dicom_meta;
     lab_report_text := None; validation_result := None;
     fhir_bundle := None |}.

(** The optional documents of the loop at line 126. *)
Definition ocr_roles : list (string * string) :=
  [("lab_pdf", "LAB_PDF"); ("identity_doc", "IDENTITY_OCR");
   ("consent_image", "CONSENT_OCR")].

(** The error dict of [_generate_mock_fhir]. *)
Definition fhir_error (e : exn) : json :=
  JObject [("error", JString ("FHIR Generation Failed: " +:+ exn_str e))].

(** What [_generate_mock_fhir] stores, from what the FHIR library did. *)
Definition fhir_result (P : Platform) (claim_data : ClaimData) : json :=
  match fhir_bundle_json P (verified_patient_id claim_data)
                           (doctor_diagnosis claim_data) with
  | Return bundle => bundle
  | Raise e => fhir_error e
  end.

(** [results] as returned at line 163, from the DICOM metadata and the
    state of [results] after the loop. *)
Definition finished_results (P : Platform) (claim_data : ClaimData)
    (file_paths dicom_meta : gmap string string) (results : Results)
  : Results :=
  let lab_text := default "N/A" (lab_report_text results) in
  let val_res := _run_validation_engine claim_data dicom_meta lab_text
                   file_paths (ocr_results results) in
  {| status := final_status (val_status val_res);
     steps_completed := steps_completed results;
     ocr_results := ocr_results results;
     dicom_metadata := Some dicom_meta;
     lab_report_text := Some lab_text;
     validation_result := Some val_res;
     fhir_bundle := if fhir_wanted (val_status val_res)
                    then Some (fhir_result P claim_data) else None |}.

(** The dict [_process_dicom] builds from a data set. *)
Definition dicom_summary (ds : gmap string string) : gmap string string :=
  list_to_map ((λ k, (k, default "N/A" (ds !! k))) <$> dicom_fields).

(** The seal a log entry should carry, recomputed from its own fields
    with the formula of [doctor_override]. *)
Definition seal_verifies (log : gmap string string) : bool :=
  match log !! "signature" with
  | Some sig =>
      String.eqb sig (sha256_hex (str_get log "task_id"
                                  +:+ str_get log "doctor_id"
                                  +:+ str_get log "reason"))
  | None => false
  end.

(** The requests the server handles, and a run of them. *)
Inductive Request :=
| Submit (uuid4 : string) (form : Form.t)
| Override (utcnow task_id doctor_id override_reason : string).

Definition handle (P : Platform) (σ : Server) (req : Request) : Server :=
  match req with
  | Submit uuid4 form => (submit_claim_async P uuid4 form σ).2
  | Override utcnow task_id doctor_id override_reason =>
      (doctor_override utcnow task_id doctor_id override_reason σ).2
  end.

Definition run (P : Platform) (σ : Server) (reqs : list Request) : Server :=
  foldl (handle P) σ reqs.

(** The triple the derived key is made of. *)
Definition key_triple (form : Form.t) : string * string * string :=
  (Form.verified_patient_id form, filename (Form.dicom_file form),
   Form.doctor_diagnosis form).

(* ===================================================================== *)
(** * Sample data *)
(* ===================================================================== *)

Definition sample_dataset : gmap string string :=
  <["PatientID" := "P123"]> (<["Modality" := "CT"]> ∅).

(** A platform on which every library call succeeds. *)
Definition sample_platform : Platform := {|
  dcmread := λ _, Return sample_dataset;
  fitz_open := λ _, Return [Return "Haemoglobin: normal. "; Return "End."];
  fitz_close := λ _, Return tt;
  image := string;
  image_open := λ path, Return path;
  image_to_string := λ _, Return "scanned text";
  fhir_bundle_json := λ pid diag,
    Return (JObject [("resourceType", JString "Bundle");
                     ("type", JString "transaction")]);
  update_state := λ _ _, Return tt;
  json_loads := λ s,
    if String.eqb s "{}" then Return (JObject [])
    else if String.eqb s "[1]" then Return (JArray [JInt 1])
    else Raise (Exception "JSONDecodeError" "Expecting value");
  getcwd := "/srv";
  path_join := λ a b, a +:+ "/" +:+ b;
  makedirs := λ _, Return tt;
  open_wb := λ _, Return tt;
  copyfileobj := λ _ _, None;
  apply_async := λ _ _ _, Return tt
|}.

(** [P] with another behaviour of one library. *)
Definition with_fhir (P : Platform)
    (f : string → string → outcome json) : Platform := {|
  dcmread := dcmread P; fitz_open := fitz_open P; fitz_close := fitz_close P;
  image := image P; image_open := image_open P;
  image_to_string := image_to_string P;
  fhir_bundle_json := f;
  update_state := update_state P; json_loads := json_loads P;
  getcwd := getcwd P; path_join := path_join P;
  makedirs := makedirs P; open_wb := open_wb P;
  copyfileobj := copyfileobj P; apply_async := apply_async P
|}.

Definition with_dcmread (P : Platform)
    (f : string → outcome (gmap string string)) : Platform := {|
  dcmread := f; fitz_open := fitz_open P; fitz_close := fitz_close P;
  image := image P; image_open := image_open P;
  image_to_string := image_to_string P;
  fhir_bundle_json := fhir_bundle_json P;
  update_state := update_state P; json_loads := json_loads P;
  getcwd := getcwd P; path_join := path_join P;
  makedirs := makedirs P; open_wb := open_wb P;
  copyfileobj := copyfileobj P; apply_async := apply_async P
|}.

Definition with_update_state (P : Platform)
    (f : string → string → outcome unit) : Platform := {|
  dcmread := dcmread P; fitz_open := fitz_open P; fitz_close := fitz_close P;
  image := image P; image_open := image_open P;
  image_to_string := image_to_string P;
  fhir_bundle_json := fhir_bundle_json P;
  update_state := f; json_loads := json_loads P;
  getcwd := getcwd P; path_join := path_join P;
  makedirs := makedirs P; open_wb := open_wb P;
  copyfileobj := copyfileobj P; apply_async := apply_async P
|}.

Definition with_fitz_open (P : Platform)
    (f : string → outcome (list (outcome string))) : Platform := {|
  dcmread := dcmread P; fitz_open := f; fitz_close := fitz_close P;
  image := image P; image_open := image_open P;
  image_to_string := image_to_string P;
  fhir_bundle_json := fhir_bundle_json P;
  update_state := update_state P; json_loads := json_loads P;
  getcwd := getcwd P; path_join := path_join P;
  makedirs := makedirs P; open_wb := open_wb P;
  copyfileobj := copyfileobj P; apply_async := apply_async P
|}.

Definition sample_claim : ClaimData := {|
  verified_patient_id := "P123";
  doctor_diagnosis := "Hairline fracture of the left wrist";
  identity_data := JObject [];
  consent_data := JArray [JInt 1];
  patient_geotag := Some "19.07,72.87"
|}.

Definition sample_paths : gmap string string :=
  <["dicom" := "/srv/temp_uploads/t1/scan.dcm"]> ∅.

Definition sample_upload : UploadFile :=
  {| filename := "scan.dcm"; file := "DICM" |}.

Definition sample_form : Form.t := {|
  Form.verified_patient_id := "P123";
  Form.doctor_diagnosis := "Hairline fracture of the left wrist";
  Form.verified_identity_payload := None;
  Form.digital_consent_payload := Some "[1]";
  Form.identity_document_image := None;
  Form.consent_form_image := None;
  Form.dicom_file := sample_upload;
  Form.lab_report_pdf := None;
  Form.geotagged_patient_photo := None;
  Form.patient_geotag := None;
  Form.idempotency_key := None
|}.

Definition empty_server : Server := {|
  IMMUTABLE_LOGS := []; IDEMPOTENCY_DB := ∅; celery_queue := [];
  temp_dirs := []; disk := ∅
|}.

(** [dcmread] runs out of memory on a damaged file: [str(MemoryError())]
    is the empty string. *)
Definition memory_error_platform : Platform :=
  with_dcmread sample_platform (λ _, Raise (Exception "MemoryError" "")).

(** A claim whose declared patient id is the text [None]. *)
Definition none_claim : ClaimData := {|
  verified_patient_id := "None";
  doctor_diagnosis := "Routine check";
  identity_data := JObject [];
  consent_data := JArray [JInt 1];
  patient_geotag := None
|}.

(** The sample form with an empty JSON object as its consent payload. *)
Definition empty_consent_form : Form.t := {|
  Form.verified_patient_id := "P123";
  Form.doctor_diagnosis := "Hairline fracture of the left wrist";
  Form.verified_identity_payload := None;
  Form.digital_consent_payload := Some "{}";
  Form.identity_document_image := None;
  Form.consent_form_image := None;
  Form.dicom_file := sample_upload;
  Form.lab_report_pdf := None;
  Form.geotagged_patient_photo := None;
  Form.patient_geotag := None;
  Form.idempotency_key := None
|}.

(** Rule 4 as the specification words it: the finding is raised exactly
    when the submission carries neither a consent payload nor a consent
    image. *)
Definition consent_rule_as_specified (P : Platform) (form : Form.t) : Prop :=
  ∀ claim_data temp_dir disk0,
    prepare_claim_data P form = Return claim_data →
    rule4 claim_data (save_uploads P temp_dir form disk0).1
      = [consent_finding]
    ↔ Form.digital_consent_payload form = None
      ∧ Form.consent_form_image form = None.

(** [os.path.join] gives the empty path only from two empty parts. *)
Definition join_nonempty (P : Platform) : Prop :=
  ∀ a b, path_join P a b = "" → a = "" ∧ b = "".

(** The server after the sample submission. *)
Definition sample_server : Server :=
  (submit_claim_async sample_platform "uuid-1" sample_form empty_server).2.

(** Two submissions with different triples whose hyphen-joined texts
    are the same: [a-b-c-d]. *)
Definition hyphen_form_1 : Form.t := {|
  Form.verified_patient_id := "a-b";
  Form.doctor_diagnosis := "d";
  Form.verified_identity_payload := None;
  Form.digital_consent_payload := None;
  Form.identity_document_image := None;
  Form.consent_form_image := None;
  Form.dicom_file := {| filename := "c"; file := "DICM" |};
  Form.lab_report_pdf := None;
  Form.geotagged_patient_photo := None;
  Form.patient_geotag := None;
  Form.idempotency_key := None
|}.

Definition hyphen_form_2 : Form.t := {|
  Form.verified_patient_id := "a";
  Form.doctor_diagnosis := "d";
  Form.verified_identity_payload := None;
  Form.digital_consent_payload := None;
  Form.identity_document_image := None;
  Form.consent_form_image := None;
  Form.dicom_file := {| filename := "b-c"; file := "DICM" |};
  Form.lab_report_pdf := None;
  Form.geotagged_patient_photo := None;
  Form.patient_geotag := None;
  Form.idempotency_key := None
|}.

(** The FHIR library rejects the patient id. *)
Definition fhir_down_platform : Platform :=
  with_fhir sample_platform
    (λ _ _, Raise (Exception "ValidationError" "id: string does not match")).

(** PyMuPDF cannot open the lab report. *)
Definition pdf_down_platform : Platform :=
  with_fitz_open sample_platform
    (λ _, Raise (Exception "FileDataError" "cannot open broken document")).

(** The result backend is lost when validation is announced. *)
Definition backend_down_platform : Platform :=
  with_update_state sample_platform
    (λ state _, if String.eqb state "VALIDATING"
                then Raise (Exception "ConnectionError" "Redis unreachable")
                else Return tt).

(* ===================================================================== *)
(** * Further vocabulary *)
(* ===================================================================== *)

(** The findings of Rules 2 and 3. *)
Definition clinical_finding : Finding :=
  {| confidence := "HIGH";
     reason := "Lab report says 'Normal' but Diagnosis is Critical." |}.
Definition geotag_finding : Finding :=
  {| confidence := "MEDIUM";
     reason := "Patient photo provided, but GPS geotag data is missing." |}.

(** A text made of blank characters only. *)
Fixpoint all_space (s : string) : bool :=
  match s with
  | String c s' => PyStr.isspace c && all_space s'
  | EmptyString => true
  end.

(** [claim_data] with another declared patient id. *)
Definition with_patient_id (claim_data : ClaimData) (patient_id : string)
  : ClaimData :=
  {| verified_patient_id := patient_id;
     doctor_diagnosis := doctor_diagnosis claim_data;
     identity_data := identity_data claim_data;
     consent_data := consent_data claim_data;
     patient_geotag := patient_geotag claim_data |}.

(** The diagnosis names a critical condition (the test of Rule 2). *)
Definition critical_diagnosis (claim_data : ClaimData) : bool :=
  PyStr.contains "critical" (PyStr.lower (doctor_diagnosis claim_data))
  || PyStr.contains "fracture" (PyStr.lower (doctor_diagnosis claim_data)).

(** The optional documents that have a stored path, in loop order. *)
Definition present_roles (file_paths : gmap string string)
  : list (string * string) :=
  List.filter (λ kl, get_truthy file_paths kl.1) ocr_roles.

(** [P] with another image library (PIL and pytesseract). *)
Definition with_ocr (P : Platform) (img : Type)
    (open : string → outcome img) (to_string : img → outcome string)
  : Platform := {|
  dcmread := dcmread P; fitz_open := fitz_open P; fitz_close := fitz_close P;
  image := img; image_open := open; image_to_string := to_string;
  fhir_bundle_json := fhir_bundle_json P;
  update_state := update_state P; json_loads := json_loads P;
  getcwd := getcwd P; path_join := path_join P;
  makedirs := makedirs P; open_wb := open_wb P;
  copyfileobj := copyfileobj P; apply_async := apply_async P
|}.

(** Two [results] dicts that agree on every key but [ocr_results]. *)
Definition same_but_ocr (r r' : Results) : Prop :=
  status r' = status r
  ∧ steps_completed r' = steps_completed r
  ∧ dicom_metadata r' = dicom_metadata r
  ∧ lab_report_text r' = lab_report_text r
  ∧ validation_result r' = validation_result r
  ∧ fhir_bundle r' = fhir_bundle r.

(** Two outcomes that raise the same exception or return related values. *)
Definition outcomes_agree {A} (R : A → A → Prop) (m m' : outcome A) : Prop :=
  match m, m' with
  | Return a, Return a' => R a a'
  | Raise e, Raise e' => e = e'
  | _, _ => False
  end.

(** The log entry a request adds, if any. *)
Definition log_of (req : Request) : option (gmap string string) :=
  match req with
  | Submit _ _ => None
  | Override utcnow task_id doctor_id override_reason =>
      Some (override_log utcnow task_id doctor_id override_reason)
  end.

(** The task ids handed to Celery so far. *)
Definition queued_ids (σ : Server) : list string := (celery_queue σ).*1.*1.

(** The document roles of [file_paths]. *)
Definition document_roles : gset string :=
  {[ "dicom"; "lab_pdf"; "patient_photo"; "identity_doc"; "consent_image" ]}.

(** The upload directory of a task. *)
Definition upload_dir (P : Platform) (task_id : string) : string :=
  path_join P (path_join P (getcwd P) "temp_uploads") task_id.

(** One queued task per bound key. *)
Definition ledger_consistent (σ : Server) : Prop :=
  size (IDEMPOTENCY_DB σ) = length (celery_queue σ)
  ∧ ∀ t, (∃ k, IDEMPOTENCY_DB σ !! k = Some t) ↔ t ∈ queued_ids σ.

(** What lines 62-71 leave behind when none of their calls raises:
    [file_paths] and the disk. *)
Definition written_file (P : Platform) (temp_dir : string)
    (up_file : UploadFile) (key : string)
    (acc : gmap string string * gmap string string)
  : gmap string string * gmap string string :=
  let path := path_join P temp_dir (filename up_file) in
  (<[key := path]> acc.1, <[path := file up_file]> acc.2).

Definition written_optional (P : Platform) (temp_dir : string)
    (up_file : option UploadFile) (key : string)
    (acc : gmap string string * gmap string string)
  : gmap string string * gmap string string :=
  match up_file with
  | Some f => written_file P temp_dir f key acc
  | None => acc
  end.

Definition written_uploads (P : Platform) (temp_dir : string)
    (form : Form.t) (disk0 : gmap string string)
  : gmap string string * gmap string string :=
  written_optional P temp_dir (Form.consent_form_image form) "consent_image"
  (written_optional P temp_dir (Form.identity_document_image form)
     "identity_doc"
  (written_optional P temp_dir (Form.geotagged_patient_photo form)
     "patient_photo"
  (written_optional P temp_dir (Form.lab_report_pdf form) "lab_pdf"
  (written_file P temp_dir (Form.dicom_file form) "dicom" (∅, disk0))))).

(** Every path recorded in [file_paths] names a file on disk. *)
Definition paths_on_disk (acc : gmap string string * gmap string string)
  : Prop :=
  ∀ role path, acc.1 !! role = Some path → is_Some (acc.2 !! path).

(** A submission that carries its own idempotency key, and another one
    for a different patient that reuses the key. *)
Definition keyed_form : Form.t := {|
  Form.verified_patient_id := "P123";
  Form.doctor_diagnosis := "Hairline fracture of the left wrist";
  Form.verified_identity_payload := None;
  Form.digital_consent_payload := Some "[1]";
  Form.identity_document_image := None;
  Form.consent_form_image := None;
  Form.dicom_file := sample_upload;
  Form.lab_report_pdf := None;
  Form.geotagged_patient_photo := None;
  Form.patient_geotag := None;
  Form.idempotency_key := Some "order-42"
|}.

Definition keyed_form_other_patient : Form.t := {|
  Form.verified_patient_id := "P777";
  Form.doctor_diagnosis := "Sprain";
  Form.verified_identity_payload := None;
  Form.digital_consent_payload := None;
  Form.identity_document_image := None;
  Form.consent_form_image := None;
  Form.dicom_file := {| filename := "knee.dcm"; file := "DICM" |};
  Form.lab_report_pdf := None;
  Form.geotagged_patient_photo := None;
  Form.patient_geotag := None;
  Form.idempotency_key := Some "order-42"
|}.

(** A submission whose consent payload is not JSON. *)
Definition bad_json_form : Form.t := {|
  Form.verified_patient_id := "P123";
  Form.doctor_diagnosis := "Hairline fracture of the left wrist";
  Form.verified_identity_payload := None;
  Form.digital_consent_payload := Some "{oops";
  Form.identity_document_image := None;
  Form.consent_form_image := None;
  Form.dicom_file := sample_upload;
  Form.lab_report_pdf := None;
  Form.geotagged_patient_photo := None;
  Form.patient_geotag := None;
  Form.idempotency_key := None
|}.

(** A submission whose consent image has the name of its DICOM file. *)
Definition same_name_form : Form.t := {|
  Form.verified_patient_id := "P123";
  Form.doctor_diagnosis := "Hairline fracture of the left wrist";
  Form.verified_identity_payload := None;
  Form.digital_consent_payload := None;
  Form.identity_document_image := None;
  Form.consent_form_image := Some {| filename := "scan.dcm"; file := "PNG" |};
  Form.dicom_file := sample_upload;
  Form.lab_report_pdf := None;
  Form.geotagged_patient_photo := None;
  Form.patient_geotag := None;
  Form.idempotency_key := None
|}.

(* ===================================================================== *)
(** * edit_dicom.py: the test-file script *)
(* ===================================================================== *)

(** What the script touches of a pydicom [FileDataset]: its elements, as
    keyword to [str(value)], and the three attributes of lines 36-44
    ([None] when the object does not have the attribute). *)
Record DicomFile := {
  elements : gmap string string;
  file_meta : option (gmap string string);
  is_little_endian : option bool;
  is_implicit_VR : option bool
}.

Definition INPUT_FILE : string := "sample.dcm".
Definition OUTPUT_FILE : string := "test_patient_good.dcm".
Definition NEW_PATIENT_ID : string := "PATIENT_GOOD_001".
Definition NEW_PATIENT_NAME : string := "Test^Patient".

(** [ds.PatientID]: reading an element that is absent raises. *)
Definition get_PatientID (ds : DicomFile) : outcome string :=
  match elements ds !! "PatientID" with
  | Some v => mret v
  | None =>
      Raise (Exception "AttributeError"
               "'FileDataset' object has no attribute 'PatientID'")
  end.

(** Lines 38-41: the minimal file meta information. *)
Definition minimal_file_meta : gmap string string :=
  <["MediaStorageSOPClassUID" := "1.2.840.10008.5.1.4.1.1.2"]>
  (<["MediaStorageSOPInstanceUID" := "1.2.3"]>
  (<["ImplementationClassUID" := "1.2.3.4"]> ∅)).

(** Lines 26-44: the edits, with [date] and [time] the two [strftime]
    texts of [datetime.now()]. *)
Definition edit_dataset (date time : string) (ds : DicomFile) : DicomFile :=
  let elems :=
    <["StudyTime" := time]>
    (<["StudyDate" := date]>
    (<["PatientName" := NEW_PATIENT_NAME]>
    (<["PatientID" := NEW_PATIENT_ID]> (elements ds)))) in
  match file_meta ds with
  | Some meta =>
      {| elements := elems; file_meta := Some meta;
         is_little_endian := is_little_endian ds;
         is_implicit_VR := is_implicit_VR ds |}
  | None =>
      {| elements := elems; file_meta := Some minimal_file_meta;
         is_little_endian := Some true;
         is_implicit_VR := Some true |}
  end.

(** Lines 50-53: the two handlers, as the line they print. *)
Definition edit_handler (e : exn) : string :=
  if String.eqb (exn_class e) "FileNotFoundError" then
    "ERROR: Could not find " +:+ INPUT_FILE
    +:+ ". Make sure it's in the same folder as this script."
  else "An error occurred: " +:+ exn_str e.

(** The script: the lines it prints and the data set it hands to
    [ds.save_as] for [OUTPUT_FILE], if it gets that far. [read] is
    [pydicom.dcmread(path, force=True)] and [save_as] is
    [ds.save_as(path)]: when it returns, the data set handed over is the
    file saved; what a call that raises has left under [OUTPUT_FILE] is
    not modelled. *)
Definition edit_dicom
    (read : string → outcome DicomFile)
    (save_as : string → DicomFile → outcome unit)
    (date time : string) : list string * option DicomFile :=
  let out := ["Reading " +:+ INPUT_FILE +:+ "..."] in
  match read INPUT_FILE with
  | Raise e => (out ++ [edit_handler e], None)
  | Return ds =>
      match get_PatientID ds with
      | Raise e => (out ++ [edit_handler e], None)
      | Return old =>
          let out :=
            out ++ ["Changing PatientID from '" +:+ old +:+ "' to '"
                    +:+ NEW_PATIENT_ID +:+ "'..."] in
          let ds := edit_dataset date time ds in
          match save_as OUTPUT_FILE ds with
          | Raise e => (out ++ [edit_handler e], Some ds)
          | Return _ =>
              (out ++ ["SUCCESS! Saved new DICOM file to: " +:+ OUTPUT_FILE;
                       "Use this file for your 'Good' test case."],
               Some ds)
          end
      end
  end.

(** The keywords the script writes. *)
Definition edited_keywords : list string :=
  ["PatientID"; "PatientName"; "StudyDate"; "StudyTime"].

(** A sample input file for the script. *)
Definition sample_dicom_file : DicomFile := {|
  elements := <["PatientID" := "ANON"]> (<["Modality" := "CT"]> ∅);
  file_meta := None;
  is_little_endian := None;
  is_implicit_VR := None
|}.

(** The sample platform reading what the script has saved. *)
Definition reads_back (ds : DicomFile) : Platform :=
  with_dcmread sample_platform (λ _, Return (elements ds)).

(* ===================================================================== *)
(** * Test vectors *)
(* ===================================================================== *)

Example sha256_abc :
  sha256_hex "abc"
  = "ba7816bf8f01cfea414140de5dae2223b00361a396177a9cb410ff61f20015ad".
Proof. vm_compute. reflexivity. Qed.

Example sha256_empty :
  sha256_hex ""
  = "e3b0c44298fc1c149afbf4c8996fb92427ae41e4649b934ca495991b7852b855".
Proof. vm_compute. reflexivity. Qed.

Example sha256_two_blocks :
  sha256_hex (String.concat "" (repeat "a" 200))
  = "c2a908d98f5df987ade41b5fce213067efbcc21ef2240212a41e54b5e7c28ae5".
Proof. vm_compute. reflexivity. Qed.

Example sha256_latin1 :
  sha256_hex (String (ascii_of_N 233) "")
  = "4a99557e4033c3539de2eb65472017cad5f9557f7a0625a09f1c3f6e2ba69c4c".
Proof. vm_compute. reflexivity. Qed.

Example sha256_constants :
  nth 0 Sha256.K 0%N = 0x428a2f98%N ∧ nth 63 Sha256.K 0%N = 0xc67178f2%N
  ∧ nth 0 Sha256.H0 0%N = 0x6a09e667%N ∧ nth 7 Sha256.H0 0%N = 0x5be0cd19%N.
Proof. vm_compute. repeat split; reflexivity. Qed.

Example strip_example :
  PyStr.strip (String (ascii_of_N 32) (String (ascii_of_N 28) " a  ")) = "a".
Proof. reflexivity. Qed.

(* ===================================================================== *)
(** * The validation engine *)
(* ===================================================================== *)

Section Engine.

Implicit Types (fs : list Finding) (cd : ClaimData).
Implicit Types (dm fp ocr : gmap string string) (lab : string).

Lemma rule1_cases cd dm :
  rule1 cd dm = [] ∨ ∃ f, rule1 cd dm = [f] ∧ confidence f = "CRITICAL".
Proof.
  unfold rule1.
  destruct (get_truthy dm "error"); [right; eauto |].
  destruct (negb _); [right; eauto | by left].
Qed.

Lemma rule2_cases cd lab :
  rule2 cd lab = [] ∨ ∃ f, rule2 cd lab = [f] ∧ confidence f = "HIGH".
Proof. unfold rule2. destruct (_ && _); [right; eauto | by left]. Qed.

Lemma rule3_cases cd fp :
  rule3 cd fp = [] ∨ ∃ f, rule3 cd fp = [f] ∧ confidence f = "MEDIUM".
Proof. unfold rule3. destruct (_ && _); [right; eauto | by left]. Qed.

Lemma rule4_cases cd fp :
  rule4 cd fp = [] ∨ rule4 cd fp = [consent_finding].
Proof. unfold rule4. destruct (_ && _); [by right | by left]. Qed.

(** Every finding the engine collects carries one of the three
    severities. *)
Lemma engine_failures_severity cd dm lab fp :
  Forall (λ f, is_severity (confidence f)) (engine_failures cd dm lab fp).
Proof.
  unfold engine_failures, is_severity.
  destruct (rule1_cases cd dm) as [-> | (f1 & -> & ?)];
    destruct (rule2_cases cd lab) as [-> | (f2 & -> & ?)];
    destruct (rule3_cases cd fp) as [-> | (f3 & -> & ?)];
    destruct (rule4_cases cd fp) as [-> | ->];
    simpl; repeat apply Forall_cons_2; try apply Forall_nil_2;
    simpl; auto.
Qed.

Lemma any_confidence_true sev fs :
  any_confidence sev fs = true ↔ ∃ f, f ∈ fs ∧ confidence f = sev.
Proof.
  unfold any_confidence. rewrite existsb_exists. split.
  - intros (f & Hin & Heq). exists f. split.
    + by apply list_elem_of_In.
    + by apply String.eqb_eq.
  - intros (f & Hin & Heq). exists f. split.
    + by apply list_elem_of_In.
    + by apply String.eqb_eq.
Qed.

Lemma any_confidence_false sev fs :
  any_confidence sev fs = false ↔ Forall (λ f, confidence f ≠ sev) fs.
Proof.
  rewrite <- not_true_iff_false, any_confidence_true, Forall_forall.
  split.
  - intros Hno f Hin Heq. apply Hno. eauto.
  - intros Hall (f & Hin & Heq). by apply (Hall f).
Qed.

(** The code's test agrees with list membership. *)
Lemma any_confidence_Exists sev fs :
  any_confidence sev fs = true ↔ Exists (λ f, confidence f = sev) fs.
Proof. by rewrite any_confidence_true, Exists_exists. Qed.

Lemma any_confidence_decide sev fs :
  any_confidence sev fs
  = bool_decide (Exists (λ f, confidence f = sev) fs).
Proof.
  apply eq_true_iff_eq.
  by rewrite any_confidence_Exists, bool_decide_eq_true.
Qed.

Lemma ladder_status_any fs :
  ladder_status fs
  = if any_confidence "CRITICAL" fs then "FAILED_CRITICAL"
    else if any_confidence "HIGH" fs then "FLAGGED_HIGH"
    else if any_confidence "MEDIUM" fs then "PASSED_MEDIUM"
    else "PASSED".
Proof.
  unfold ladder_status. rewrite !any_confidence_decide.
  repeat case_decide; repeat case_bool_decide; done.
Qed.

(** The ladder, read off list membership. *)
Lemma ladder_status_cases fs :
  (ladder_status fs = "FAILED_CRITICAL" ↔ has_severity "CRITICAL" fs)
  ∧ (ladder_status fs = "FLAGGED_HIGH"
     ↔ ¬ has_severity "CRITICAL" fs ∧ has_severity "HIGH" fs)
  ∧ (ladder_status fs = "PASSED_MEDIUM"
     ↔ ¬ has_severity "CRITICAL" fs ∧ ¬ has_severity "HIGH" fs
       ∧ has_severity "MEDIUM" fs)
  ∧ (ladder_status fs = "PASSED"
     ↔ ¬ has_severity "CRITICAL" fs ∧ ¬ has_severity "HIGH" fs
       ∧ ¬ has_severity "MEDIUM" fs).
Proof.
  assert (∀ sev, has_severity sev fs
                 ↔ Exists (λ f, confidence f = sev) fs) as Hx.
  { intros sev. unfold has_severity. symmetry. apply Exists_exists. }
  unfold ladder_status. rewrite !Hx.
  repeat case_decide; naive_solver.
Qed.

(** On findings that carry severities, the code's cascade (which tests
    for emptiness first and never looks for MEDIUM) is the ladder. *)
Lemma aggregate_ladder fs :
  Forall (λ f, is_severity (confidence f)) fs →
  val_status (aggregate fs) = ladder_status fs.
Proof.
  intros Hsev. rewrite ladder_status_any. destruct fs as [| f fs]; [done |].
  unfold aggregate.
  destruct (any_confidence "CRITICAL" (f :: fs)) eqn:Hc; [done |].
  destruct (any_confidence "HIGH" (f :: fs)) eqn:Hh; [done |].
  assert (any_confidence "MEDIUM" (f :: fs) = true) as ->; [| done].
  apply any_confidence_true. exists f. split; [left |].
  apply any_confidence_false, Forall_cons in Hc as [Hc _].
  apply any_confidence_false, Forall_cons in Hh as [Hh _].
  apply Forall_cons in Hsev as [[? | [? | ?]] _]; done.
Qed.

Lemma any_confidence_perm sev fs fs' :
  fs ≡ₚ fs' → any_confidence sev fs = any_confidence sev fs'.
Proof.
  intros Hp. apply eq_true_iff_eq. rewrite !any_confidence_true.
  by setoid_rewrite Hp.
Qed.

(** The ladder ignores the order and the multiplicity of findings. *)
Lemma ladder_status_perm fs fs' :
  fs ≡ₚ fs' → ladder_status fs = ladder_status fs'.
Proof.
  intros Hp. rewrite !ladder_status_any.
  by rewrite !(any_confidence_perm _ fs fs' Hp).
Qed.

Lemma ladder_status_critical fs1 f fs2 :
  confidence f = "CRITICAL" →
  ladder_status (fs1 ++ f :: fs2) = "FAILED_CRITICAL".
Proof.
  intros Hf. rewrite ladder_status_any.
  assert (any_confidence "CRITICAL" (fs1 ++ f :: fs2) = true) as ->; [| done].
  apply any_confidence_true. exists f. split; [| done].
  apply elem_of_app. right. left.
Qed.

Lemma aggregate_findings fs : findings (aggregate fs) = fs.
Proof.
  destruct fs as [| f fs]; [done |]. unfold aggregate.
  by repeat destruct (any_confidence _ _).
Qed.

Lemma aggregate_passed fs :
  val_status (aggregate fs) = "PASSED" ↔ fs = [].
Proof.
  split; [| by intros ->].
  destruct fs as [| f fs]; [done |]. unfold aggregate.
  by repeat destruct (any_confidence _ _).
Qed.

(** The four statuses. *)
Lemma aggregate_status_cases fs :
  val_status (aggregate fs) ∈
    ["PASSED"; "FAILED_CRITICAL"; "FLAGGED_HIGH"; "PASSED_MEDIUM"].
Proof.
  destruct fs as [| f fs]; [set_solver |]. unfold aggregate.
  repeat destruct (any_confidence _ _); set_solver.
Qed.

End Engine.

(** C1. For every input of the validation engine, the findings it returns
    are the ones the four rules collected, and its status is the highest
    severity among them under the strict ladder: FAILED_CRITICAL exactly
    when some finding in the list is CRITICAL, FLAGGED_HIGH exactly when
    none is CRITICAL and some is HIGH, PASSED_MEDIUM exactly when none is
    CRITICAL or HIGH and some is MEDIUM, and PASSED exactly when there is
    no finding. Presence is membership in the list, so the number and
    the order of the findings do not matter. *)
Theorem validation_ladder
    (claim_data : ClaimData) (dicom_meta : gmap string string)
    (lab_text : string) (file_paths ocr_results : gmap string string) :
  let outcome := _run_validation_engine claim_data dicom_meta lab_text
                   file_paths ocr_results in
  findings outcome = engine_failures claim_data dicom_meta lab_text file_paths
  ∧ val_status outcome = ladder_status (findings outcome)
  ∧ (val_status outcome = "PASSED" ↔ findings outcome = [])
  ∧ (val_status outcome = "FAILED_CRITICAL"
     ↔ ∃ f, f ∈ findings outcome ∧ confidence f = "CRITICAL")
  ∧ (val_status outcome = "FLAGGED_HIGH"
     ↔ (¬ ∃ f, f ∈ findings outcome ∧ confidence f = "CRITICAL")
       ∧ ∃ f, f ∈ findings outcome ∧ confidence f = "HIGH")
  ∧ (val_status outcome = "PASSED_MEDIUM"
     ↔ (¬ ∃ f, f ∈ findings outcome ∧ confidence f = "CRITICAL")
       ∧ (¬ ∃ f, f ∈ findings outcome ∧ confidence f = "HIGH")
       ∧ ∃ f, f ∈ findings outcome ∧ confidence f = "MEDIUM").
Proof.
  cbv zeta. unfold _run_validation_engine.
  rewrite aggregate_findings. split; [done |].
  pose proof (engine_failures_severity claim_data dicom_meta lab_text
                file_paths) as Hsev.
  apply aggregate_ladder in Hsev.
  split; [done |]. split; [apply aggregate_passed |].
  rewrite Hsev.
  destruct (ladder_status_cases
              (engine_failures claim_data dicom_meta lab_text file_paths))
    as (Hc & Hh & Hm & _).
  unfold has_severity in Hc, Hh, Hm. done.
Qed.

(** The specification's four examples of the ladder. *)
Example ladder_medium :
  val_status (aggregate [ {| confidence := "MEDIUM"; reason := "m" |} ])
  = "PASSED_MEDIUM".
Proof. reflexivity. Qed.

Example ladder_high_medium :
  val_status (aggregate [ {| confidence := "HIGH"; reason := "h" |};
                          {| confidence := "MEDIUM"; reason := "m" |} ])
  = "FLAGGED_HIGH".
Proof. reflexivity. Qed.

Example ladder_critical_high :
  val_status (aggregate [ {| confidence := "CRITICAL"; reason := "c" |};
                          {| confidence := "HIGH"; reason := "h" |} ])
  = "FAILED_CRITICAL".
Proof. reflexivity. Qed.

Example ladder_empty : val_status (aggregate []) = "PASSED".
Proof. reflexivity. Qed.

(* ===================================================================== *)
(** * Rule 1: identity *)
(* ===================================================================== *)

Section Rule1.

Implicit Types (cd : ClaimData) (dm : gmap string string).

Lemma prefix_app (x b : string) : String.prefix x (x +:+ b) = true.
Proof.
  induction x as [| c x IH].
  - by destruct b.
  - change (String c x +:+ b) with (String c (x +:+ b)).
    cbn [String.prefix]. by destruct (ascii_dec c c).
Qed.

Lemma contains_prefix (x hay : string) :
  String.prefix x hay = true → PyStr.contains x hay = true.
Proof. intros H. destruct hay; cbn [PyStr.contains]; by rewrite H. Qed.

(** [x in a + x + b] *)
Lemma contains_app (a x b : string) :
  PyStr.contains x (a +:+ x +:+ b) = true.
Proof.
  induction a as [| c a IH].
  - change ("" +:+ x +:+ b) with (x +:+ b).
    apply contains_prefix, prefix_app.
  - change (String c a +:+ x +:+ b) with (String c (a +:+ x +:+ b)).
    cbn [PyStr.contains]. rewrite IH. apply orb_true_r.
Qed.

Lemma append_assoc (a b c : string) : (a +:+ b) +:+ c = a +:+ b +:+ c.
Proof.
  induction a as [| x a IH]; [done |].
  change (String x ((a +:+ b) +:+ c) = String x (a +:+ b +:+ c)).
  by rewrite IH.
Qed.

(** The mismatch reason contains both ids. *)
Lemma mismatch_reason_names (v d : string) :
  PyStr.contains v (reason (mismatch_finding v d)) = true
  ∧ PyStr.contains d (reason (mismatch_finding v d)) = true.
Proof.
  cbn [reason mismatch_finding]. split.
  - apply contains_app.
  - rewrite <- (append_assoc v), <- (append_assoc _ (v +:+ _)).
    apply contains_app.
Qed.

(** A non-empty error descriptor yields the corrupt-source finding and
    nothing else. *)
Lemma rule1_corrupt cd dm err :
  dm !! "error" = Some err → err ≠ "" →
  rule1 cd dm = [corrupt_finding err].
Proof.
  intros Hget Hne. unfold rule1, get_truthy, str_get. rewrite Hget.
  by destruct err.
Qed.

(** Without an error descriptor, differing trimmed ids yield exactly one
    finding, CRITICAL, whose reason contains both trimmed ids. *)
Lemma rule1_mismatch cd dm :
  get_truthy dm "error" = false →
  PyStr.strip (verified_patient_id cd)
    ≠ PyStr.strip (str_get dm "PatientID") →
  ∃ f, rule1 cd dm = [f]
       ∧ confidence f = "CRITICAL"
       ∧ PyStr.contains (PyStr.strip (verified_patient_id cd)) (reason f)
         = true
       ∧ PyStr.contains (PyStr.strip (str_get dm "PatientID")) (reason f)
         = true.
Proof.
  intros Herr Hne. unfold rule1. rewrite Herr.
  apply String.eqb_neq in Hne. rewrite Hne. cbn [negb].
  eexists. split; [done |]. split; [done |].
  apply mismatch_reason_names.
Qed.

(** Without an error descriptor, equal trimmed ids yield no finding. *)
Lemma rule1_match cd dm :
  get_truthy dm "error" = false →
  PyStr.strip (verified_patient_id cd)
    = PyStr.strip (str_get dm "PatientID") →
  rule1 cd dm = [].
Proof.
  intros Herr Heq. unfold rule1. rewrite Herr.
  apply String.eqb_eq in Heq. by rewrite Heq.
Qed.

(** The comparison is case-sensitive and ignores surrounding blanks. *)
Example rule1_case_sensitive :
  rule1 sample_claim {[ "PatientID" := "p123" ]}
  = [mismatch_finding "P123" "p123"].
Proof. vm_compute. reflexivity. Qed.

Example rule1_trims :
  rule1 sample_claim {[ "PatientID" := "  P123 " ]} = [].
Proof. vm_compute. reflexivity. Qed.

End Rule1.

(** C2. The claim fails on an error descriptor whose text is empty, which
    [_process_dicom] returns when [dcmread] raises an exception that has
    no message. Rule 1 then does not report the corrupt source: it
    compares the declared id with the text [None]. A claim that declares
    the id [None] gets no Rule-1 finding and the task is COMPLETED with
    status PASSED; any other id gets a mismatch finding naming [None]. *)
Theorem rule1_empty_error_descriptor :
  _process_dicom memory_error_platform "/srv/temp_uploads/t1/scan.dcm"
    = Return {[ "error" := "" ]}
  ∧ rule1 none_claim {[ "error" := "" ]} = []
  ∧ rule1 sample_claim {[ "error" := "" ]} = [mismatch_finding "P123" "None"]
  ∧ ∃ r, process_claim_async memory_error_platform none_claim sample_paths
           = Return (ReturnResults r)
         ∧ dicom_metadata r = Some {[ "error" := "" ]}
         ∧ validation_result r
           = Some {| val_status := "PASSED"; val_failures := None |}
         ∧ status r = "COMPLETED".
Proof.
  split; [vm_compute; reflexivity |].
  split; [vm_compute; reflexivity |].
  split; [vm_compute; reflexivity |].
  eexists. split; [vm_compute; reflexivity |].
  split; [vm_compute; reflexivity |]. split; reflexivity.
Qed.

(* ===================================================================== *)
(** * Rule 4: consent *)
(* ===================================================================== *)

Section Rule4.

Variable P : Platform.
Implicit Types (cd : ClaimData) (fp : gmap string string).

Lemma rule4_fires cd fp :
  rule4 cd fp = [consent_finding]
  ↔ json_truthy (consent_data cd) = false
    ∧ get_truthy fp "consent_image" = false.
Proof.
  unfold rule4.
  destruct (json_truthy (consent_data cd)), (get_truthy fp "consent_image");
    simpl; naive_solver.
Qed.

(** Only Rule 4 produces the consent finding. *)
Lemma consent_finding_from_rule4 cd dm lab fp :
  consent_finding ∈ engine_failures cd dm lab fp
  ↔ rule4 cd fp = [consent_finding].
Proof.
  unfold engine_failures. rewrite !elem_of_app. split.
  - intros [H1 | [H2 | [H3 | H4]]].
    + exfalso. unfold rule1 in H1.
      destruct (get_truthy dm "error");
        [| destruct (negb _)]; set_solver.
    + exfalso. unfold rule2 in H2. destruct (_ && _); set_solver.
    + exfalso. unfold rule3 in H3. destruct (_ && _); set_solver.
    + destruct (rule4_cases cd fp) as [Hr | Hr]; [| done].
      rewrite Hr in H4. set_solver.
  - intros ->. do 3 right. set_solver.
Qed.

Lemma written_file_lookup tmp f key acc k :
  (written_file P tmp f key acc).1 !! k
  = if decide (key = k) then Some (path_join P tmp (filename f))
    else acc.1 !! k.
Proof. unfold written_file. cbn [fst]. apply lookup_insert. Qed.

Lemma written_optional_lookup tmp o key acc k :
  (written_optional P tmp o key acc).1 !! k
  = if decide (key = k) then
      match o with
      | Some f => Some (path_join P tmp (filename f))
      | None => acc.1 !! k
      end
    else acc.1 !! k.
Proof.
  destruct o as [f |]; cbn [written_optional].
  - apply written_file_lookup.
  - by case_decide.
Qed.

(** Which roles [file_paths] holds after the uploads are stored. *)
Lemma written_uploads_consent_image tmp form disk0 :
  (written_uploads P tmp form disk0).1 !! "consent_image"
  = (λ f, path_join P tmp (filename f)) <$> Form.consent_form_image form.
Proof.
  unfold written_uploads. rewrite written_optional_lookup.
  rewrite decide_True by done.
  destruct (Form.consent_form_image form); [done |].
  rewrite !written_optional_lookup, written_file_lookup.
  by repeat (rewrite decide_False by done).
Qed.

Lemma written_uploads_lab_pdf tmp form disk0 :
  (written_uploads P tmp form disk0).1 !! "lab_pdf"
  = (λ f, path_join P tmp (filename f)) <$> Form.lab_report_pdf form.
Proof.
  unfold written_uploads. rewrite !written_optional_lookup, written_file_lookup.
  repeat (rewrite decide_False by done). rewrite decide_True by done.
  destruct (Form.lab_report_pdf form); [done |].
  by rewrite decide_False by done.
Qed.

(** A call that raises nothing has stored its file. *)
Lemma save_file_ok tmp f key acc :
  (save_file P tmp f key acc).2.2 = None →
  acc.2.2 = None
  ∧ ((save_file P tmp f key acc).1, (save_file P tmp f key acc).2.1)
    = written_file P tmp f key (acc.1, acc.2.1).
Proof.
  unfold save_file, written_file. cbv zeta.
  destruct acc as [fp [d r]]. cbn [fst snd].
  destruct r; [done |]. destruct (open_wb P _); cbn [fst snd]; [| done].
  destruct (copyfileobj P _ _) as [[e w] |]; cbn [fst snd]; done.
Qed.

Lemma save_optional_ok tmp o key acc :
  (save_optional P tmp o key acc).2.2 = None →
  acc.2.2 = None
  ∧ ((save_optional P tmp o key acc).1, (save_optional P tmp o key acc).2.1)
    = written_optional P tmp o key (acc.1, acc.2.1).
Proof.
  destruct o as [f |]; [apply save_file_ok |].
  cbn [save_optional written_optional]. by intros H.
Qed.

(** When no write of lines 67-71 raises, [file_paths] and the disk are
    what the writes store. *)
Lemma save_uploads_ok tmp form disk0 :
  (save_uploads P tmp form disk0).2.2 = None →
  (save_uploads P tmp form disk0).1 = (written_uploads P tmp form disk0).1
  ∧ (save_uploads P tmp form disk0).2.1
    = (written_uploads P tmp form disk0).2.
Proof.
  unfold save_uploads, written_uploads. intros H.
  apply save_optional_ok in H as [H E4]. apply save_optional_ok in H as [H E3].
  apply save_optional_ok in H as [H E2]. apply save_optional_ok in H as [H E1].
  apply save_file_ok in H as [_ E0]. cbn [fst snd] in E0.
  rewrite <- E0, <- E1, <- E2, <- E3, <- E4. done.
Qed.

(** A key other than the one written keeps its entry. *)
Lemma save_file_other tmp f key acc k :
  key ≠ k → (save_file P tmp f key acc).1 !! k = acc.1 !! k.
Proof.
  intros Hne. unfold save_file. cbv zeta. destruct (acc.2.2); [done |].
  destruct (open_wb P _); [| done].
  destruct (copyfileobj P _ _) as [[e w] |]; [done |].
  cbn [fst]. by rewrite lookup_insert_ne.
Qed.

Lemma save_optional_other tmp o key acc k :
  key ≠ k → (save_optional P tmp o key acc).1 !! k = acc.1 !! k.
Proof. destruct o; [apply save_file_other | done]. Qed.

(** Without a lab report, no [lab_pdf] entry is written. *)
Lemma save_uploads_no_lab_pdf tmp form disk0 :
  Form.lab_report_pdf form = None →
  (save_uploads P tmp form disk0).1 !! "lab_pdf" = None.
Proof.
  intros Hnone. unfold save_uploads.
  rewrite !save_optional_other by done. rewrite Hnone.
  cbn [save_optional]. rewrite save_file_other by done.
  cbn [fst]. apply lookup_empty.
Qed.

Lemma load_payload_absent payload j :
  opt_truthy payload = false →
  load_payload P payload = Return j → j = JObject [].
Proof. unfold load_payload. intros ->. by intros [= <-]. Qed.

Lemma load_payload_present payload j :
  opt_truthy payload = true →
  load_payload P payload = Return j →
  ∃ s, payload = Some s ∧ s ≠ "" ∧ json_loads P s = Return j.
Proof.
  unfold load_payload. intros Ht. rewrite Ht.
  destruct payload as [[| c s] |]; try done. intros H. by exists (String c s).
Qed.

Lemma prepare_claim_data_consent form cd :
  prepare_claim_data P form = Return cd →
  load_payload P (Form.digital_consent_payload form)
  = Return (consent_data cd).
Proof.
  unfold prepare_claim_data.
  destruct (load_payload P (Form.verified_identity_payload form));
    [| done].
  destruct (load_payload P (Form.digital_consent_payload form));
    [| done].
  by intros [= <-].
Qed.

Lemma temp_dir_nonempty uuid4 :
  join_nonempty P →
  path_join P (path_join P (getcwd P) "temp_uploads") uuid4 ≠ "".
Proof.
  intros Hjoin H. apply Hjoin in H as [H _]. by apply Hjoin in H as [_ H].
Qed.

Lemma submit_accepted uuid4 form σ msg tid key σ' :
  submit_claim_async P uuid4 form σ = (Return (Accepted msg tid key), σ') →
  let temp_dir :=
    path_join P (path_join P (getcwd P) "temp_uploads") uuid4 in
  ∃ cd, prepare_claim_data P form = Return cd
        ∧ IDEMPOTENCY_DB σ !! effective_key form = None
        ∧ tid = uuid4 ∧ key = effective_key form
        ∧ IMMUTABLE_LOGS σ' = IMMUTABLE_LOGS σ
        ∧ IDEMPOTENCY_DB σ' = <[key := tid]> (IDEMPOTENCY_DB σ)
        ∧ celery_queue σ'
          = celery_queue σ
            ++ [(tid, cd, (written_uploads P temp_dir form (disk σ)).1)].
Proof.
  unfold submit_claim_async. cbv zeta.
  destruct (IDEMPOTENCY_DB σ !! effective_key form) eqn:Hdb; [done |].
  destruct (makedirs P _); [| done].
  destruct ((save_uploads P _ form (disk σ)).2.2) eqn:Hsaved; [done |].
  destruct (prepare_claim_data P form) as [cd | e] eqn:Hcd; [| done].
  destruct (apply_async P _ _ _); [| done].
  apply save_uploads_ok in Hsaved as [Hfp _]. rewrite Hfp.
  intros [= <- <- <- <-]. by exists cd.
Qed.

End Rule4.

(** C5 counterexample. A submission whose consent payload is the empty
    JSON object and that has no consent image carries a payload, yet
    Rule 4 raises its finding: the engine tests the decoded payload for
    truthiness, and an empty object is falsy. *)
Lemma consent_rule_empty_payload :
  ¬ consent_rule_as_specified sample_platform empty_consent_form.
Proof.
  intros Hspec.
  destruct (Hspec {| verified_patient_id := "P123";
                     doctor_diagnosis := "Hairline fracture of the left wrist";
                     identity_data := JObject [];
                     consent_data := JObject [];
                     patient_geotag := None |}
                  "/srv/temp_uploads/t2" ∅ eq_refl) as [Hfire _].
  destruct Hfire as [Habsent _]; [vm_compute; reflexivity | done].
Qed.

(** C5 (amended). For every accepted submission, the engine, run on the
    claim data and file paths handed to the worker, raises the Rule-4
    finding if and only if the decoded consent payload is falsy (it is the
    empty object when no payload text was sent, and an empty or null JSON
    value sent as payload is falsy too) and no consent image was
    uploaded. A truthy decoded payload alone, or a consent image alone,
    suppresses the finding. *)
Theorem consent_completeness
    (P : Platform) (uuid4 : string) (form : Form.t) (σ σ' : Server)
    (msg tid key : string) :
  join_nonempty P →
  submit_claim_async P uuid4 form σ = (Return (Accepted msg tid key), σ') →
  ∃ claim_data file_paths,
    celery_queue σ' = celery_queue σ ++ [(tid, claim_data, file_paths)]
    ∧ (∀ dicom_meta lab_text,
         consent_finding
           ∈ engine_failures claim_data dicom_meta lab_text file_paths
         ↔ json_truthy (consent_data claim_data) = false
           ∧ Form.consent_form_image form = None)
    ∧ (opt_truthy (Form.digital_consent_payload form) = false →
       consent_data claim_data = JObject [])
    ∧ (opt_truthy (Form.digital_consent_payload form) = true →
       json_loads P (default "" (Form.digital_consent_payload form))
       = Return (consent_data claim_data)).
Proof.
  intros Hjoin Hsub.
  apply submit_accepted in Hsub as (cd & Hcd & _ & -> & _ & _ & _ & Hq).
  cbv zeta in Hq.
  set (tmp := path_join P (path_join P (getcwd P) "temp_uploads") uuid4) in *.
  exists cd, (written_uploads P tmp form (disk σ)).1.
  split; [done |].
  pose proof (prepare_claim_data_consent P form cd Hcd) as Hload.
  split; [| split].
  - intros dm lab. rewrite consent_finding_from_rule4, rule4_fires.
    unfold get_truthy. rewrite written_uploads_consent_image.
    destruct (Form.consent_form_image form) as [f |]; cbn [fmap option_fmap option_map].
    + assert (PyStr.truthy (path_join P tmp (filename f)) = true) as ->.
      { destruct (path_join P tmp (filename f)) eqn:Hp; [| done].
        apply Hjoin in Hp as [Hp _].
        by apply temp_dir_nonempty in Hp. }
      naive_solver.
    + naive_solver.
  - intros Hno. by apply (load_payload_absent P _ _ Hno).
  - intros Hyes.
    destruct (load_payload_present P _ _ Hyes Hload) as (s & -> & _ & Hs).
    done.
Qed.

Lemma consent_completeness_witness :
  join_nonempty sample_platform
  ∧ ∃ claim_data file_paths,
      celery_queue sample_server
      = celery_queue empty_server ++ [("uuid-1", claim_data, file_paths)]
      ∧ (∀ dicom_meta lab_text,
           consent_finding
             ∈ engine_failures claim_data dicom_meta lab_text file_paths
           ↔ json_truthy (consent_data claim_data) = false
             ∧ Form.consent_form_image sample_form = None)
      ∧ (opt_truthy (Form.digital_consent_payload sample_form) = false →
         consent_data claim_data = JObject [])
      ∧ (opt_truthy (Form.digital_consent_payload sample_form) = true →
         json_loads sample_platform
           (default "" (Form.digital_consent_payload sample_form))
         = Return (consent_data claim_data)).
Proof.
  assert (join_nonempty sample_platform) as Hjoin.
  { intros a b. destruct a; [| done]. destruct b; done. }
  split; [exact Hjoin |].
  apply (consent_completeness sample_platform "uuid-1" sample_form
           empty_server sample_server "Claim accepted." "uuid-1"
           (effective_key sample_form) Hjoin).
  vm_compute. reflexivity.
Defined.

(* ===================================================================== *)
(** * The idempotency guard *)
(* ===================================================================== *)

Section Idempotency.

Variable P : Platform.

(** Without a client key, the key is the digest of the joined triple. *)
Lemma effective_key_derived form :
  opt_truthy (Form.idempotency_key form) = false →
  effective_key form
  = sha256_hex (key_raw (Form.verified_patient_id form)
                        (filename (Form.dicom_file form))
                        (Form.doctor_diagnosis form)).
Proof.
  unfold effective_key.
  destruct (Form.idempotency_key form) as [[| c k] |]; done.
Qed.

(** A bound key makes the handler answer 409 and change nothing. *)
Lemma submit_duplicate uuid4 form σ original :
  IDEMPOTENCY_DB σ !! effective_key form = Some original →
  submit_claim_async P uuid4 form σ
  = (Return (Conflict409 "Duplicate Submission Detected" original), σ).
Proof. intros H. unfold submit_claim_async. by rewrite H. Qed.

(** No handler rebinds or drops a key. *)
Lemma handle_keeps_binding σ req k t :
  IDEMPOTENCY_DB σ !! k = Some t →
  IDEMPOTENCY_DB (handle P σ req) !! k = Some t.
Proof.
  intros Hk. destruct req as [uuid4 form | utcnow tid did why]; [| done].
  cbn [handle]. unfold submit_claim_async. cbv zeta.
  destruct (IDEMPOTENCY_DB σ !! effective_key form) eqn:Hdb; [done |].
  destruct (makedirs P _); [| done].
  destruct ((save_uploads P _ form (disk σ)).2.2); [done |].
  destruct (prepare_claim_data P form); [| done].
  destruct (apply_async P _ _ _); [| done].
  cbn [snd IDEMPOTENCY_DB]. rewrite lookup_insert_ne; [done |].
  intros Heq. rewrite Heq in Hdb. by rewrite Hdb in Hk.
Qed.

Lemma run_keeps_binding reqs σ k t :
  IDEMPOTENCY_DB σ !! k = Some t →
  IDEMPOTENCY_DB (run P σ reqs) !! k = Some t.
Proof.
  revert σ. induction reqs as [| req reqs IH]; intros σ Hk; [done |].
  apply IH. by apply handle_keeps_binding.
Qed.

End Idempotency.

(** C3 counterexample. The triples (a-b, c, d) and (a, b-c, d) differ,
    yet both join to the text a-b-c-d, so both derive the same key, and
    the second submission is turned away as a duplicate of the first. *)
Lemma derived_key_collision :
  key_triple hyphen_form_1 ≠ key_triple hyphen_form_2
  ∧ Form.idempotency_key hyphen_form_1 = None
  ∧ Form.idempotency_key hyphen_form_2 = None
  ∧ effective_key hyphen_form_1 = effective_key hyphen_form_2
  ∧ ∃ σ1,
      submit_claim_async sample_platform "uuid-1" hyphen_form_1 empty_server
      = (Return (Accepted "Claim accepted." "uuid-1"
                   (effective_key hyphen_form_1)), σ1)
      ∧ submit_claim_async sample_platform "uuid-2" hyphen_form_2 σ1
        = (Return (Conflict409 "Duplicate Submission Detected" "uuid-1"), σ1).
Proof.
  split; [done |]. split; [done |]. split; [done |].
  split; [vm_compute; reflexivity |].
  eexists. split; [vm_compute; reflexivity |].
  apply submit_duplicate. vm_compute. reflexivity.
Qed.

(** C3 (amended). Without a client-supplied key, the key is the SHA-256
    hex digest of patient id, primary document name and diagnosis joined
    by hyphens. Two submissions with the same triple derive the same key;
    once the first is accepted, the second, whenever it arrives, is
    answered with the first submission's task id, and the server state is
    left exactly as it was: no task is queued, no file is stored, no key
    is bound. (Different triples are not promised different keys.) *)
Theorem derived_key_idempotent
    (P : Platform) (uuid1 uuid2 : string) (form1 form2 : Form.t)
    (σ σ1 : Server) (msg tid key : string) (between : list Request) :
  opt_truthy (Form.idempotency_key form1) = false →
  opt_truthy (Form.idempotency_key form2) = false →
  key_triple form1 = key_triple form2 →
  submit_claim_async P uuid1 form1 σ = (Return (Accepted msg tid key), σ1) →
  key = sha256_hex (key_raw (Form.verified_patient_id form1)
                            (filename (Form.dicom_file form1))
                            (Form.doctor_diagnosis form1))
  ∧ effective_key form2 = key
  ∧ tid = uuid1
  ∧ submit_claim_async P uuid2 form2 (run P σ1 between)
    = (Return (Conflict409 "Duplicate Submission Detected" tid),
       run P σ1 between).
Proof.
  intros Hk1 Hk2 Htriple Hsub.
  apply submit_accepted in Hsub
    as (cd & _ & _ & -> & -> & _ & Hdb & _).
  assert (effective_key form2 = effective_key form1) as Hsame.
  { rewrite !effective_key_derived by done.
    unfold key_triple in Htriple. by injection Htriple as -> -> ->. }
  split; [by apply effective_key_derived |].
  split; [done |]. split; [done |].
  apply submit_duplicate, run_keeps_binding.
  rewrite Hsame, Hdb. apply lookup_insert_eq.
Qed.

Lemma derived_key_idempotent_witness :
  effective_key sample_form
  = sha256_hex "P123-scan.dcm-Hairline fracture of the left wrist"
  ∧ submit_claim_async sample_platform "uuid-2" sample_form
      (run sample_platform sample_server
         [Override "2025-01-01T10:00:00" "uuid-1" "D1" "reviewed"])
    = (Return (Conflict409 "Duplicate Submission Detected" "uuid-1"),
       run sample_platform sample_server
         [Override "2025-01-01T10:00:00" "uuid-1" "D1" "reviewed"]).
Proof.
  destruct (derived_key_idempotent sample_platform "uuid-1" "uuid-2"
              sample_form sample_form empty_server sample_server
              "Claim accepted." "uuid-1" (effective_key sample_form)
              [Override "2025-01-01T10:00:00" "uuid-1" "D1" "reviewed"]
              eq_refl eq_refl eq_refl)
    as (Hkey & _ & _ & Hdup).
  { vm_compute. reflexivity. }
  split; [exact Hkey | exact Hdup].
Defined.

(* ===================================================================== *)
(** * The override ledger *)
(* ===================================================================== *)

(** C6 counterexample. Two override entries for the same task, doctor and
    reason, recorded at different times, carry the same seal; and an entry
    whose timestamp is rewritten afterwards still verifies. The seal does
    not cover the timestamp. *)
Lemma seal_ignores_timestamp :
  let e1 := (doctor_override "2025-01-01T10:00:00" "T1" "D1" "reviewed"
               empty_server).1.2 in
  let e2 := (doctor_override "1999-12-31T23:59:59" "T1" "D1" "reviewed"
               empty_server).1.2 in
  e1 !! "timestamp" ≠ e2 !! "timestamp"
  ∧ e1 !! "signature" = e2 !! "signature"
  ∧ seal_verifies e1 = true
  ∧ seal_verifies (<["timestamp" := "1999-12-31T23:59:59"]> e1) = true.
Proof.
  cbv zeta. split; [vm_compute; discriminate |].
  split; [reflexivity |]. split; vm_compute; reflexivity.
Qed.

(** C6 (amended). Every override action with a non-empty task id, doctor
    id and reason succeeds and returns a log entry with the given task
    id, doctor id, reason and timestamp, whose seal is the SHA-256 hex
    digest of task id, doctor id and reason concatenated; the timestamp
    and the event tag are not part of the sealed text. The entry is
    appended to the ledger and nothing else of the server state changes:
    no key binding, no queued task, no stored file. *)
Theorem override_appends_sealed_entry
    (utcnow task_id doctor_id override_reason : string) (σ : Server) :
  task_id ≠ "" → doctor_id ≠ "" → override_reason ≠ "" →
  let result := doctor_override utcnow task_id doctor_id override_reason σ in
  let log := result.1.2 in
  let σ' := result.2 in
  result.1.1 = "OVERRIDE_ACCEPTED"
  ∧ log !! "event" = Some "OVERRIDE"
  ∧ log !! "timestamp" = Some utcnow
  ∧ log !! "task_id" = Some task_id
  ∧ log !! "doctor_id" = Some doctor_id
  ∧ log !! "reason" = Some override_reason
  ∧ log !! "signature"
    = Some (sha256_hex (task_id +:+ doctor_id +:+ override_reason))
  ∧ seal_verifies log = true
  ∧ view_logs σ' = view_logs σ ++ [log]
  ∧ IDEMPOTENCY_DB σ' = IDEMPOTENCY_DB σ
  ∧ celery_queue σ' = celery_queue σ
  ∧ temp_dirs σ' = temp_dirs σ
  ∧ disk σ' = disk σ.
Proof.
  intros _ _ _. cbv zeta. cbn [doctor_override fst snd].
  unfold seal_verifies, str_get, override_log.
  repeat (rewrite ?lookup_insert_eq; rewrite ?lookup_insert_ne by done).
  rewrite String.eqb_refl. repeat split; reflexivity.
Qed.

Lemma override_appends_sealed_entry_witness :
  (doctor_override "2025-01-01T10:00:00" "T1" "D1" "reviewed"
     empty_server).1.1 = "OVERRIDE_ACCEPTED"
  ∧ view_logs (doctor_override "2025-01-01T10:00:00" "T1" "D1" "reviewed"
                 empty_server).2
    = [override_log "2025-01-01T10:00:00" "T1" "D1" "reviewed"].
Proof.
  destruct (override_appends_sealed_entry "2025-01-01T10:00:00" "T1" "D1"
              "reviewed" empty_server)
    as (Hok & _ & _ & _ & _ & _ & _ & _ & Hlog & _); [done | done | done |].
  split; [exact Hok | exact Hlog].
Defined.

(* ===================================================================== *)
(** * Extraction adapters *)
(* ===================================================================== *)

Section Adapters.

Variable P : Platform.

Lemma try_except_total {A} (body : outcome A) (handler : exn → A) :
  try_except body (λ e, mret (handler e))
  = Return (match body with Return a => a | Raise e => handler e end).
Proof. by destruct body. Qed.

Lemma _process_dicom_result path :
  _process_dicom P path
  = Return (match dcmread P path with
            | Return ds => dicom_summary ds
            | Raise e => {[ "error" := exn_str e ]}
            end).
Proof. unfold _process_dicom. by destruct (dcmread P path). Qed.

Lemma dicom_summary_lookup ds k :
  k ∈ dicom_fields → dicom_summary ds !! k = Some (default "N/A" (ds !! k)).
Proof.
  unfold dicom_fields. rewrite !elem_of_cons, elem_of_nil.
  unfold dicom_summary, dicom_fields. cbn [fmap list_fmap list_to_map foldr].
  intros [-> | [-> | [-> | [-> | [-> | []]]]]];
    by repeat (rewrite ?lookup_insert_eq; rewrite ?lookup_insert_ne by done).
Qed.

Lemma dicom_summary_other ds k :
  k ∉ dicom_fields → dicom_summary ds !! k = None.
Proof.
  unfold dicom_fields. rewrite !not_elem_of_cons.
  intros (? & ? & ? & ? & ? & _).
  unfold dicom_summary, dicom_fields. cbn [fmap list_fmap list_to_map foldr].
  by repeat (rewrite lookup_insert_ne by done).
Qed.

Lemma _process_pdf_result path :
  _process_pdf P path
  = Return (match fitz_open P path with
            | Raise e => "PDF Error: " +:+ exn_str e
            | Return doc =>
                match pdf_text doc with
                | Raise e => "PDF Error: " +:+ exn_str e
                | Return text =>
                    match fitz_close P path with
                    | Raise e => "PDF Error: " +:+ exn_str e
                    | Return _ => text
                    end
                end
            end).
Proof.
  unfold _process_pdf. destruct (fitz_open P path) as [doc |]; [| done].
  cbn. destruct (pdf_text doc); [| done].
  cbn. by destruct (fitz_close P path).
Qed.

Lemma _process_image_ocr_result path :
  _process_image_ocr P path
  = Return (match image_open P path with
            | Raise e => "OCR Error: " +:+ exn_str e
            | Return img =>
                match image_to_string P img with
                | Raise e => "OCR Error: " +:+ exn_str e
                | Return text => text
                end
            end).
Proof.
  unfold _process_image_ocr. destruct (image_open P path) as [img |]; [| done].
  cbn. by destruct (image_to_string P img).
Qed.

Lemma _generate_mock_fhir_result cd :
  _generate_mock_fhir P cd = Return (fhir_result P cd).
Proof.
  unfold _generate_mock_fhir, fhir_result.
  by destruct (fhir_bundle_json P _ _).
Qed.

(** The pages' texts in order, when every page can be read. *)
Lemma pdf_text_all_pages (texts : list string) (acc : string) :
  for_each (λ text page, t ← page; mret (text +:+ t)) acc (Return <$> texts)
  = Return (foldl String.append acc texts).
Proof.
  revert acc. induction texts as [| t texts IH]; intros acc; [done |].
  cbn. apply IH.
Qed.

End Adapters.

(** C9. Each extraction adapter returns a value for every file reference
    and every behaviour of its library: none raises. A failure of the
    library at any stage comes back as an error descriptor (the dict
    [{"error": str(e)}] for DICOM, the text [PDF Error: ...] or
    [OCR Error: ...] for the text adapters). When [dcmread] succeeds the
    DICOM adapter returns exactly the five fields PatientID, PatientName,
    AccessionNumber, StudyDate and Modality, each holding the value of the
    data set, or ["N/A"] when the data set lacks it. *)
Theorem adapters_total (P : Platform) (file_path : string) :
  (∃ meta,
     _process_dicom P file_path = Return meta
     ∧ match dcmread P file_path with
       | Raise e => meta = {[ "error" := exn_str e ]}
       | Return ds =>
           dom meta = list_to_set dicom_fields
           ∧ Forall (λ k, meta !! k = Some (default "N/A" (ds !! k))
                          ∧ (ds !! k = None → meta !! k = Some "N/A"))
                    dicom_fields
       end)
  ∧ (∃ text,
       _process_pdf P file_path = Return text
       ∧ match fitz_open P file_path with
         | Raise e => text = "PDF Error: " +:+ exn_str e
         | Return doc =>
             match pdf_text doc, fitz_close P file_path with
             | Raise e, _ => text = "PDF Error: " +:+ exn_str e
             | Return _, Raise e => text = "PDF Error: " +:+ exn_str e
             | Return t, Return _ => text = t
             end
         end)
  ∧ (∃ text,
       _process_image_ocr P file_path = Return text
       ∧ match image_open P file_path with
         | Raise e => text = "OCR Error: " +:+ exn_str e
         | Return img =>
             match image_to_string P img with
             | Raise e => text = "OCR Error: " +:+ exn_str e
             | Return t => text = t
             end
         end).
Proof.
  split; [| split].
  - eexists. split; [apply _process_dicom_result |].
    destruct (dcmread P file_path) as [ds | e]; [| done]. split.
    + apply set_eq. intros k. rewrite elem_of_dom, elem_of_list_to_set.
      destruct (decide (k ∈ dicom_fields)) as [Hin | Hout].
      * rewrite dicom_summary_lookup by done. naive_solver.
      * rewrite dicom_summary_other by done. split; [by intros [? ?] | done].
    + apply Forall_forall. intros k Hk.
      rewrite dicom_summary_lookup by done. split; [done |]. by intros ->.
  - eexists. split; [apply _process_pdf_result |].
    destruct (fitz_open P file_path) as [doc |]; [| done].
    destruct (pdf_text doc); [| done]. by destruct (fitz_close P file_path).
  - eexists. split; [apply _process_image_ocr_result |].
    destruct (image_open P file_path) as [img |]; [| done].
    by destruct (image_to_string P img).
Qed.

Lemma adapters_total_witness :
  sample_dataset !! "StudyDate" = None
  ∧ ∃ meta, _process_dicom sample_platform "scan.dcm" = Return meta
            ∧ meta !! "PatientID" = Some "P123"
            ∧ meta !! "StudyDate" = Some "N/A".
Proof.
  assert (sample_dataset !! "StudyDate" = None) as Habsent
    by (vm_compute; reflexivity).
  split; [exact Habsent |].
  destruct (adapters_total sample_platform "scan.dcm")
    as [(meta & Hmeta & _ & Hfields) _].
  exists meta. split; [exact Hmeta |].
  rewrite Forall_forall in Hfields. split.
  - apply (Hfields "PatientID"). by repeat constructor.
  - apply (Hfields "StudyDate"); [by repeat constructor | exact Habsent].
Defined.

(* ===================================================================== *)
(** * The Celery task *)
(* ===================================================================== *)

Section Task.

Variable P : Platform.
Implicit Types (cd : ClaimData) (fp dm : gmap string string).
Implicit Types (r res : Results).

(** A step of the loop leaves the lab text alone unless it reads the
    lab report. *)
Lemma ocr_step_lab_text fp res key label res' :
  ocr_step P fp res (key, label) = Return res' →
  key ≠ "lab_pdf" ∨ get_truthy fp "lab_pdf" = false →
  lab_report_text res' = lab_report_text res.
Proof.
  unfold ocr_step. intros Hstep Hkey.
  destruct (get_truthy fp key) eqn:Hget; [| by injection Hstep as <-].
  destruct Hkey as [Hne | Hno]; [| destruct (decide (key = "lab_pdf"))
    as [-> | Hne]; [by rewrite Hno in Hget |]].
  all: apply String.eqb_neq in Hne; rewrite Hne in Hstep.
  all: destruct (update_state P _ _); [| done].
  all: destruct (getitem fp key); [| done].
  all: cbn in Hstep; rewrite _process_image_ocr_result in Hstep.
  all: cbn in Hstep; by injection Hstep as <-.
Qed.

Lemma bind_inv {A B} (m : outcome A) (f : A → outcome B) (b : B) :
  m ≫= f = Return b → ∃ a, m = Return a ∧ f a = Return b.
Proof. destruct m as [a |]; [| done]. intros H. by exists a. Qed.

Lemma ocr_loop_lab_text fp roles res res' :
  get_truthy fp "lab_pdf" = false →
  for_each (ocr_step P fp) res roles = Return res' →
  lab_report_text res' = lab_report_text res.
Proof.
  intros Hno. revert res.
  induction roles as [| [key label] roles IH]; intros res.
  - by intros [= <-].
  - cbn [for_each]. intros (r1 & H1 & Hrest)%bind_inv.
    rewrite (IH _ Hrest).
    apply (ocr_step_lab_text _ _ _ _ _ H1). by right.
Qed.

(** The [try] block, stage by stage. *)
Lemma process_claim_body_stages cd fp :
  process_claim_body P cd fp
  = (_ ← update_state P "PROCESSING" "Processing DICOM...";
     dicom_path ← getitem fp "dicom";
     dm ← _process_dicom P dicom_path;
     res ← for_each (ocr_step P fp) (results_after_dicom dm) ocr_roles;
     _ ← update_state P "VALIDATING" "Running AI Validation Agents...";
     mret (finished_results P cd fp dm res)).
Proof.
  unfold process_claim_body. cbv zeta.
  destruct (update_state P "PROCESSING" _); [| done].
  cbn [mbind outcome_bind].
  destruct (getitem fp "dicom") as [dicom_path |]; [| done].
  cbn [mbind outcome_bind].
  destruct (_process_dicom P dicom_path) as [dm |]; [| done].
  cbn [mbind outcome_bind].
  change (for_each (ocr_step P fp) _ _) with
    (for_each (ocr_step P fp) (results_after_dicom dm) ocr_roles).
  destruct (for_each _ _ _) as [res |]; [| done].
  cbn [mbind outcome_bind].
  destruct (update_state P "VALIDATING" _); [| done].
  cbn [mbind outcome_bind]. unfold finished_results. cbv zeta.
  destruct (fhir_wanted _); [| done].
  by rewrite _generate_mock_fhir_result.
Qed.

(** What a run that reaches line 163 has done. *)
Lemma process_claim_body_inv cd fp r :
  process_claim_body P cd fp = Return r →
  ∃ dicom_path dm res,
    fp !! "dicom" = Some dicom_path
    ∧ _process_dicom P dicom_path = Return dm
    ∧ for_each (ocr_step P fp) (results_after_dicom dm) ocr_roles
      = Return res
    ∧ r = finished_results P cd fp dm res.
Proof.
  rewrite process_claim_body_stages.
  intros (_ & _ & (dicom_path & Hpath
           & (dm & Hdm & (res & Hloop
           & (_ & _ & Hr)%bind_inv)%bind_inv)%bind_inv)%bind_inv)%bind_inv.
  exists dicom_path, dm, res. injection Hr as <-.
  unfold getitem in Hpath. destruct (fp !! "dicom"); [| done].
  by injection Hpath as ->.
Qed.

Lemma final_status_mapping fs :
  terminal_mapping (val_status (aggregate fs))
                   (final_status (val_status (aggregate fs))).
Proof.
  unfold terminal_mapping.
  pose proof (aggregate_status_cases fs) as H.
  rewrite !elem_of_cons, elem_of_nil in H.
  destruct H as [-> | [-> | [-> | [-> | []]]]]; cbn; naive_solver.
Qed.

Lemma final_status_terminal s : is_terminal (final_status s).
Proof.
  unfold is_terminal, final_status.
  repeat destruct (String.eqb _ _); auto.
Qed.

Lemma fhir_wanted_iff fs :
  fhir_wanted (val_status (aggregate fs)) = true
  ↔ val_status (aggregate fs) ≠ "FAILED_CRITICAL".
Proof.
  pose proof (aggregate_status_cases fs) as H.
  rewrite !elem_of_cons, elem_of_nil in H.
  destruct H as [-> | [-> | [-> | [-> | []]]]]; cbn; naive_solver.
Qed.

(** The task never raises. *)
Lemma process_claim_async_result cd fp :
  process_claim_async P cd fp
  = Return (match process_claim_body P cd fp with
            | Return r => ReturnResults r
            | Raise e => ReturnError "ERROR" (exn_str e)
            end).
Proof.
  unfold process_claim_async. by destruct (process_claim_body P cd fp).
Qed.

Lemma process_claim_async_results cd fp r :
  process_claim_async P cd fp = Return (ReturnResults r)
  ↔ process_claim_body P cd fp = Return r.
Proof.
  rewrite process_claim_async_result.
  destruct (process_claim_body P cd fp); naive_solver.
Qed.

End Task.

(** Swapping the FHIR library changes nothing but the stored bundle. *)
Lemma process_claim_body_fhir_independent
    (P : Platform) (f : string → string → outcome json)
    (cd : ClaimData) (fp : gmap string string) (r : Results) :
  process_claim_body P cd fp = Return r →
  ∃ r', process_claim_body (with_fhir P f) cd fp = Return r'
        ∧ status r' = status r
        ∧ validation_result r' = validation_result r
        ∧ dicom_metadata r' = dicom_metadata r
        ∧ lab_report_text r' = lab_report_text r
        ∧ steps_completed r' = steps_completed r.
Proof.
  rewrite !process_claim_body_stages.
  change (update_state (with_fhir P f)) with (update_state P).
  change (_process_dicom (with_fhir P f)) with (_process_dicom P).
  change (ocr_step (with_fhir P f)) with (ocr_step P).
  destruct (update_state P "PROCESSING" _); [| done].
  cbn [mbind outcome_bind].
  destruct (getitem fp "dicom"); [| done]. cbn [mbind outcome_bind].
  destruct (_process_dicom P _) as [dm |]; [| done]. cbn [mbind outcome_bind].
  destruct (for_each _ _ _) as [res |]; [| done]. cbn [mbind outcome_bind].
  destruct (update_state P "VALIDATING" _); [| done].
  cbn [mbind outcome_bind]. intros [= <-]. by eexists.
Qed.

(** C4. For every run of the task that completes (returns [results]),
    the task status is a function of the validation status alone, and it
    is the specified mapping: FAILED_CRITICAL gives FAILED, FLAGGED_HIGH
    gives FLAGGED, PASSED and PASSED_MEDIUM give COMPLETED. *)
Theorem terminal_state_mapping
    (P : Platform) (claim_data : ClaimData) (file_paths : gmap string string)
    (r : Results) :
  process_claim_async P claim_data file_paths = Return (ReturnResults r) →
  ∃ v, validation_result r = Some v
       ∧ status r = final_status (val_status v)
       ∧ terminal_mapping (val_status v) (status r).
Proof.
  intros Hrun%process_claim_async_results.
  apply process_claim_body_inv in Hrun as (path & dm & res & _ & _ & _ & ->).
  eexists. split; [done |]. split; [done |].
  apply final_status_mapping.
Qed.

Lemma terminal_state_mapping_witness :
  ∃ r, process_claim_async sample_platform sample_claim sample_paths
       = Return (ReturnResults r)
       ∧ ∃ v, validation_result r = Some v
              ∧ status r = final_status (val_status v)
              ∧ terminal_mapping (val_status v) (status r).
Proof.
  eexists. split; [vm_compute; reflexivity |].
  apply (terminal_state_mapping sample_platform sample_claim sample_paths).
  vm_compute. reflexivity.
Defined.

(** C7. In every completed run the FHIR bundle step has run if and only
    if the validation status is not FAILED_CRITICAL. When it runs and the
    FHIR library fails, the failure is stored as the error dict under
    [fhir_bundle] and the task status is still the one the validation
    status gives, COMPLETED or FLAGGED. Whatever the FHIR library does,
    the run completes with the same status and the same validation
    result. *)
Theorem fhir_step_best_effort
    (P : Platform) (claim_data : ClaimData) (file_paths : gmap string string)
    (r : Results) :
  process_claim_async P claim_data file_paths = Return (ReturnResults r) →
  ∃ v, validation_result r = Some v
       ∧ (is_Some (fhir_bundle r) ↔ val_status v ≠ "FAILED_CRITICAL")
       ∧ (∀ e, val_status v ≠ "FAILED_CRITICAL" →
               fhir_bundle_json P (verified_patient_id claim_data)
                                  (doctor_diagnosis claim_data) = Raise e →
               fhir_bundle r = Some (fhir_error e)
               ∧ status r = final_status (val_status v)
               ∧ (status r = "COMPLETED" ∨ status r = "FLAGGED"))
       ∧ (∀ f, ∃ r',
               process_claim_async (with_fhir P f) claim_data file_paths
               = Return (ReturnResults r')
               ∧ status r' = status r
               ∧ validation_result r' = validation_result r).
Proof.
  intros Hrun%process_claim_async_results.
  pose proof (process_claim_body_fhir_independent P) as Hind.
  specialize (λ f, Hind f _ _ _ Hrun).
  apply process_claim_body_inv in Hrun as (path & dm & res & _ & _ & _ & ->).
  eexists. split; [done |].
  cbn [fhir_bundle status finished_results]. cbv zeta.
  unfold _run_validation_engine.
  set (fs := engine_failures _ _ _ _).
  pose proof (fhir_wanted_iff fs) as Hwanted.
  pose proof (final_status_mapping fs) as Hmap.
  split; [| split].
  - destruct (fhir_wanted _).
    + split; [naive_solver | by eexists].
    + split; [by intros [? ?] | naive_solver].
  - intros e Hne Hfail. apply Hwanted in Hne. rewrite Hne.
    unfold fhir_result. rewrite Hfail. split; [done |]. split; [done |].
    apply Hwanted in Hne.
    destruct Hmap as [[? _] | [[_ ->] | [_ ->]]]; [done | by right | by left].
  - intros f. destruct (Hind f) as (r' & Hr' & Hs & Hv & _).
    exists r'. by rewrite process_claim_async_results.
Qed.

Lemma fhir_step_best_effort_witness :
  ∃ r, process_claim_async fhir_down_platform sample_claim sample_paths
       = Return (ReturnResults r)
       ∧ fhir_bundle r
         = Some (fhir_error
                   (Exception "ValidationError" "id: string does not match"))
       ∧ status r = "COMPLETED".
Proof.
  eexists. split; [vm_compute; reflexivity |].
  destruct (fhir_step_best_effort fhir_down_platform sample_claim
              sample_paths _ eq_refl) as (v & Hv & _ & Hfail & _).
  injection Hv as <-.
  destruct (Hfail (Exception "ValidationError" "id: string does not match"))
    as (Hbundle & Hstatus & _);
    [vm_compute; discriminate | reflexivity |].
  split; [exact Hbundle | exact Hstatus].
Defined.

(** C8. The task returns a value for every input and every behaviour of
    the libraries, so no fault leaves the worker, and the status of what
    it returns is terminal (COMPLETED, FLAGGED, FAILED or ERROR). Any
    exception raised inside the [try] block, during extraction or
    validation, makes the task return the status ERROR together with the
    text of that exception. *)
Theorem worker_faults_end_in_error
    (P : Platform) (claim_data : ClaimData)
    (file_paths : gmap string string) :
  (∃ t, process_claim_async P claim_data file_paths = Return t
        ∧ is_terminal (return_status t))
  ∧ (∀ e, process_claim_body P claim_data file_paths = Raise e →
          process_claim_async P claim_data file_paths
          = Return (ReturnError "ERROR" (exn_str e))).
Proof.
  rewrite process_claim_async_result. split.
  - eexists. split; [done |].
    destruct (process_claim_body P claim_data file_paths) as [r | e] eqn:Hrun.
    + apply process_claim_body_inv in Hrun
        as (path & dm & res & _ & _ & _ & ->).
      apply final_status_terminal.
    + do 3 right. done.
  - by intros e ->.
Qed.

Lemma worker_faults_end_in_error_witness :
  process_claim_async backend_down_platform sample_claim sample_paths
  = Return (ReturnError "ERROR" "Redis unreachable")
  ∧ process_claim_async sample_platform sample_claim ∅
    = Return (ReturnError "ERROR" "'dicom'").
Proof.
  split.
  - apply (proj2 (worker_faults_end_in_error backend_down_platform
                    sample_claim sample_paths)
             (Exception "ConnectionError" "Redis unreachable")).
    vm_compute. reflexivity.
  - apply (proj2 (worker_faults_end_in_error sample_platform sample_claim ∅)
             (Exception "KeyError" "'dicom'")).
    vm_compute. reflexivity.
Defined.

(* ===================================================================== *)
(** * Rule 2 without a lab report *)
(* ===================================================================== *)

Lemma rule2_no_lab_report (cd : ClaimData) : rule2 cd "N/A" = [].
Proof.
  unfold rule2.
  change (PyStr.contains "normal" (PyStr.lower "N/A")) with false.
  by rewrite andb_false_r.
Qed.

Lemma aggregate_flagged (fs : list Finding) :
  val_status (aggregate fs) = "FLAGGED_HIGH" →
  any_confidence "HIGH" fs = true.
Proof.
  destruct fs as [| f fs]; [done |]. unfold aggregate.
  destruct (any_confidence "CRITICAL" _); [done |].
  by destruct (any_confidence "HIGH" _).
Qed.

Lemma engine_no_high_without_rule2
    (cd : ClaimData) (dm fp : gmap string string) (lab : string) :
  rule2 cd lab = [] →
  Forall (λ f, confidence f ≠ "HIGH") (engine_failures cd dm lab fp).
Proof.
  intros Hr2. unfold engine_failures. rewrite Hr2.
  destruct (rule1_cases cd dm) as [-> | (f1 & -> & H1)];
    destruct (rule3_cases cd fp) as [-> | (f3 & -> & H3)];
    destruct (rule4_cases cd fp) as [-> | ->];
    cbn [app]; repeat apply Forall_cons_2; try apply Forall_nil_2;
    rewrite ?H1, ?H3; done.
Qed.

(** C10. A submission without a lab-report PDF leaves no [lab_pdf] entry
    in the file paths; for every run on file paths without that entry
    that completes, the lab text handed to the engine is ["N/A"], Rule 2
    raises nothing, no finding is HIGH and the validation status is not
    FLAGGED_HIGH, whatever the diagnosis says. *)
Theorem missing_lab_report_never_flags
    (P : Platform) (claim_data : ClaimData) :
  (∀ form temp_dir disk0,
     Form.lab_report_pdf form = None →
     get_truthy (save_uploads P temp_dir form disk0).1 "lab_pdf" = false)
  ∧ (∀ file_paths r,
       get_truthy file_paths "lab_pdf" = false →
       process_claim_async P claim_data file_paths
       = Return (ReturnResults r) →
       lab_report_text r = Some "N/A"
       ∧ rule2 claim_data "N/A" = []
       ∧ ∃ dicom_meta v,
           dicom_metadata r = Some dicom_meta
           ∧ validation_result r = Some v
           ∧ v = _run_validation_engine claim_data dicom_meta "N/A"
                   file_paths (ocr_results r)
           ∧ Forall (λ f, confidence f ≠ "HIGH") (findings v)
           ∧ val_status v ≠ "FLAGGED_HIGH"
           ∧ status r ≠ "FLAGGED").
Proof.
  split.
  { intros form tmp disk0 Hnone. unfold get_truthy.
    by rewrite save_uploads_no_lab_pdf. }
  intros file_paths r Hno Hrun%process_claim_async_results.
  apply process_claim_body_inv in Hrun
    as (path & dm & res & _ & _ & Hloop & ->).
  apply (ocr_loop_lab_text P _ _ _ _ Hno) in Hloop.
  unfold finished_results. rewrite Hloop. cbn [default lab_report_text
    results_after_dicom dicom_metadata validation_result ocr_results status].
  split; [done |]. split; [apply rule2_no_lab_report |].
  exists dm. eexists. split; [done |]. split; [done |]. split; [done |].
  unfold _run_validation_engine. rewrite aggregate_findings.
  pose proof (engine_no_high_without_rule2 claim_data dm file_paths "N/A"
                (rule2_no_lab_report claim_data)) as Hnohigh.
  split; [done |].
  assert (val_status (aggregate (engine_failures claim_data dm "N/A"
                                   file_paths)) ≠ "FLAGGED_HIGH") as Hnf.
  { intros Hflag%aggregate_flagged.
    apply any_confidence_false in Hnohigh. congruence. }
  split; [done |].
  pose proof (final_status_mapping
                (engine_failures claim_data dm "N/A" file_paths)) as Hmap.
  destruct Hmap as [[_ ->] | [[? _] | [_ ->]]]; done.
Qed.

Lemma missing_lab_report_never_flags_witness :
  Form.lab_report_pdf sample_form = None
  ∧ get_truthy sample_paths "lab_pdf" = false
  ∧ get_truthy
      (save_uploads sample_platform "/srv/temp_uploads/uuid-1" sample_form
         ∅).1 "lab_pdf" = false
  ∧ ∃ r, process_claim_async sample_platform sample_claim sample_paths
         = Return (ReturnResults r)
         ∧ lab_report_text r = Some "N/A"
         ∧ rule2 sample_claim "N/A" = [].
Proof.
  destruct (missing_lab_report_never_flags sample_platform sample_claim)
    as [Hform Hrun].
  split; [reflexivity |]. split; [reflexivity |].
  split; [apply Hform; reflexivity |].
  eexists. split; [vm_compute; reflexivity |].
  destruct (Hrun sample_paths _ eq_refl eq_refl) as (Hlab & Hrule & _).
  split; [exact Hlab | exact Hrule].
Defined.

(* ===================================================================== *)
(** * More on the validation engine *)
(* ===================================================================== *)

Section EngineTable.

Implicit Types (cd : ClaimData) (dm fp ocr : gmap string string).
Implicit Types (lab : string).

Lemma rule2_cases_exact cd lab :
  rule2 cd lab = [] ∨ rule2 cd lab = [clinical_finding].
Proof. unfold rule2. destruct (_ && _); [by right | by left]. Qed.

Lemma rule3_cases_exact cd fp :
  rule3 cd fp = [] ∨ rule3 cd fp = [geotag_finding].
Proof. unfold rule3. destruct (_ && _); [by right | by left]. Qed.

Lemma rule1_cases_exact cd dm :
  rule1 cd dm = []
  ∨ ∃ why, rule1 cd dm = [ {| confidence := "CRITICAL"; reason := why |} ].
Proof.
  unfold rule1. destruct (get_truthy dm "error"); [right; eauto |].
  destruct (negb _); [right; eauto | by left].
Qed.

End EngineTable.

(** X1. The status of the engine as a decision table over the four rules:
    FAILED_CRITICAL exactly when Rule 1 or Rule 4 raises a finding;
    FLAGGED_HIGH exactly when neither does and Rule 2 does; PASSED_MEDIUM
    exactly when only Rule 3 does; PASSED exactly when no rule does. *)
Theorem status_decision_table
    (cd : ClaimData) (dm : gmap string string) (lab : string)
    (fp ocr : gmap string string) :
  let v := _run_validation_engine cd dm lab fp ocr in
  (val_status v = "FAILED_CRITICAL" ↔ rule1 cd dm ≠ [] ∨ rule4 cd fp ≠ [])
  ∧ (val_status v = "FLAGGED_HIGH"
     ↔ rule1 cd dm = [] ∧ rule4 cd fp = [] ∧ rule2 cd lab ≠ [])
  ∧ (val_status v = "PASSED_MEDIUM"
     ↔ rule1 cd dm = [] ∧ rule4 cd fp = [] ∧ rule2 cd lab = []
       ∧ rule3 cd fp ≠ [])
  ∧ (val_status v = "PASSED"
     ↔ rule1 cd dm = [] ∧ rule2 cd lab = [] ∧ rule3 cd fp = []
       ∧ rule4 cd fp = []).
Proof.
  cbv zeta. unfold _run_validation_engine, engine_failures.
  destruct (rule1_cases_exact cd dm) as [-> | (why & ->)];
    destruct (rule2_cases_exact cd lab) as [-> | ->];
    destruct (rule3_cases_exact cd fp) as [-> | ->];
    destruct (rule4_cases cd fp) as [-> | ->];
    cbn; repeat split; intros; try done; intuition congruence.
Qed.

(** X2. Each rule contributes at most one finding and the findings come in
    rule order: the severities of the findings form a subsequence of
    CRITICAL, HIGH, MEDIUM, CRITICAL, so there are at most four. *)
Theorem findings_in_rule_order
    (cd : ClaimData) (dm : gmap string string) (lab : string)
    (fp : gmap string string) :
  confidence <$> engine_failures cd dm lab fp
    `sublist_of` ["CRITICAL"; "HIGH"; "MEDIUM"; "CRITICAL"]
  ∧ length (engine_failures cd dm lab fp) ≤ 4.
Proof.
  assert (confidence <$> engine_failures cd dm lab fp
            `sublist_of` ["CRITICAL"; "HIGH"; "MEDIUM"; "CRITICAL"]) as Hsub.
  { unfold engine_failures. rewrite !fmap_app.
    change ["CRITICAL"; "HIGH"; "MEDIUM"; "CRITICAL"]
      with (["CRITICAL"] ++ ["HIGH"] ++ ["MEDIUM"] ++ ["CRITICAL"]).
    repeat apply sublist_app.
    - destruct (rule1_cases_exact cd dm) as [-> | (why & ->)];
        [apply sublist_nil_l | done].
    - destruct (rule2_cases_exact cd lab) as [-> | ->];
        [apply sublist_nil_l | done].
    - destruct (rule3_cases_exact cd fp) as [-> | ->];
        [apply sublist_nil_l | done].
    - destruct (rule4_cases cd fp) as [-> | ->];
        [apply sublist_nil_l | done]. }
  split; [exact Hsub |].
  apply sublist_length in Hsub. by rewrite length_fmap in Hsub.
Qed.


(* ===================================================================== *)
(** * Rule 3: geotag *)
(* ===================================================================== *)

Section Rule3.

Variable P : Platform.
Implicit Types (cd : ClaimData) (fp : gmap string string).

Lemma rule3_fires cd fp :
  rule3 cd fp = [geotag_finding]
  ↔ get_truthy fp "patient_photo" = true
    ∧ opt_truthy (patient_geotag cd) = false.
Proof.
  unfold rule3.
  destruct (get_truthy fp "patient_photo"), (opt_truthy (patient_geotag cd));
    cbn; intuition congruence.
Qed.

(** Only Rule 3 produces the geotag finding. *)
Lemma geotag_finding_from_rule3 cd dm lab fp :
  geotag_finding ∈ engine_failures cd dm lab fp
  ↔ rule3 cd fp = [geotag_finding].
Proof.
  unfold engine_failures. rewrite !elem_of_app.
  destruct (rule1_cases_exact cd dm) as [-> | (why & ->)];
    destruct (rule2_cases_exact cd lab) as [-> | ->];
    destruct (rule3_cases_exact cd fp) as [-> | ->];
    destruct (rule4_cases cd fp) as [-> | ->];
    rewrite ?elem_of_cons, ?elem_of_nil; split; try done;
    intuition discriminate.
Qed.

Lemma written_uploads_patient_photo tmp form disk0 :
  (written_uploads P tmp form disk0).1 !! "patient_photo"
  = (λ f, path_join P tmp (filename f)) <$> Form.geotagged_patient_photo form.
Proof.
  unfold written_uploads. rewrite !written_optional_lookup, written_file_lookup.
  repeat (rewrite decide_False by done). rewrite decide_True by done.
  destruct (Form.geotagged_patient_photo form); [done |].
  rewrite decide_False by done. by rewrite decide_False by done.
Qed.

Lemma prepare_claim_data_fields form cd :
  prepare_claim_data P form = Return cd →
  verified_patient_id cd = Form.verified_patient_id form
  ∧ doctor_diagnosis cd = Form.doctor_diagnosis form
  ∧ patient_geotag cd = Form.patient_geotag form.
Proof.
  unfold prepare_claim_data.
  destruct (load_payload P (Form.verified_identity_payload form)); [| done].
  destruct (load_payload P (Form.digital_consent_payload form)); [| done].
  by intros [= <-].
Qed.

(** A stored upload has a non-empty path. *)
Lemma stored_path_truthy uuid4 name :
  join_nonempty P →
  PyStr.truthy
    (path_join P (path_join P (path_join P (getcwd P) "temp_uploads") uuid4)
       name) = true.
Proof.
  intros Hjoin. destruct (path_join P _ name) eqn:Hp; [| done].
  apply Hjoin in Hp as [Hp _]. by apply temp_dir_nonempty in Hp.
Qed.

End Rule3.

(** X3. For every accepted submission, the engine, run on what the intake
    hands to the worker, raises the Rule-3 finding (MEDIUM) if and only if
    a patient photo was uploaded and the geotag field is absent or
    empty. *)
Theorem geotag_check
    (P : Platform) (uuid4 : string) (form : Form.t) (σ σ' : Server)
    (msg tid key : string) :
  join_nonempty P →
  submit_claim_async P uuid4 form σ = (Return (Accepted msg tid key), σ') →
  ∃ claim_data file_paths,
    celery_queue σ' = celery_queue σ ++ [(tid, claim_data, file_paths)]
    ∧ ∀ dicom_meta lab_text,
        geotag_finding
          ∈ engine_failures claim_data dicom_meta lab_text file_paths
        ↔ is_Some (Form.geotagged_patient_photo form)
          ∧ opt_truthy (Form.patient_geotag form) = false.
Proof.
  intros Hjoin Hsub.
  apply submit_accepted in Hsub as (cd & Hcd & _ & -> & _ & _ & _ & Hq).
  cbv zeta in Hq. eexists cd, _. split; [exact Hq |].
  intros dm lab. rewrite geotag_finding_from_rule3, rule3_fires.
  apply prepare_claim_data_fields in Hcd as (_ & _ & ->).
  unfold get_truthy. rewrite written_uploads_patient_photo.
  destruct (Form.geotagged_patient_photo form) as [f |];
    cbn [fmap option_fmap option_map].
  - rewrite stored_path_truthy by done. split; [| naive_solver].
    intros [_ ?]. split; [by eexists | done].
  - split; [naive_solver |]. by intros [[? [=]] _].
Qed.

Lemma geotag_check_witness :
  join_nonempty sample_platform
  ∧ ∃ claim_data file_paths,
      celery_queue sample_server
      = celery_queue empty_server ++ [("uuid-1", claim_data, file_paths)]
      ∧ ∀ dicom_meta lab_text,
          geotag_finding
            ∈ engine_failures claim_data dicom_meta lab_text file_paths
          ↔ is_Some (Form.geotagged_patient_photo sample_form)
            ∧ opt_truthy (Form.patient_geotag sample_form) = false.
Proof.
  assert (join_nonempty sample_platform) as Hjoin.
  { intros a b. destruct a; [| done]. destruct b; done. }
  split; [exact Hjoin |].
  apply (geotag_check sample_platform "uuid-1" sample_form empty_server
           sample_server "Claim accepted." "uuid-1"
           (effective_key sample_form) Hjoin).
  vm_compute. reflexivity.
Defined.

(* ===================================================================== *)
(** * Substring matching in Rule 2 *)
(* ===================================================================== *)

Section Substrings.

Lemma prefix_split (x hay : string) :
  String.prefix x hay = true → ∃ b, hay = x +:+ b.
Proof.
  revert hay. induction x as [| c x IH]; intros hay Hp.
  - by exists hay.
  - destruct hay as [| c' hay]; [done |]. cbn [String.prefix] in Hp.
    destruct (ascii_dec c c') as [<- |]; [| done].
    destruct (IH _ Hp) as [b ->]. by exists b.
Qed.

(** [x in hay] holds exactly when [hay] is [a + x + b]. *)
Lemma contains_iff (x hay : string) :
  PyStr.contains x hay = true ↔ ∃ a b, hay = a +:+ x +:+ b.
Proof.
  split; [| intros (a & b & ->); apply contains_app].
  induction hay as [| c hay IH]; cbn [PyStr.contains].
  - rewrite orb_false_r. intros [b ->]%prefix_split. by exists "", b.
  - intros [[b ->]%prefix_split | (a & b & ->)%IH]%orb_true_iff.
    + by exists "", b.
    + by exists (String c a), b.
Qed.

Lemma contains_trans (x y z : string) :
  PyStr.contains x y = true → PyStr.contains y z = true →
  PyStr.contains x z = true.
Proof.
  rewrite !contains_iff. intros (a & b & ->) (a' & b' & ->).
  exists (a' +:+ a), (b +:+ b'). by rewrite !append_assoc.
Qed.

End Substrings.

(** X4. Rule 2 matches by substring: on a critical diagnosis it raises its
    HIGH finding for every lab text whose lower-case form contains a word
    in which [normal] occurs, for example [abnormal]. *)
Theorem rule2_matches_inside_words
    (cd : ClaimData) (lab_text word : string) :
  critical_diagnosis cd = true →
  PyStr.contains "normal" word = true →
  PyStr.contains word (PyStr.lower lab_text) = true →
  rule2 cd lab_text = [clinical_finding].
Proof.
  intros Hdiag Hword Hlab. unfold rule2.
  unfold critical_diagnosis in Hdiag. rewrite Hdiag.
  by rewrite (contains_trans _ _ _ Hword Hlab).
Qed.

Lemma rule2_matches_inside_words_witness :
  rule2 sample_claim "Chest X-ray: ABNORMAL opacity" = [clinical_finding].
Proof.
  apply (rule2_matches_inside_words sample_claim _ "abnormal");
    vm_compute; reflexivity.
Defined.

(* ===================================================================== *)
(** * Trimming in Rule 1 *)
(* ===================================================================== *)

Section Trimming.

Lemma lstrip_blank (ws s : string) :
  all_space ws = true → PyStr.lstrip (ws +:+ s) = PyStr.lstrip s.
Proof.
  induction ws as [| c ws IH]; [done |]. cbn [all_space].
  intros [Hc Hws]%andb_true_iff.
  change (String c ws +:+ s) with (String c (ws +:+ s)).
  cbn [PyStr.lstrip]. rewrite Hc. by apply IH.
Qed.

Lemma rstrip_all_blank (ws : string) :
  all_space ws = true → PyStr.rstrip ws = "".
Proof.
  induction ws as [| c ws IH]; [done |]. cbn [all_space].
  intros [Hc Hws]%andb_true_iff. cbn [PyStr.rstrip].
  by rewrite (IH Hws), Hc.
Qed.

Lemma rstrip_blank (s ws : string) :
  all_space ws = true → PyStr.rstrip (s +:+ ws) = PyStr.rstrip s.
Proof.
  intros Hws. induction s as [| c s IH].
  - by apply rstrip_all_blank.
  - change (String c s +:+ ws) with (String c (s +:+ ws)).
    cbn [PyStr.rstrip]. by rewrite IH.
Qed.

Lemma lstrip_cases (s : string) :
  (PyStr.lstrip s = "" ∧ all_space s = true)
  ∨ ∃ c t, PyStr.lstrip s = String c t ∧ PyStr.isspace c = false.
Proof.
  induction s as [| c s IH]; [by left |]. cbn [PyStr.lstrip all_space].
  destruct (PyStr.isspace c) eqn:Hc; [| right; eauto].
  destruct IH as [[? ?] | ?]; [by left | by right].
Qed.

Lemma all_space_app (a b : string) :
  all_space a = true → all_space b = true → all_space (a +:+ b) = true.
Proof.
  intros Ha Hb. induction a as [| c a IH]; [done |].
  cbn [all_space] in Ha. apply andb_true_iff in Ha as [Hc Ha].
  change (String c a +:+ b) with (String c (a +:+ b)).
  cbn [all_space]. by rewrite Hc, IH.
Qed.

Lemma lstrip_app_nonblank (s ws : string) c t :
  PyStr.lstrip s = String c t →
  PyStr.lstrip (s +:+ ws) = String c t +:+ ws.
Proof.
  induction s as [| c' s IH]; [done |].
  change (String c' s +:+ ws) with (String c' (s +:+ ws)).
  cbn [PyStr.lstrip]. destruct (PyStr.isspace c'); [done |].
  by intros [= <- <-].
Qed.

Lemma lstrip_all_blank (ws : string) :
  all_space ws = true → PyStr.lstrip ws = "".
Proof.
  induction ws as [| c ws IH]; [done |]. cbn [all_space].
  intros [Hc Hws]%andb_true_iff. cbn [PyStr.lstrip]. rewrite Hc. by apply IH.
Qed.

(** [strip] ignores blank text on either side. *)
Lemma strip_blank (a s b : string) :
  all_space a = true → all_space b = true →
  PyStr.strip (a +:+ s +:+ b) = PyStr.strip s.
Proof.
  intros Ha Hb. unfold PyStr.strip. rewrite lstrip_blank by done.
  destruct (lstrip_cases s) as [[Hs Hall] | (c & t & Hs & _)].
  - by rewrite Hs, (lstrip_all_blank _ (all_space_app _ _ Hall Hb)).
  - rewrite (lstrip_app_nonblank _ _ _ _ Hs), Hs. by apply rstrip_blank.
Qed.

End Trimming.

(** X5. Rule 1 compares the two patient ids modulo surrounding blanks:
    padding the declared id and the DICOM id with blank characters on
    either side changes nothing in what Rule 1 returns. *)
Theorem rule1_ignores_padding
    (cd : ClaimData) (dm : gmap string string) (dicom_id a b a' b' : string) :
  all_space a = true → all_space b = true →
  all_space a' = true → all_space b' = true →
  rule1 (with_patient_id cd (a +:+ verified_patient_id cd +:+ b))
        (<["PatientID" := a' +:+ dicom_id +:+ b']> dm)
  = rule1 cd (<["PatientID" := dicom_id]> dm).
Proof.
  intros Ha Hb Ha' Hb'. unfold rule1, get_truthy, str_get.
  rewrite !lookup_insert_eq, !lookup_insert_ne by done.
  cbn [verified_patient_id with_patient_id].
  by rewrite !strip_blank by done.
Qed.

Lemma rule1_ignores_padding_witness :
  rule1 (with_patient_id sample_claim "  P123 ")
        {[ "PatientID" := " P123  " ]}
  = rule1 sample_claim {[ "PatientID" := "P123" ]}.
Proof.
  apply (rule1_ignores_padding sample_claim ∅ "P123" "  " " " " " "  ");
    reflexivity.
Defined.


(* ===================================================================== *)
(** * Runs of the task *)
(* ===================================================================== *)

Section Runs.

Variable P : Platform.
Implicit Types (cd : ClaimData) (fp dm : gmap string string).
Implicit Types (r res : Results).

Lemma aggregate_critical_head f fs :
  confidence f = "CRITICAL" →
  val_status (aggregate (f :: fs)) = "FAILED_CRITICAL".
Proof.
  intros Hf. unfold aggregate, any_confidence. cbn [existsb].
  by rewrite Hf.
Qed.

Lemma final_status_failed : final_status "FAILED_CRITICAL" = "FAILED".
Proof. reflexivity. Qed.

Lemma dicom_summary_no_error ds : get_truthy (dicom_summary ds) "error" = false.
Proof.
  unfold get_truthy. rewrite dicom_summary_other; [done |].
  unfold dicom_fields. rewrite !not_elem_of_cons. repeat split; try done.
  apply not_elem_of_nil.
Qed.

Lemma dicom_summary_patient_id ds :
  str_get (dicom_summary ds) "PatientID" = default "N/A" (ds !! "PatientID").
Proof.
  unfold str_get. rewrite dicom_summary_lookup; [done |].
  unfold dicom_fields. apply elem_of_cons. by left.
Qed.

(** What one pass of the loop body does. *)
Lemma ocr_step_inv fp res key label res' :
  ocr_step P fp res (key, label) = Return res' →
  if get_truthy fp key then
    ∃ text,
      steps_completed res' = steps_completed res ++ [label]
      ∧ ocr_results res' = <[key := text]> (ocr_results res)
      ∧ (key = "lab_pdf" →
         lab_report_text res' = Some text
         ∧ ∃ path, fp !! key = Some path ∧ _process_pdf P path = Return text)
      ∧ (key ≠ "lab_pdf" → lab_report_text res' = lab_report_text res)
  else res' = res.
Proof.
  unfold ocr_step. destruct (get_truthy fp key) eqn:Hget;
    [| by intros [= <-]].
  intros (_ & _ & (path & Hpath & Hrest)%bind_inv)%bind_inv.
  unfold getitem in Hpath.
  destruct (fp !! key) as [p |] eqn:Hfp; [| done]. injection Hpath as ->.
  destruct (String.eqb_spec key "lab_pdf") as [-> | Hne].
  - rewrite _process_pdf_result in Hrest. cbn in Hrest.
    injection Hrest as <-. eexists. split; [done |]. split; [done |].
    split; [| done]. intros _. split; [done |]. exists path.
    split; [done |]. apply _process_pdf_result.
  - rewrite _process_image_ocr_result in Hrest. cbn in Hrest.
    injection Hrest as <-. eexists. split; [done |]. split; [done |].
    split; done.
Qed.

(** The bookkeeping of the loop over any list of roles. *)
Lemma ocr_loop_steps fp roles res res' :
  for_each (ocr_step P fp) res roles = Return res' →
  steps_completed res'
  = steps_completed res
    ++ (List.filter (λ kl, get_truthy fp kl.1) roles).*2
  ∧ dom (ocr_results res')
    = dom (ocr_results res)
      ∪ list_to_set (List.filter (λ kl, get_truthy fp kl.1) roles).*1.
Proof.
  revert res. induction roles as [| [key label] roles IH]; intros res.
  - intros [= <-]. cbn. split; [by rewrite app_nil_r | set_solver].
  - cbn [for_each]. intros (r1 & H1 & Hrest)%bind_inv.
    apply IH in Hrest as [Hsteps Hdom]. apply ocr_step_inv in H1.
    cbn [List.filter fst]. destruct (get_truthy fp key).
    + destruct H1 as (text & Hs & Ho & _). rewrite Hsteps, Hdom, Hs, Ho.
      cbn [fmap list_fmap snd fst list_to_set foldr].
      split; [by rewrite <- app_assoc |].
      rewrite dom_insert_L. set_solver.
    + subst r1. done.
Qed.

(** A later pass leaves the lab text of an earlier pass in place. *)
Lemma ocr_loop_keeps_lab fp roles res res' text :
  for_each (ocr_step P fp) res roles = Return res' →
  "lab_pdf" ∉ roles.*1 →
  lab_report_text res = Some text →
  ocr_results res !! "lab_pdf" = Some text →
  lab_report_text res' = Some text
  ∧ ocr_results res' !! "lab_pdf" = Some text.
Proof.
  revert res. induction roles as [| [key label] roles IH]; intros res.
  - by intros [= <-].
  - cbn [for_each]. intros (r1 & H1 & Hrest)%bind_inv.
    cbn [fmap list_fmap fst]. rewrite not_elem_of_cons. intros [Hne Hnot].
    intros Hlab Hocr. apply (IH _ Hrest Hnot).
    + apply ocr_step_inv in H1. destruct (get_truthy fp key).
      * destruct H1 as (t & _ & _ & _ & Hkeep). by rewrite Hkeep.
      * by subst r1.
    + apply ocr_step_inv in H1. destruct (get_truthy fp key).
      * destruct H1 as (t & _ & -> & _). by rewrite lookup_insert_ne.
      * by subst r1.
Qed.

End Runs.



(** X7. When [dcmread] fails with a non-empty message, every run that
    completes ends FAILED: the DICOM metadata is the error dict, the first
    finding is the corrupt-source finding carrying that message, the
    validation status is FAILED_CRITICAL and no FHIR bundle is stored. *)
Theorem corrupt_dicom_fails
    (P : Platform) (cd : ClaimData) (file_paths : gmap string string)
    (path : string) (e : exn) (r : Results) :
  file_paths !! "dicom" = Some path →
  dcmread P path = Raise e →
  exn_str e ≠ "" →
  process_claim_async P cd file_paths = Return (ReturnResults r) →
  status r = "FAILED"
  ∧ fhir_bundle r = None
  ∧ dicom_metadata r = Some {[ "error" := exn_str e ]}
  ∧ ∃ v, validation_result r = Some v
         ∧ val_status v = "FAILED_CRITICAL"
         ∧ head (findings v) = Some (corrupt_finding (exn_str e)).
Proof.
  intros Hpath Hread Hmsg Hrun%process_claim_async_results.
  apply process_claim_body_inv in Hrun
    as (path' & dm & res & Hpath' & Hdm & _ & ->).
  rewrite Hpath in Hpath'. injection Hpath' as <-.
  rewrite _process_dicom_result, Hread in Hdm. injection Hdm as <-.
  unfold finished_results, _run_validation_engine, engine_failures.
  rewrite (rule1_corrupt cd _ (exn_str e)) by (by rewrite ?lookup_singleton_eq).
  cbn [app]. rewrite aggregate_critical_head by done.
  cbn [status fhir_bundle dicom_metadata validation_result].
  repeat (split; [done |]). eexists. split; [done |].
  rewrite aggregate_critical_head by done. split; [done |].
  by rewrite aggregate_findings.
Qed.

Lemma corrupt_dicom_fails_witness :
  ∃ r, process_claim_async
         (with_dcmread sample_platform
            (λ _, Raise (Exception "InvalidDicomError" "File is missing")))
         sample_claim sample_paths
       = Return (ReturnResults r)
       ∧ status r = "FAILED" ∧ fhir_bundle r = None.
Proof.
  eexists. split; [vm_compute; reflexivity |].
  match goal with
  | |- status ?r = _ ∧ _ =>
      destruct (corrupt_dicom_fails
                  (with_dcmread sample_platform
                     (λ _, Raise (Exception "InvalidDicomError"
                                    "File is missing")))
                  sample_claim sample_paths "/srv/temp_uploads/t1/scan.dcm"
                  (Exception "InvalidDicomError" "File is missing") r
                  eq_refl eq_refl)
        as (Hs & Hb & _); [done | vm_compute; reflexivity |]
  end.
  split; [exact Hs | exact Hb].
Defined.

(** X8. When the DICOM file is readable and the declared patient id,
    trimmed, differs from the trimmed PatientID of the file (["N/A"] when
    the file has none), every run that completes ends FAILED with the
    mismatch finding first and no FHIR bundle, whatever else was
    submitted. *)
Theorem identity_mismatch_fails
    (P : Platform) (cd : ClaimData) (file_paths : gmap string string)
    (path : string) (ds : gmap string string) (r : Results) :
  file_paths !! "dicom" = Some path →
  dcmread P path = Return ds →
  PyStr.strip (verified_patient_id cd)
    ≠ PyStr.strip (default "N/A" (ds !! "PatientID")) →
  process_claim_async P cd file_paths = Return (ReturnResults r) →
  status r = "FAILED"
  ∧ fhir_bundle r = None
  ∧ ∃ v, validation_result r = Some v
         ∧ val_status v = "FAILED_CRITICAL"
         ∧ head (findings v)
           = Some (mismatch_finding
                     (PyStr.strip (verified_patient_id cd))
                     (PyStr.strip (default "N/A" (ds !! "PatientID")))).
Proof.
  intros Hpath Hread Hne Hrun%process_claim_async_results.
  apply process_claim_body_inv in Hrun
    as (path' & dm & res & Hpath' & Hdm & _ & ->).
  rewrite Hpath in Hpath'. injection Hpath' as <-.
  rewrite _process_dicom_result, Hread in Hdm. injection Hdm as <-.
  unfold finished_results, _run_validation_engine, engine_failures.
  assert (rule1 cd (dicom_summary ds)
          = [mismatch_finding
               (PyStr.strip (verified_patient_id cd))
               (PyStr.strip (default "N/A" (ds !! "PatientID")))]) as ->.
  { unfold rule1. rewrite dicom_summary_no_error, dicom_summary_patient_id.
    apply String.eqb_neq in Hne. by rewrite Hne. }
  cbn [app]. rewrite aggregate_critical_head by done.
  cbn [status fhir_bundle dicom_metadata validation_result].
  repeat (split; [done |]). eexists. split; [done |].
  rewrite aggregate_critical_head by done. split; [done |].
  by rewrite aggregate_findings.
Qed.

Lemma identity_mismatch_fails_witness :
  ∃ r, process_claim_async sample_platform
         (with_patient_id sample_claim "P999") sample_paths
       = Return (ReturnResults r)
       ∧ status r = "FAILED"
       ∧ ∃ v, validation_result r = Some v
              ∧ head (findings v) = Some (mismatch_finding "P999" "P123").
Proof.
  eexists. split; [vm_compute; reflexivity |].
  match goal with
  | |- status ?r = _ ∧ _ =>
      destruct (identity_mismatch_fails sample_platform
                  (with_patient_id sample_claim "P999") sample_paths
                  "/srv/temp_uploads/t1/scan.dcm" sample_dataset r
                  eq_refl eq_refl)
        as (Hs & _ & v & Hv & _ & Hhead); [done | vm_compute; reflexivity |]
  end.
  split; [exact Hs |]. exists v. split; [exact Hv | exact Hhead].
Defined.

(** X9. A claim whose ids match, that carries consent and raises no
    clinical conflict (its diagnosis is not critical, or no lab report was
    stored) completes when the DICOM file is readable: in every run that
    returns results the status is COMPLETED, the validation status is
    PASSED or PASSED_MEDIUM, the only possible finding is the geotag
    one, and the FHIR step has stored its result. *)
Theorem clean_claim_completes
    (P : Platform) (cd : ClaimData) (file_paths : gmap string string)
    (path : string) (ds : gmap string string) (r : Results) :
  file_paths !! "dicom" = Some path →
  dcmread P path = Return ds →
  PyStr.strip (verified_patient_id cd)
    = PyStr.strip (default "N/A" (ds !! "PatientID")) →
  json_truthy (consent_data cd) = true
    ∨ get_truthy file_paths "consent_image" = true →
  critical_diagnosis cd = false ∨ get_truthy file_paths "lab_pdf" = false →
  process_claim_async P cd file_paths = Return (ReturnResults r) →
  status r = "COMPLETED"
  ∧ fhir_bundle r = Some (fhir_result P cd)
  ∧ ∃ v, validation_result r = Some v
         ∧ (val_status v = "PASSED" ∨ val_status v = "PASSED_MEDIUM")
         ∧ findings v = rule3 cd file_paths.
Proof.
  intros Hpath Hread Hid Hconsent Hdiag Hrun%process_claim_async_results.
  apply process_claim_body_inv in Hrun
    as (path' & dm & res & Hpath' & Hdm & Hloop & ->).
  rewrite Hpath in Hpath'. injection Hpath' as <-.
  rewrite _process_dicom_result, Hread in Hdm. injection Hdm as <-.
  unfold finished_results, _run_validation_engine, engine_failures.
  rewrite (rule1_match cd (dicom_summary ds))
    by (by rewrite ?dicom_summary_no_error, ?dicom_summary_patient_id).
  assert (rule2 cd (default "N/A" (lab_report_text res)) = []) as ->.
  { destruct Hdiag as [Hdiag | Hnolab].
    - unfold rule2. unfold critical_diagnosis in Hdiag. by rewrite Hdiag.
    - rewrite (ocr_loop_lab_text P _ _ _ _ Hnolab Hloop).
      apply rule2_no_lab_report. }
  assert (rule4 cd file_paths = []) as ->.
  { unfold rule4. destruct Hconsent as [-> | ->]; [done |].
    by rewrite andb_false_r. }
  rewrite app_nil_r. cbn [app].
  cbn [status fhir_bundle dicom_metadata validation_result].
  destruct (rule3_cases_exact cd file_paths) as [-> | ->]; cbn;
    (split; [done |]); (split; [done |]); eexists; (split; [done |]);
    split; auto.
Qed.

Lemma clean_claim_completes_witness :
  ∃ r, process_claim_async sample_platform sample_claim sample_paths
       = Return (ReturnResults r)
       ∧ status r = "COMPLETED"
       ∧ fhir_bundle r = Some (fhir_result sample_platform sample_claim).
Proof.
  eexists. split; [vm_compute; reflexivity |].
  match goal with
  | |- status ?r = _ ∧ _ =>
      destruct (clean_claim_completes sample_platform sample_claim
                  sample_paths "/srv/temp_uploads/t1/scan.dcm"
                  sample_dataset r eq_refl eq_refl eq_refl
                  (or_introl eq_refl) (or_intror eq_refl))
        as (Hs & Hb & _); [vm_compute; reflexivity |]
  end.
  split; [exact Hs | exact Hb].
Defined.

Section Bookkeeping.

Variable P : Platform.

Lemma append_nil_r (s : string) : s +:+ "" = s.
Proof.
  induction s as [| c s IH]; [done |].
  change (String c s +:+ "") with (String c (s +:+ "")). by rewrite IH.
Qed.

Lemma foldl_append (acc : string) (texts : list string) :
  foldl String.append acc texts = acc +:+ foldr String.append "" texts.
Proof.
  revert acc. induction texts as [| t texts IH]; intros acc; cbn [foldl foldr].
  - by rewrite append_nil_r.
  - by rewrite IH, append_assoc.
Qed.

Lemma for_each_cons {A B} (step : A → B → outcome A) acc x l :
  for_each step acc (x :: l) = (acc' ← step acc x; for_each step acc' l).
Proof. reflexivity. Qed.

(** Reading stops at the first page that cannot be read. *)
Lemma pdf_text_failing_page (texts : list string) (e : exn)
    (rest : list (outcome string)) (acc : string) :
  for_each (λ text page, t ← page; mret (text +:+ t)) acc
    ((Return <$> texts) ++ Raise e :: rest)
  = Raise e.
Proof.
  revert acc. induction texts as [| t texts IH]; intros acc; [done |].
  cbn. apply IH.
Qed.

(** With a result backend that takes every update, the loop and the
    [try] block run to their end. *)
Lemma ocr_step_returns fp res kl :
  (∀ state step, update_state P state step = Return tt) →
  ∃ res', ocr_step P fp res kl = Return res'.
Proof.
  intros Hupd. destruct kl as [key label]. unfold ocr_step.
  destruct (get_truthy fp key) eqn:Hget; [| by eexists].
  rewrite Hupd. cbn [mbind outcome_bind].
  unfold get_truthy in Hget. unfold getitem.
  destruct (fp !! key) as [path |]; [| done].
  cbn [mbind outcome_bind mret outcome_ret].
  destruct (String.eqb key "lab_pdf").
  - rewrite _process_pdf_result. by eexists.
  - rewrite _process_image_ocr_result. by eexists.
Qed.

Lemma ocr_loop_returns fp roles res :
  (∀ state step, update_state P state step = Return tt) →
  ∃ res', for_each (ocr_step P fp) res roles = Return res'.
Proof.
  intros Hupd. revert res. induction roles as [| kl roles IH]; intros res.
  - by eexists.
  - cbn [for_each]. destruct (ocr_step_returns fp res kl Hupd) as [r1 ->].
    cbn [mbind outcome_bind]. apply IH.
Qed.

Lemma process_claim_body_returns cd fp :
  (∀ state step, update_state P state step = Return tt) →
  is_Some (fp !! "dicom") →
  ∃ r, process_claim_body P cd fp = Return r.
Proof.
  intros Hupd [path Hpath]. rewrite process_claim_body_stages, Hupd.
  cbn [mbind outcome_bind]. unfold getitem. rewrite Hpath.
  cbn [mbind outcome_bind mret outcome_ret]. rewrite _process_dicom_result.
  cbn [mbind outcome_bind].
  destruct (ocr_loop_returns fp ocr_roles
              (results_after_dicom
                 match dcmread P path with
                 | Return ds => dicom_summary ds
                 | Raise e => {[ "error" := exn_str e ]}
                 end) Hupd) as [res ->].
  cbn [mbind outcome_bind]. rewrite Hupd. by eexists.
Qed.

End Bookkeeping.

(** X10. In every run that returns results, [steps_completed] is DICOM
    followed by the labels of the optional documents that have a stored
    path, in the fixed order lab report, identity document, consent
    image; and [ocr_results] has an entry for exactly those documents. *)
Theorem pipeline_bookkeeping
    (P : Platform) (cd : ClaimData) (file_paths : gmap string string)
    (r : Results) :
  process_claim_async P cd file_paths = Return (ReturnResults r) →
  steps_completed r = "DICOM" :: (present_roles file_paths).*2
  ∧ dom (ocr_results r) = list_to_set (present_roles file_paths).*1.
Proof.
  intros Hrun%process_claim_async_results.
  apply process_claim_body_inv in Hrun
    as (path & dm & res & _ & _ & Hloop & ->).
  apply ocr_loop_steps in Hloop as [Hsteps Hdom].
  cbn [steps_completed ocr_results finished_results results_after_dicom]
    in *.
  split; [exact Hsteps |]. rewrite Hdom, dom_empty_L. set_solver.
Qed.

Lemma pipeline_bookkeeping_witness :
  ∃ r, process_claim_async sample_platform sample_claim
         (<["consent_image" := "/srv/temp_uploads/t1/consent.png"]>
            (<["lab_pdf" := "/srv/temp_uploads/t1/lab.pdf"]> sample_paths))
       = Return (ReturnResults r)
       ∧ steps_completed r = ["DICOM"; "LAB_PDF"; "CONSENT_OCR"].
Proof.
  eexists. split; [vm_compute; reflexivity |].
  match goal with
  | |- steps_completed ?r = _ =>
      destruct (pipeline_bookkeeping sample_platform sample_claim
                  (<["consent_image" := "/srv/temp_uploads/t1/consent.png"]>
                     (<["lab_pdf" := "/srv/temp_uploads/t1/lab.pdf"]>
                        sample_paths)) r)
        as [Hsteps _]; [vm_compute; reflexivity |]
  end.
  rewrite Hsteps. vm_compute. reflexivity.
Defined.

(** X11. When a lab report is stored, every run that returns results has
    used the text [_process_pdf] returned for it: that text is the lab
    text, it is the [lab_pdf] entry of [ocr_results], and it is the text
    the engine was run on. A lab report that cannot be opened does not
    fail the task: with a DICOM path stored and a result backend that
    takes every update, the task returns results, and their lab text is
    the [PDF Error] text of the exception. *)
Theorem lab_report_text_used
    (P : Platform) (cd : ClaimData) (file_paths : gmap string string) :
  get_truthy file_paths "lab_pdf" = true →
  (∀ r, process_claim_async P cd file_paths = Return (ReturnResults r) →
        ∃ path text dm,
          file_paths !! "lab_pdf" = Some path
          ∧ _process_pdf P path = Return text
          ∧ lab_report_text r = Some text
          ∧ ocr_results r !! "lab_pdf" = Some text
          ∧ dicom_metadata r = Some dm
          ∧ validation_result r
            = Some (_run_validation_engine cd dm text file_paths
                      (ocr_results r))
          ∧ (∀ e, fitz_open P path = Raise e →
                  text = "PDF Error: " +:+ exn_str e))
  ∧ (∀ path e,
       file_paths !! "lab_pdf" = Some path →
       fitz_open P path = Raise e →
       is_Some (file_paths !! "dicom") →
       (∀ state step, update_state P state step = Return tt) →
       ∃ r, process_claim_async P cd file_paths = Return (ReturnResults r)
            ∧ lab_report_text r = Some ("PDF Error: " +:+ exn_str e)
            ∧ ocr_results r !! "lab_pdf"
              = Some ("PDF Error: " +:+ exn_str e)).
Proof.
  intros Hlab.
  assert (∀ r, process_claim_async P cd file_paths
               = Return (ReturnResults r) →
               ∃ path text dm,
                 file_paths !! "lab_pdf" = Some path
                 ∧ _process_pdf P path = Return text
                 ∧ lab_report_text r = Some text
                 ∧ ocr_results r !! "lab_pdf" = Some text
                 ∧ dicom_metadata r = Some dm
                 ∧ validation_result r
                   = Some (_run_validation_engine cd dm text file_paths
                             (ocr_results r))
                 ∧ (∀ e, fitz_open P path = Raise e →
                         text = "PDF Error: " +:+ exn_str e)) as Hused.
  { intros r Hrun%process_claim_async_results.
    apply process_claim_body_inv in Hrun
      as (dpath & dm & res & _ & _ & Hloop & ->).
    unfold ocr_roles in Hloop. rewrite for_each_cons in Hloop.
    apply bind_inv in Hloop as (r1 & H1 & Hrest).
    apply ocr_step_inv in H1. rewrite Hlab in H1.
    destruct H1 as (text & _ & Hocr & Hpdf & _).
    destruct (Hpdf eq_refl) as (Htext & path & Hpath & Hproc).
    apply (ocr_loop_keeps_lab P _ _ _ _ text) in Hrest as [Hl Ho].
    - exists path, text, dm. unfold finished_results.
      cbn [lab_report_text ocr_results dicom_metadata validation_result].
      rewrite Hl. cbn [default]. repeat (split; [done |]).
      intros e He. rewrite _process_pdf_result, He in Hproc.
      by injection Hproc as <-.
    - cbn. rewrite !not_elem_of_cons. repeat split; try done.
      apply not_elem_of_nil.
    - done.
    - rewrite Hocr. apply lookup_insert_eq. }
  split; [exact Hused |].
  intros path e Hpath Hopen Hdicom Hupd.
  destruct (process_claim_body_returns P cd file_paths Hupd Hdicom)
    as [r Hr].
  apply process_claim_async_results in Hr. exists r. split; [exact Hr |].
  destruct (Hused r Hr) as (path' & text & dm & Hp' & _ & Hl & Ho & _ & _ & Herr).
  rewrite Hpath in Hp'. injection Hp' as <-.
  rewrite (Herr e Hopen) in Hl, Ho. done.
Qed.

Lemma lab_report_text_used_witness :
  ∃ r, process_claim_async pdf_down_platform sample_claim
         (<["lab_pdf" := "/srv/temp_uploads/t1/lab.pdf"]> sample_paths)
       = Return (ReturnResults r)
       ∧ lab_report_text r
         = Some "PDF Error: cannot open broken document".
Proof.
  assert (get_truthy (<["lab_pdf" := "/srv/temp_uploads/t1/lab.pdf"]>
                        sample_paths) "lab_pdf" = true) as Hlab
    by (vm_compute; reflexivity).
  destruct (proj2 (lab_report_text_used pdf_down_platform sample_claim
                     (<["lab_pdf" := "/srv/temp_uploads/t1/lab.pdf"]>
                        sample_paths) Hlab)
              "/srv/temp_uploads/t1/lab.pdf"
              (Exception "FileDataError" "cannot open broken document"))
    as (r & Hr & Hl & _).
  - vm_compute. reflexivity.
  - reflexivity.
  - eexists. vm_compute. reflexivity.
  - intros state step. reflexivity.
  - exists r. split; [exact Hr | exact Hl].
Defined.

(** X12. [_process_pdf] returns the texts of the pages joined in page
    order when every page can be read and the document closes; if a page
    cannot be read, the text of the pages before it is dropped and the
    result is the [PDF Error] text of that page's exception. *)
Theorem pdf_pages_in_order
    (P : Platform) (path : string) (texts : list string) :
  (fitz_open P path = Return (Return <$> texts) →
   fitz_close P path = Return tt →
   _process_pdf P path = Return (foldr String.append "" texts))
  ∧ (∀ e rest,
       fitz_open P path = Return ((Return <$> texts) ++ Raise e :: rest) →
       _process_pdf P path = Return ("PDF Error: " +:+ exn_str e)).
Proof.
  split.
  - intros Hopen Hclose. rewrite _process_pdf_result, Hopen.
    unfold pdf_text. rewrite pdf_text_all_pages, Hclose.
    by rewrite foldl_append.
  - intros e rest Hopen. rewrite _process_pdf_result, Hopen.
    unfold pdf_text. by rewrite pdf_text_failing_page.
Qed.

Lemma pdf_pages_in_order_witness :
  _process_pdf sample_platform "lab.pdf" = Return "Haemoglobin: normal. End.".
Proof.
  apply (proj1 (pdf_pages_in_order sample_platform "lab.pdf"
                  ["Haemoglobin: normal. "; "End."]));
    reflexivity.
Defined.


(* ===================================================================== *)
(** * The image texts and the verdict *)
(* ===================================================================== *)

Section ImageTexts.

Variable P : Platform.
Variable img : Type.
Variable open : string → outcome img.
Variable to_string : img → outcome string.

Let P' := with_ocr P img open to_string.

Lemma ocr_step_agrees fp res res' kl :
  same_but_ocr res res' →
  outcomes_agree same_but_ocr (ocr_step P fp res kl) (ocr_step P' fp res' kl).
Proof.
  intros (Hs & Hst & Hd & Hl & Hv & Hf). destruct kl as [key label].
  unfold ocr_step. destruct (get_truthy fp key); [| by repeat split].
  change (update_state P') with (update_state P).
  destruct (update_state P _ _); [| done]. cbn [mbind outcome_bind].
  destruct (getitem fp key) as [path |]; [| done]. cbn [mbind outcome_bind].
  destruct (String.eqb key "lab_pdf").
  - change (_process_pdf P') with (_process_pdf P).
    rewrite _process_pdf_result.
    cbn [mbind outcome_bind mret outcome_ret outcomes_agree].
    repeat split; cbn [status steps_completed dicom_metadata
      lab_report_text validation_result fhir_bundle]; congruence.
  - rewrite !_process_image_ocr_result.
    cbn [mbind outcome_bind mret outcome_ret outcomes_agree].
    repeat split; cbn [status steps_completed dicom_metadata
      lab_report_text validation_result fhir_bundle]; congruence.
Qed.

Lemma ocr_loop_agrees fp roles res res' :
  same_but_ocr res res' →
  outcomes_agree same_but_ocr (for_each (ocr_step P fp) res roles)
                              (for_each (ocr_step P' fp) res' roles).
Proof.
  revert res res'. induction roles as [| kl roles IH]; intros res res' Hrel.
  - done.
  - cbn [for_each]. pose proof (ocr_step_agrees fp res res' kl Hrel) as Hstep.
    destruct (ocr_step P fp res kl), (ocr_step P' fp res' kl); try done.
    cbn [mbind outcome_bind]. by apply IH.
Qed.

Lemma process_claim_body_agrees cd fp :
  outcomes_agree same_but_ocr (process_claim_body P cd fp)
                              (process_claim_body P' cd fp).
Proof.
  rewrite !process_claim_body_stages.
  change (update_state P') with (update_state P).
  change (_process_dicom P') with (_process_dicom P).
  destruct (update_state P "PROCESSING" _); [| done].
  cbn [mbind outcome_bind].
  destruct (getitem fp "dicom"); [| done]. cbn [mbind outcome_bind].
  destruct (_process_dicom P _) as [dm |]; [| done]. cbn [mbind outcome_bind].
  assert (same_but_ocr (results_after_dicom dm) (results_after_dicom dm))
    as Hinit by (by repeat split).
  pose proof (ocr_loop_agrees fp ocr_roles _ _ Hinit) as Hloop.
  destruct (for_each (ocr_step P fp) _ _) as [res |],
           (for_each (ocr_step P' fp) _ _) as [res' |];
    cbn [mbind outcome_bind]; try done.
  destruct Hloop as (_ & Hst & _ & Hl & _).
  destruct (update_state P "VALIDATING" _); [| done].
  cbn [mbind outcome_bind outcomes_agree mret outcome_ret].
  unfold same_but_ocr, finished_results, _run_validation_engine.
  cbn [status steps_completed dicom_metadata lab_report_text
       validation_result fhir_bundle].
  rewrite Hl, Hst. by repeat split.
Qed.

End ImageTexts.

(** X13. The text read from the identity and consent images never reaches
    the verdict: with any other behaviour of the image libraries the task
    returns the same status, steps, DICOM metadata, lab text, validation
    result and FHIR bundle, and an ERROR return is the same ERROR. Only
    the [ocr_results] entries can differ. *)
Theorem image_text_never_validated
    (P : Platform) (img : Type) (open : string → outcome img)
    (to_string : img → outcome string)
    (cd : ClaimData) (file_paths : gmap string string) :
  (∀ r, process_claim_async P cd file_paths = Return (ReturnResults r) →
        ∃ r', process_claim_async (with_ocr P img open to_string) cd
                file_paths = Return (ReturnResults r')
              ∧ same_but_ocr r r')
  ∧ (∀ s e, process_claim_async P cd file_paths = Return (ReturnError s e) →
            process_claim_async (with_ocr P img open to_string) cd
              file_paths = Return (ReturnError s e)).
Proof.
  pose proof (process_claim_body_agrees P img open to_string cd file_paths)
    as Hagree.
  rewrite !process_claim_async_result.
  destruct (process_claim_body P cd file_paths) as [r |],
           (process_claim_body (with_ocr P img open to_string) cd file_paths)
             as [r' |]; try done; cbn in Hagree.
  - split; [| done]. intros ? [= <-]. by exists r'.
  - split; [done |]. intros s e' [= <- <-]. by subst.
Qed.

Lemma image_text_never_validated_witness :
  ∃ r r',
    process_claim_async sample_platform sample_claim
      (<["identity_doc" := "/srv/temp_uploads/t1/id.png"]> sample_paths)
    = Return (ReturnResults r)
    ∧ process_claim_async
        (with_ocr sample_platform unit
           (λ _, Raise (Exception "TesseractNotFoundError" "not installed"))
           (λ _, Return ""))
        sample_claim
        (<["identity_doc" := "/srv/temp_uploads/t1/id.png"]> sample_paths)
      = Return (ReturnResults r')
    ∧ status r' = status r
    ∧ validation_result r' = validation_result r.
Proof.
  assert (∃ r, process_claim_async sample_platform sample_claim
                 (<["identity_doc" := "/srv/temp_uploads/t1/id.png"]>
                    sample_paths)
               = Return (ReturnResults r)) as [r Hr]
    by (eexists; vm_compute; reflexivity).
  destruct (proj1 (image_text_never_validated sample_platform unit
                     (λ _, Raise (Exception "TesseractNotFoundError"
                                    "not installed"))
                     (λ _, Return "") sample_claim
                     (<["identity_doc" := "/srv/temp_uploads/t1/id.png"]>
                        sample_paths)) r Hr)
    as (r' & Hr' & Hs & _ & _ & _ & Hv & _).
  exists r, r'. split; [exact Hr |]. split; [exact Hr' |].
  split; [exact Hs | exact Hv].
Defined.


(* ===================================================================== *)
(** * The server across requests *)
(* ===================================================================== *)

Section ServerRuns.

Variable P : Platform.

(** The three ways a submission can end. *)
Lemma submit_cases uuid4 form σ :
  let key := effective_key form in
  let saved := written_uploads P (upload_dir P uuid4) form (disk σ) in
  (∃ original,
     IDEMPOTENCY_DB σ !! key = Some original
     ∧ submit_claim_async P uuid4 form σ
       = (Return (Conflict409 "Duplicate Submission Detected" original), σ))
  ∨ (∃ e σ',
       IDEMPOTENCY_DB σ !! key = None
       ∧ submit_claim_async P uuid4 form σ = (Raise e, σ')
       ∧ IMMUTABLE_LOGS σ' = IMMUTABLE_LOGS σ
       ∧ IDEMPOTENCY_DB σ' = IDEMPOTENCY_DB σ
       ∧ celery_queue σ' = celery_queue σ)
  ∨ (∃ cd,
       IDEMPOTENCY_DB σ !! key = None
       ∧ prepare_claim_data P form = Return cd
       ∧ submit_claim_async P uuid4 form σ
         = (Return (Accepted "Claim accepted." uuid4 key),
            {| IMMUTABLE_LOGS := IMMUTABLE_LOGS σ;
               IDEMPOTENCY_DB := <[key := uuid4]> (IDEMPOTENCY_DB σ);
               celery_queue := celery_queue σ ++ [(uuid4, cd, saved.1)];
               temp_dirs := temp_dirs σ ++ [upload_dir P uuid4];
               disk := saved.2 |})).
Proof.
  cbv zeta. unfold submit_claim_async, upload_dir. cbv zeta.
  destruct (IDEMPOTENCY_DB σ !! effective_key form) as [original |];
    [left; by exists original |].
  right.
  destruct (makedirs P _); [| left; by eexists _, _].
  destruct ((save_uploads P _ form (disk σ)).2.2) eqn:Hsaved;
    [left; by eexists _, _ |].
  destruct (prepare_claim_data P form) as [cd | e];
    [| left; by eexists _, _].
  destruct (apply_async P _ _ _); [| left; by eexists _, _].
  right. exists cd. by apply save_uploads_ok in Hsaved as [-> ->].
Qed.

Lemma run_snoc σ reqs req :
  run P σ (reqs ++ [req]) = handle P (run P σ reqs) req.
Proof. unfold run. by rewrite foldl_snoc. Qed.

Lemma handle_logs σ req :
  IMMUTABLE_LOGS (handle P σ req)
  = IMMUTABLE_LOGS σ ++ option_list (log_of req).
Proof.
  destruct req as [uuid4 form | utcnow tid did why]; [| done].
  cbn [handle log_of option_list]. rewrite app_nil_r.
  destruct (submit_cases uuid4 form σ)
    as [(o & _ & ->) | [(e & σ' & _ & -> & Hlogs & _) | (cd & _ & _ & ->)]];
    done.
Qed.

Lemma run_logs reqs σ :
  IMMUTABLE_LOGS (run P σ reqs) = IMMUTABLE_LOGS σ ++ omap log_of reqs.
Proof.
  revert σ. induction reqs as [| req reqs IH]; intros σ.
  - by rewrite app_nil_r.
  - cbn [run foldl]. fold (run P (handle P σ req) reqs).
    rewrite IH, handle_logs, <- app_assoc. f_equal.
    by destruct req.
Qed.

Lemma override_log_verifies utcnow tid did why :
  seal_verifies (override_log utcnow tid did why) = true
  ∧ override_log utcnow tid did why !! "event" = Some "OVERRIDE".
Proof.
  unfold seal_verifies, str_get, override_log.
  repeat (rewrite ?lookup_insert_eq; rewrite ?lookup_insert_ne by done).
  by rewrite String.eqb_refl.
Qed.

Lemma handle_ledger σ req :
  ledger_consistent σ → ledger_consistent (handle P σ req).
Proof.
  intros [Hsize Hids].
  destruct req as [uuid4 form | utcnow tid did why]; [| done].
  cbn [handle].
  destruct (submit_cases uuid4 form σ)
    as [(o & _ & ->) | [(e & σ' & _ & -> & _ & Hdb & Hq)
                       | (cd & Hfree & _ & ->)]];
    [done | | ].
  { cbn [snd]. split; [by rewrite Hdb, Hq |].
    intros t. unfold queued_ids. rewrite Hdb, Hq. apply Hids. }
  unfold ledger_consistent, queued_ids. cbn [snd IDEMPOTENCY_DB celery_queue].
  split.
  - rewrite map_size_insert_None by done. rewrite length_app. cbn. lia.
  - intros t. rewrite !fmap_app, elem_of_app. cbn [fmap list_fmap fst].
    rewrite list_elem_of_singleton, <- (Hids t). split.
    + intros [k Hk]. destruct (decide (effective_key form = k)) as [<- | Hne].
      * rewrite lookup_insert_eq in Hk. right. congruence.
      * rewrite lookup_insert_ne in Hk by done. left. by exists k.
    + intros [[k Hk] | ->].
      * exists k. rewrite lookup_insert_ne; [done |]. congruence.
      * exists (effective_key form). apply lookup_insert_eq.
Qed.

End ServerRuns.

(** X14. Starting from the empty server, after any sequence of requests
    there is exactly one queued task per bound idempotency key: the number
    of bound keys equals the number of tasks handed to Celery, and a task
    id is bound to some key exactly when it was queued. *)
Theorem one_task_per_key (P : Platform) (reqs : list Request) :
  let σ := run P empty_server reqs in
  size (IDEMPOTENCY_DB σ) = length (celery_queue σ)
  ∧ ∀ t, (∃ k, IDEMPOTENCY_DB σ !! k = Some t) ↔ t ∈ queued_ids σ.
Proof.
  cbv zeta. induction reqs as [| req reqs IH] using rev_ind.
  - split; [done |]. intros t. split.
    + by intros [k Hk].
    + by intros ?%elem_of_nil.
  - rewrite run_snoc. by apply handle_ledger.
Qed.

(** X15. The override log is append-only and written by overrides alone:
    after any sequence of requests the log is the log before, followed by
    one entry per override request, in request order; submissions add
    nothing and no entry is ever changed or removed. *)
Theorem log_append_only (P : Platform) (σ : Server) (reqs : list Request) :
  view_logs (run P σ reqs) = view_logs σ ++ omap log_of reqs
  ∧ view_logs σ `prefix_of` view_logs (run P σ reqs)
  ∧ ∀ i entry, view_logs σ !! i = Some entry →
               view_logs (run P σ reqs) !! i = Some entry.
Proof.
  unfold view_logs. rewrite run_logs. split; [done |].
  split; [by apply prefix_app_r |].
  intros i entry Hi. by apply lookup_app_l_Some.
Qed.

(** X16. Starting from the empty server, every entry of the log is an
    OVERRIDE entry whose seal verifies against its own task id, doctor id
    and reason. *)
Theorem log_entries_verify (P : Platform) (reqs : list Request) :
  Forall (λ entry, seal_verifies entry = true
                   ∧ entry !! "event" = Some "OVERRIDE")
         (view_logs (run P empty_server reqs)).
Proof.
  unfold view_logs. rewrite run_logs. cbn [IMMUTABLE_LOGS empty_server app].
  apply Forall_forall. intros entry (req & Hreq & Hlog)%list_elem_of_omap.
  destruct req as [| utcnow tid did why]; [done |].
  injection Hlog as <-. apply override_log_verifies.
Qed.

(** X17. A client-supplied key, when not empty, is used as it is: once a
    submission with the key is accepted, every later submission carrying
    the same key is answered 409 with the first task id and changes
    nothing, whatever patient, document and diagnosis it names. *)
Theorem client_key_wins
    (P : Platform) (uuid1 uuid2 : string) (form1 form2 : Form.t)
    (σ σ1 : Server) (msg tid key k : string) (between : list Request) :
  k ≠ "" →
  Form.idempotency_key form1 = Some k →
  Form.idempotency_key form2 = Some k →
  submit_claim_async P uuid1 form1 σ = (Return (Accepted msg tid key), σ1) →
  key = k
  ∧ tid = uuid1
  ∧ submit_claim_async P uuid2 form2 (run P σ1 between)
    = (Return (Conflict409 "Duplicate Submission Detected" tid),
       run P σ1 between).
Proof.
  intros Hk H1 H2 Hsub.
  assert (∀ form, Form.idempotency_key form = Some k →
                  effective_key form = k) as Hkey.
  { intros form Hf. unfold effective_key. rewrite Hf. by destruct k. }
  apply submit_accepted in Hsub as (cd & _ & _ & -> & -> & _ & Hdb & _).
  split; [by apply Hkey |]. split; [done |].
  apply submit_duplicate, run_keeps_binding.
  rewrite (Hkey form2 H2), Hdb, (Hkey form1 H1). apply lookup_insert_eq.
Qed.

Lemma client_key_wins_witness :
  effective_key keyed_form = "order-42"
  ∧ ∃ σ1,
      submit_claim_async sample_platform "uuid-1" keyed_form empty_server
      = (Return (Accepted "Claim accepted." "uuid-1" "order-42"), σ1)
      ∧ submit_claim_async sample_platform "uuid-2" keyed_form_other_patient
          (run sample_platform σ1 [])
        = (Return (Conflict409 "Duplicate Submission Detected" "uuid-1"),
           run sample_platform σ1 []).
Proof.
  split; [reflexivity |].
  eexists. split; [vm_compute; reflexivity |].
  eapply (client_key_wins sample_platform "uuid-1" "uuid-2" keyed_form
            keyed_form_other_patient empty_server _ "Claim accepted."
            "uuid-1" "order-42" "order-42" []);
    [done | reflexivity | reflexivity | vm_compute; reflexivity].
Defined.

Lemma log_append_only_witness :
  view_logs
    (run sample_platform empty_server
       [Override "2025-01-01T10:00:00" "T1" "D1" "reviewed";
        Submit "uuid-1" sample_form;
        Override "2025-01-02T09:30:00" "T2" "D1" "second look"])
  !! 0%nat
  = Some (override_log "2025-01-01T10:00:00" "T1" "D1" "reviewed").
Proof.
  apply (proj2 (proj2 (log_append_only sample_platform
                         (run sample_platform empty_server
                            [Override "2025-01-01T10:00:00" "T1" "D1"
                               "reviewed"])
                         [Submit "uuid-1" sample_form;
                          Override "2025-01-02T09:30:00" "T2" "D1"
                            "second look"]))).
  reflexivity.
Defined.

(* ===================================================================== *)
(** * Stored uploads *)
(* ===================================================================== *)

Section Uploads.

Variable P : Platform.

Lemma written_file_on_disk tmp f key acc :
  paths_on_disk acc → paths_on_disk (written_file P tmp f key acc).
Proof.
  intros Hacc role path. unfold written_file. cbn [fst snd].
  destruct (decide (key = role)) as [-> | Hne].
  - rewrite lookup_insert_eq. intros [= <-]. rewrite lookup_insert_eq.
    by eexists.
  - rewrite lookup_insert_ne by done. intros Hrole%Hacc.
    destruct (decide (path_join P tmp (filename f) = path)) as [-> | Hp].
    + rewrite lookup_insert_eq. by eexists.
    + by rewrite lookup_insert_ne.
Qed.

Lemma written_optional_on_disk tmp o key acc :
  paths_on_disk acc → paths_on_disk (written_optional P tmp o key acc).
Proof. destruct o; [apply written_file_on_disk | done]. Qed.

Lemma written_uploads_on_disk tmp form disk0 :
  paths_on_disk (written_uploads P tmp form disk0).
Proof.
  unfold written_uploads.
  repeat apply written_optional_on_disk. apply written_file_on_disk.
  by intros role path Hrole.
Qed.

Lemma written_uploads_dicom tmp form disk0 :
  (written_uploads P tmp form disk0).1 !! "dicom"
  = Some (path_join P tmp (filename (Form.dicom_file form))).
Proof.
  unfold written_uploads. rewrite !written_optional_lookup, written_file_lookup.
  repeat (rewrite decide_False by done). by rewrite decide_True by done.
Qed.

Lemma written_uploads_identity_doc tmp form disk0 :
  (written_uploads P tmp form disk0).1 !! "identity_doc"
  = (λ f, path_join P tmp (filename f)) <$> Form.identity_document_image form.
Proof.
  unfold written_uploads. rewrite !written_optional_lookup, written_file_lookup.
  repeat (rewrite decide_False by done). rewrite decide_True by done.
  destruct (Form.identity_document_image form); [done |].
  by repeat (rewrite decide_False by done).
Qed.

Lemma written_uploads_roles tmp form disk0 role :
  is_Some ((written_uploads P tmp form disk0).1 !! role) →
  role ∈ document_roles.
Proof.
  destruct (decide (role ∈ document_roles)) as [Hin | Hout]; [done |].
  unfold document_roles in Hout.
  rewrite !not_elem_of_union, !not_elem_of_singleton in Hout.
  destruct Hout as ((((? & ?) & ?) & ?) & ?).
  unfold written_uploads. rewrite !written_optional_lookup, written_file_lookup.
  repeat (rewrite decide_False by done). cbn [fst].
  rewrite lookup_empty. by intros [? ?].
Qed.

Lemma written_optional_disk tmp f key acc :
  (written_optional P tmp (Some f) key acc).2
  = <[path_join P tmp (filename f) := file f]> acc.2.
Proof. reflexivity. Qed.

End Uploads.

(** X18. A submission that fails after the idempotency check binds no
    key, queues no task and writes no log entry, so the same submission
    can be sent again. When it is the payload that cannot be decoded,
    the uploads have been written by then and are left behind: the
    upload directory has been created and the DICOM file is in it. *)
Theorem bad_payload_leaves_uploads
    (P : Platform) (uuid4 : string) (form : Form.t) (σ : Server) :
  (∀ e σ',
     submit_claim_async P uuid4 form σ = (Raise e, σ') →
     IDEMPOTENCY_DB σ' = IDEMPOTENCY_DB σ
     ∧ celery_queue σ' = celery_queue σ
     ∧ view_logs σ' = view_logs σ)
  ∧ (∀ e,
       IDEMPOTENCY_DB σ !! effective_key form = None →
       makedirs P (upload_dir P uuid4) = Return tt →
       (save_uploads P (upload_dir P uuid4) form (disk σ)).2.2 = None →
       prepare_claim_data P form = Raise e →
       let result := submit_claim_async P uuid4 form σ in
       result.1 = Raise e
       ∧ IDEMPOTENCY_DB result.2 !! effective_key form = None
       ∧ temp_dirs result.2 = temp_dirs σ ++ [upload_dir P uuid4]
       ∧ is_Some (disk result.2
                  !! path_join P (upload_dir P uuid4)
                       (filename (Form.dicom_file form)))).
Proof.
  split.
  - intros e σ' Hsub.
    destruct (submit_cases P uuid4 form σ)
      as [(o & _ & Hs) | [(e' & σ1 & _ & Hs & Hl & Hdb & Hq)
                         | (cd & _ & _ & Hs)]];
      rewrite Hs in Hsub; [done | | done].
    injection Hsub as ? ?. subst. unfold view_logs.
    by rewrite Hl, Hdb, Hq.
  - intros e Hfree Hmk Hsaved Hbad. cbv zeta.
    unfold submit_claim_async. cbv zeta. unfold upload_dir in *.
    rewrite Hfree, Hmk, Hsaved, Hbad.
    cbn [fst snd IDEMPOTENCY_DB temp_dirs disk].
    repeat (split; [done |]).
    apply save_uploads_ok in Hsaved as [_ ->].
    apply (written_uploads_on_disk P _ form (disk σ) "dicom").
    apply written_uploads_dicom.
Qed.

Lemma bad_payload_leaves_uploads_witness :
  (submit_claim_async sample_platform "uuid-9" bad_json_form empty_server).1
  = Raise (Exception "JSONDecodeError" "Expecting value")
  ∧ is_Some (disk (submit_claim_async sample_platform "uuid-9" bad_json_form
                     empty_server).2
             !! "/srv/temp_uploads/uuid-9/scan.dcm").
Proof.
  destruct (proj2 (bad_payload_leaves_uploads sample_platform "uuid-9"
                     bad_json_form empty_server)
              (Exception "JSONDecodeError" "Expecting value"))
    as (Hresp & _ & _ & Hdisk);
    [vm_compute; reflexivity | reflexivity | vm_compute; reflexivity
     | reflexivity |].
  split; [exact Hresp | exact Hdisk].
Defined.

(** X19. What an accepted submission hands to the worker: the file paths
    always hold, for the DICOM file, the path [os.path.join] gives for
    the upload directory and the client-side file name; they hold a path
    for an optional document exactly when that document was uploaded,
    hold no other key, and every path they hold names a file that has
    been written to disk. *)
Theorem accepted_uploads_are_stored
    (P : Platform) (uuid4 : string) (form : Form.t) (σ σ' : Server)
    (msg tid key : string) :
  submit_claim_async P uuid4 form σ = (Return (Accepted msg tid key), σ') →
  ∃ cd fp,
    celery_queue σ' = celery_queue σ ++ [(tid, cd, fp)]
    ∧ fp !! "dicom"
      = Some (path_join P (upload_dir P tid) (filename (Form.dicom_file form)))
    ∧ (is_Some (fp !! "lab_pdf") ↔ is_Some (Form.lab_report_pdf form))
    ∧ (is_Some (fp !! "patient_photo")
       ↔ is_Some (Form.geotagged_patient_photo form))
    ∧ (is_Some (fp !! "identity_doc")
       ↔ is_Some (Form.identity_document_image form))
    ∧ (is_Some (fp !! "consent_image")
       ↔ is_Some (Form.consent_form_image form))
    ∧ dom fp ⊆ document_roles
    ∧ ∀ role path, fp !! role = Some path → is_Some (disk σ' !! path).
Proof.
  intros Hsub.
  destruct (submit_cases P uuid4 form σ)
    as [(o & _ & Hs) | [(e & σ1 & _ & Hs & _) | (cd & _ & _ & Hs)]];
    rewrite Hs in Hsub; [done | done |].
  injection Hsub as <- <- <- <-.
  eexists cd, _. split; [done |].
  split; [apply written_uploads_dicom |].
  rewrite written_uploads_lab_pdf, written_uploads_patient_photo,
    written_uploads_identity_doc, written_uploads_consent_image.
  rewrite !fmap_is_Some. repeat (split; [done |]). split.
  - intros role Hrole%elem_of_dom. by apply written_uploads_roles in Hrole.
  - apply written_uploads_on_disk.
Qed.

Lemma accepted_uploads_are_stored_witness :
  ∃ cd fp,
    celery_queue sample_server = [("uuid-1", cd, fp)]
    ∧ fp !! "dicom" = Some "/srv/temp_uploads/uuid-1/scan.dcm"
    ∧ is_Some (disk sample_server !! "/srv/temp_uploads/uuid-1/scan.dcm").
Proof.
  destruct (accepted_uploads_are_stored sample_platform "uuid-1" sample_form
              empty_server sample_server "Claim accepted." "uuid-1"
              (effective_key sample_form))
    as (cd & fp & Hq & Hd & _ & _ & _ & _ & _ & Hdisk);
    [vm_compute; reflexivity |].
  exists cd, fp. split; [exact Hq |]. split; [exact Hd |].
  apply (Hdisk "dicom"). exact Hd.
Defined.

(** X20. Uploads are stored under the path [os.path.join] gives for
    their client-side names, so two uploads of one submission that share
    a name share a path, and the consent image, written last, wins: when
    it has the name of the DICOM file and every upload could be written,
    the path recorded for the DICOM file is the path of the consent image
    and the file there holds the bytes of the consent image. *)
Theorem consent_image_overwrites_same_name
    (P : Platform) (temp_dir : string) (form : Form.t)
    (disk0 : gmap string string) (f : UploadFile) :
  Form.consent_form_image form = Some f →
  filename f = filename (Form.dicom_file form) →
  let saved := save_uploads P temp_dir form disk0 in
  saved.2.2 = None →
  saved.1 !! "dicom" = saved.1 !! "consent_image"
  ∧ ∀ path, saved.1 !! "dicom" = Some path →
            saved.2.1 !! path = Some (file f).
Proof.
  intros Hconsent Hname. cbv zeta. intros [-> ->]%save_uploads_ok.
  rewrite written_uploads_dicom, written_uploads_consent_image, Hconsent.
  cbn [fmap option_fmap option_map]. rewrite Hname. split; [done |].
  intros path [= <-]. unfold written_uploads. rewrite Hconsent.
  rewrite written_optional_disk, Hname. apply lookup_insert_eq.
Qed.

Lemma consent_image_overwrites_same_name_witness :
  (save_uploads sample_platform "/srv/temp_uploads/t3" same_name_form ∅).2.1
  !! "/srv/temp_uploads/t3/scan.dcm"
  = Some "PNG".
Proof.
  apply (proj2 (consent_image_overwrites_same_name sample_platform
                  "/srv/temp_uploads/t3" same_name_form ∅
                  {| filename := "scan.dcm"; file := "PNG" |}
                  eq_refl eq_refl eq_refl)).
  reflexivity.
Defined.

(** X21. The seal is taken over task id, doctor id and reason written
    one after the other without a separator, so text can move from the
    end of one field to the start of the next without changing the seal:
    entries for different tasks, doctors or reasons can carry the same
    seal. *)
Theorem seal_ignores_field_boundaries
    (utcnow utcnow' a b c d : string) :
  override_log utcnow (a +:+ b) c d !! "signature"
  = override_log utcnow' a (b +:+ c) d !! "signature"
  ∧ override_log utcnow a (b +:+ c) d !! "signature"
    = override_log utcnow' a b (c +:+ d) !! "signature".
Proof.
  unfold override_log.
  repeat (rewrite ?lookup_insert_eq; rewrite ?lookup_insert_ne by done).
  by rewrite !append_assoc.
Qed.

(** The derived key is taken over the three fields joined by
    hyphens, so a hyphenated part can move between patient id and
    document name, or between document name and diagnosis, without
    changing the key. *)
Theorem derived_key_ignores_field_boundaries (a b c d : string) :
  sha256_hex (key_raw (a +:+ "-" +:+ b) c d)
  = sha256_hex (key_raw a (b +:+ "-" +:+ c) d)
  ∧ sha256_hex (key_raw a (b +:+ "-" +:+ c) d)
    = sha256_hex (key_raw a b (c +:+ "-" +:+ d)).
Proof. unfold key_raw. by rewrite !append_assoc. Qed.


(* ===================================================================== *)
(** * The test-file script *)
(* ===================================================================== *)

Section EditScript.

Lemma edit_dataset_elements date time ds k :
  elements (edit_dataset date time ds) !! k
  = if decide (k = "StudyTime") then Some time
    else if decide (k = "StudyDate") then Some date
    else if decide (k = "PatientName") then Some NEW_PATIENT_NAME
    else if decide (k = "PatientID") then Some NEW_PATIENT_ID
    else elements ds !! k.
Proof.
  unfold edit_dataset. destruct (file_meta ds); cbn [elements].
  all: repeat case_decide; subst;
    by repeat (rewrite ?lookup_insert_eq; rewrite ?lookup_insert_ne by done).
Qed.

End EditScript.

(** X22. The script does what its configuration comment asks for. When
    the input file can be read, has a PatientID and the output can be
    written, the saved file carries the new patient id and name and the
    given study date and time, keeps every other element and an existing
    file meta block; and [_process_dicom], reading that file, reports
    the new patient id, so Rule 1 raises nothing for a claim that
    declares it. *)
Theorem edited_file_passes_identity_check
    (read : string → outcome DicomFile)
    (save_as : string → DicomFile → outcome unit)
    (date time old : string) (ds : DicomFile) :
  read INPUT_FILE = Return ds →
  elements ds !! "PatientID" = Some old →
  save_as OUTPUT_FILE (edit_dataset date time ds) = Return tt →
  ∃ out,
    (edit_dicom read save_as date time).2 = Some out
    ∧ out = edit_dataset date time ds
    ∧ elements out !! "PatientID" = Some NEW_PATIENT_ID
    ∧ elements out !! "PatientName" = Some NEW_PATIENT_NAME
    ∧ elements out !! "StudyDate" = Some date
    ∧ elements out !! "StudyTime" = Some time
    ∧ (∀ k, k ∉ edited_keywords → elements out !! k = elements ds !! k)
    ∧ (∀ meta, file_meta ds = Some meta → file_meta out = Some meta)
    ∧ is_Some (file_meta out)
    ∧ ∀ (P : Platform) (path : string) (cd : ClaimData),
        dcmread P path = Return (elements out) →
        PyStr.strip (verified_patient_id cd) = NEW_PATIENT_ID →
        ∃ meta, _process_dicom P path = Return meta
                ∧ meta !! "PatientID" = Some NEW_PATIENT_ID
                ∧ rule1 cd meta = [].
Proof.
  intros Hread Hold Hsave. exists (edit_dataset date time ds).
  split.
  { unfold edit_dicom, get_PatientID. by rewrite Hread, Hold, Hsave. }
  split; [done |].
  rewrite !edit_dataset_elements.
  repeat (split; [by repeat case_decide |]).
  split.
  { intros k Hk. unfold edited_keywords in Hk.
    rewrite !not_elem_of_cons in Hk. destruct Hk as (? & ? & ? & ? & _).
    rewrite edit_dataset_elements. by repeat (rewrite decide_False by done). }
  split.
  { intros meta Hmeta. unfold edit_dataset. by rewrite Hmeta. }
  split.
  { unfold edit_dataset. by destruct (file_meta ds). }
  intros P path cd Hdcm Hid. eexists.
  split; [by rewrite _process_dicom_result, Hdcm |].
  assert (dicom_summary (elements (edit_dataset date time ds)) !! "PatientID"
          = Some NEW_PATIENT_ID) as Hpid.
  { rewrite dicom_summary_lookup by (apply elem_of_cons; by left).
    rewrite edit_dataset_elements. by repeat case_decide. }
  split; [exact Hpid |].
  apply rule1_match; [apply dicom_summary_no_error |].
  unfold str_get. by rewrite Hpid, Hid.
Qed.

Lemma edited_file_passes_identity_check_witness :
  ∃ out,
    (edit_dicom (λ _, Return sample_dicom_file) (λ _ _, Return tt)
       "20250101" "101500").2 = Some out
    ∧ elements out !! "Modality" = Some "CT"
    ∧ rule1 (with_patient_id sample_claim " PATIENT_GOOD_001 ")
            (dicom_summary (elements out)) = [].
Proof.
  destruct (edited_file_passes_identity_check
              (λ _, Return sample_dicom_file) (λ _ _, Return tt)
              "20250101" "101500" "ANON" sample_dicom_file
              eq_refl eq_refl eq_refl)
    as (out & Hout & _ & _ & _ & _ & _ & Hkeep & _ & _ & Hcheck).
  exists out. split; [exact Hout |]. split.
  - rewrite Hkeep; [reflexivity |].
    unfold edited_keywords. rewrite !not_elem_of_cons.
    repeat split; try done. apply not_elem_of_nil.
  - destruct (Hcheck (reads_back out) "test_patient_good.dcm"
                (with_patient_id sample_claim " PATIENT_GOOD_001 ")
                eq_refl eq_refl) as (meta & Hmeta & _ & Hrule).
    rewrite _process_dicom_result in Hmeta. cbn in Hmeta.
    injection Hmeta as <-. exact Hrule.
Defined.

(** X23. The script reports SUCCESS exactly when the input was read, it
    has a PatientID and [save_as] returned. When the input cannot be
    read or has no PatientID (the progress line reads it before any
    edit), [save_as] is never called; when [save_as] raises, the edited
    data set had been handed to it. In each failure the last line
    printed is the message of the handler that caught the exception,
    which is the not-found message exactly for a [FileNotFoundError]. *)
Theorem edit_script_reports_failures
    (read : string → outcome DicomFile)
    (save_as : string → DicomFile → outcome unit) (date time : string) :
  (∀ e, read INPUT_FILE = Raise e →
        edit_dicom read save_as date time
        = (["Reading sample.dcm..."; edit_handler e], None))
  ∧ (∀ ds, read INPUT_FILE = Return ds →
           elements ds !! "PatientID" = None →
           edit_dicom read save_as date time
           = (["Reading sample.dcm...";
               "An error occurred: "
               +:+ "'FileDataset' object has no attribute 'PatientID'"],
              None))
  ∧ (∀ ds old e, read INPUT_FILE = Return ds →
                 elements ds !! "PatientID" = Some old →
                 save_as OUTPUT_FILE (edit_dataset date time ds) = Raise e →
                 edit_dicom read save_as date time
                 = (["Reading sample.dcm...";
                     "Changing PatientID from '" +:+ old
                     +:+ "' to 'PATIENT_GOOD_001'...";
                     edit_handler e],
                    Some (edit_dataset date time ds)))
  ∧ ("SUCCESS! Saved new DICOM file to: test_patient_good.dcm"
       ∈ (edit_dicom read save_as date time).1
     ↔ ∃ ds, read INPUT_FILE = Return ds
             ∧ is_Some (elements ds !! "PatientID")
             ∧ save_as OUTPUT_FILE (edit_dataset date time ds) = Return tt)
  ∧ (∀ e, edit_handler e
          = "ERROR: Could not find sample.dcm. Make sure it's in the same folder as this script."
          ↔ exn_class e = "FileNotFoundError").
Proof.
  assert (∀ e, "SUCCESS! Saved new DICOM file to: test_patient_good.dcm"
               ≠ edit_handler e) as Hhandler.
  { intros e H. apply (f_equal (String.get 0%nat)) in H.
    unfold edit_handler in H.
    destruct (String.eqb _ _); vm_compute in H; discriminate H. }
  split; [| split; [| split; [| split]]].
  - intros e Hread. unfold edit_dicom. by rewrite Hread.
  - intros ds Hread Hnone. unfold edit_dicom, get_PatientID.
    by rewrite Hread, Hnone.
  - intros ds old e Hread Hold Hsave. unfold edit_dicom, get_PatientID.
    by rewrite Hread, Hold, Hsave.
  - unfold edit_dicom, get_PatientID.
    destruct (read INPUT_FILE) as [ds | e]; cbn [fst snd app].
    + destruct (elements ds !! "PatientID") as [old |] eqn:Hold;
        cbn [mret outcome_ret fst snd app].
      * destruct (save_as OUTPUT_FILE (edit_dataset date time ds))
          as [[] | e] eqn:Hsave; cbn [fst snd app].
        -- split.
           ++ intros _. exists ds. rewrite Hold.
              split; [done | split; [by eexists | done]].
           ++ intros _. rewrite !elem_of_cons. right. right. by left.
        -- rewrite !elem_of_cons, elem_of_nil. split.
           ++ intros [H | [H | [H | []]]]; [| | by apply Hhandler in H].
              all: apply (f_equal (String.get 0%nat)) in H.
              all: vm_compute in H; discriminate H.
           ++ intros (ds' & [= <-] & _ & Hs). rewrite Hsave in Hs.
              discriminate Hs.
      * rewrite !elem_of_cons, elem_of_nil. split.
        -- intros [H | [H | []]].
           all: apply (f_equal (String.get 0%nat)) in H.
           all: vm_compute in H; discriminate H.
        -- intros (ds' & [= <-] & [? Hsome] & _). by rewrite Hold in Hsome.
    + rewrite !elem_of_cons, elem_of_nil. split.
      * intros [H | [H | []]]; [| by apply Hhandler in H].
        apply (f_equal (String.get 0%nat)) in H.
        vm_compute in H; discriminate H.
      * by intros (ds' & [=] & _).
  - intros e. unfold edit_handler.
    destruct (String.eqb_spec (exn_class e) "FileNotFoundError") as [Hc | Hc].
    + by split.
    + split; [| done]. intros Heq. exfalso.
      change ("An error occurred: " +:+ exn_str e)
        with (String "A" ("n error occurred: " +:+ exn_str e)) in Heq.
      discriminate Heq.
Qed.

Lemma edit_script_reports_failures_witness :
  edit_dicom
    (λ _, Return {| elements := <["Modality" := "CT"]> ∅; file_meta := None;
                    is_little_endian := None; is_implicit_VR := None |})
    (λ _ _, Return tt) "20250101" "101500"
  = (["Reading sample.dcm...";
      "An error occurred: 'FileDataset' object has no attribute 'PatientID'"],
     None).
Proof.
  apply (proj1 (proj2 (edit_script_reports_failures
                         (λ _, Return {| elements := <["Modality" := "CT"]> ∅;
                                         file_meta := None;
                                         is_little_endian := None;
                                         is_implicit_VR := None |})
                         (λ _ _, Return tt) "20250101" "101500"))
           {| elements := <["Modality" := "CT"]> ∅; file_meta := None;
              is_little_endian := None; is_implicit_VR := None |});
    reflexivity.
Defined.
